(** * HR Signals: the dashboard client and the content intelligence pipeline

    A shallow embedding of the TypeScript sources of the HR Signals
    dashboard (the API client [services/api.ts] and the pages
    [Dashboard.tsx], [TrendsPage.tsx], [ArticlesPage.tsx] and
    [ArticleDetail.tsx]) together with the properties the specification
    states about them.

    Conventions of the embedding:
    - a JavaScript number is [Js.number]: [NaN], an infinity, or a finite
      value kept as the rational it denotes (the two zeros are one); a
      product is rounded to the nearest binary64 value, as IEEE 754
      multiplication does ([Js.binary64]), and so is the integer [parseInt]
      reads; the rounding of sums, differences and quotients is not
      modelled: the pages add and subtract timestamps in milliseconds and
      a [skip] that grows by 20, integers far below 2^53 on which binary64
      is exact, and take only the integer part of their one quotient;
    - a string is the sequence of the bytes of its UTF-8 encoding;
    - an optional field that arrives from JSON is an [Js.Opt]: absent
      ([undefined]), [null] or present;
    - what a component returns is a tree of [Jsx.Node]s; a conditional
      child [{v && <el/>}] follows the JavaScript value of [v && el] and
      React's rule for rendering that value;
    - text built from numbers is a [Js.Template], a list of literal pieces
      and of numbers still to be printed. *)

From Stdlib Require Import ZArith QArith Qround Qabs Qpower Qreduction.
From Stdlib Require Import List String Ascii Bool.
From Stdlib Require Import Lia Lqa.
From Stdlib Require Import DecimalString DecimalN.
Import ListNotations.

Set Warnings "-register-all".

Open Scope string_scope.
Open Scope list_scope.

(* ================================================================== *)
(** * JavaScript values *)
(* ================================================================== *)

Module Js.

(** A JavaScript number: [NaN], a finite value or an infinity. *)
Inductive number : Type :=
| NaN
| Num (q : Q)
| Infinity (negative : bool).

Definition of_Z (z : Z) : number := Num (inject_Z z).
Definition of_nat (n : nat) : number := of_Z (Z.of_nat n).

Definition Qltb (x y : Q) : bool := negb (Qle_bool y x).

(** ** IEEE 754 binary64 *)

Definition pow2 (e : Z) : Q := 2 ^ e.

(** The exponent [e] with [2^e <= x < 2^(e+1)], for [x > 0]. *)
Definition ilog2 (x : Q) : Z :=
  let e := (Z.log2 (Qnum x) - Z.log2 (Zpos (Qden x)))%Z in
  if Qle_bool (pow2 e) x then e else (e - 1)%Z.

(** The nearest integer, a tie going to the even one. *)
Definition round_half_even (x : Q) : Z :=
  let f := Qfloor x in
  match Qcompare (x - inject_Z f) (1 # 2) with
  | Lt => f
  | Gt => (f + 1)%Z
  | Eq => if Z.even f then f else (f + 1)%Z
  end.

(** The exponent of the unit in the last place at [x > 0]: 53 significant
    bits, and not below the subnormal spacing [2^-1074]. *)
Definition ulp_exponent (x : Q) : Z := Z.max (-1074) (ilog2 x - 52).

(** The multiple of [2^u] nearest [x], a tie going to the even multiple. *)
Definition on_grid (u : Z) (x : Q) : Q :=
  inject_Z (round_half_even (x / pow2 u)) * pow2 u.

Definition round_magnitude (x : Q) : Q := on_grid (ulp_exponent x) x.

(** The value round-to-nearest, ties-to-even gives for the real [x], with
    the exponent unbounded above. *)
Definition nearest_double (x : Q) : Q :=
  if Qeq_bool x 0 then 0
  else if Qltb x 0 then - round_magnitude (- x) else round_magnitude x.

(** The binary64 number a real result is rounded to: a magnitude that
    rounds to [2^1024] or more overflows to an infinity. *)
Definition binary64 (x : Q) : number :=
  if Qeq_bool x 0 then Num 0
  else
    let d := nearest_double x in
    if Qle_bool (pow2 1024) (Qabs d) then Infinity (Qltb x 0)
    else Num (Qred d).

(** ** Arithmetic *)

(** [a * b]: the product of two finite numbers is rounded. *)
Definition mul (a b : number) : number :=
  match a, b with
  | Num x, Num y => binary64 (x * y)
  | Infinity s, Infinity t => Infinity (xorb s t)
  | Infinity s, Num y | Num y, Infinity s =>
      if Qeq_bool y 0 then NaN else Infinity (xorb s (Qltb y 0))
  | _, _ => NaN
  end.

(** [a + b], [a - b] and [a / d] for a positive constant [d]; on finite
    numbers they are exact. *)
Definition add (a b : number) : number :=
  match a, b with
  | Num x, Num y => Num (x + y)
  | Infinity s, Infinity t => if Bool.eqb s t then Infinity s else NaN
  | Infinity s, Num _ | Num _, Infinity s => Infinity s
  | _, _ => NaN
  end.

Definition sub (a b : number) : number :=
  match a, b with
  | Num x, Num y => Num (x - y)
  | Infinity s, Infinity t => if Bool.eqb s t then NaN else Infinity s
  | Infinity s, Num _ => Infinity s
  | Num _, Infinity t => Infinity (negb t)
  | _, _ => NaN
  end.

Definition div_by (a : number) (d : positive) : number :=
  match a with
  | Num x => Num (x / inject_Z (Zpos d))
  | Infinity s => Infinity s
  | NaN => NaN
  end.

(** [a < b] and [a > b]: every comparison with [NaN] is false. *)
Definition lt (a b : number) : bool :=
  match a, b with
  | Num x, Num y => Qltb x y
  | Infinity true, Num _ | Num _, Infinity false
  | Infinity true, Infinity false => true
  | _, _ => false
  end.

Definition gt (a b : number) : bool := lt b a.

(** [Math.round]: the nearest integer, a tie going towards +infinity. *)
Definition round_half_up (q : Q) : Z := Qfloor (q + (1 # 2)).

Definition Math_round (a : number) : number :=
  match a with
  | Num q => of_Z (round_half_up q)
  | _ => a
  end.

(** [Math.floor]. *)
Definition Math_floor (a : number) : number :=
  match a with
  | Num q => of_Z (Qfloor q)
  | _ => a
  end.

(** A piece of text: a literal, or a number that [Number::toString] still
    has to print (kept symbolic where the text is not the run of all the
    digits of an integer). *)
Inductive Piece : Type :=
| Lit (s : string)
| Shown (n : number).

Definition Template : Type := list Piece.

Definition lit (s : string) : Template := [Lit s].

Definition digits (n : N) : string := NilEmpty.string_of_uint (N.to_uint n).

Definition Q_is_integer (q : Q) : bool := Qeq_bool q (inject_Z (Qfloor q)).

Definition ten_pow_21 : Q := inject_Z (10 ^ 21).

Definition two_pow_53 : Q := inject_Z (2 ^ 53).

(** [String(n)] for a number: the literals [NaN], [Infinity] and
    [-Infinity], and all the digits of an integer up to 2^53 in magnitude.
    [Number::toString] prints the shortest digits that read back as the
    same binary64 value: up to 2^53 every integer is one, so these are
    all its digits; beyond, and for a fraction, the text stays a [Shown]
    piece. *)
Definition toString (n : number) : Piece :=
  match n with
  | NaN => Lit "NaN"
  | Infinity negative => Lit (if negative then "-Infinity" else "Infinity")
  | Num q =>
      if Q_is_integer q && Qle_bool (Qabs q) two_pow_53 then
        if Qltb q 0 then Lit ("-" ++ digits (Z.to_N (- Qfloor q)))
        else Lit (digits (Z.to_N (Qfloor q)))
      else Shown n
  end.

(** The integer [n] of [Number.prototype.toFixed] with no fraction digits,
    for a magnitude [x >= 0]: the integer closest to [x], the larger one
    when two are equally close. *)
Definition nearest_integer (x : Q) : N := Z.to_N (Qfloor (x + (1 # 2))).

(** [x.toFixed(0)]: a number that is not finite is printed by
    [Number::toString]; the sign is split off first, and a magnitude of
    10^21 or more is printed by [Number::toString] too. *)
Definition toFixed0 (a : number) : Template :=
  match a with
  | NaN => [Lit "NaN"]
  | Infinity _ => [toString a]
  | Num q =>
      let s := if Qltb q 0 then "-" else "" in
      let x := Qabs q in
      if Qle_bool ten_pow_21 x then [Lit s; Shown (Num x)]
      else [Lit (s ++ digits (nearest_integer x))]
  end.

(** A field that may be absent ([undefined]), [null] or present. *)
Inductive Opt (A : Type) : Type :=
| Absent
| Null
| Present (a : A).

Arguments Absent {A}.
Arguments Null {A}.
Arguments Present {A} a.

(** [v !== null]. *)
Definition not_null {A : Type} (v : Opt A) : bool :=
  match v with
  | Null => false
  | _ => true
  end.

(** [ToNumber] of an optional number: [undefined] is [NaN], [null] is 0. *)
Definition to_number (v : Opt number) : number :=
  match v with
  | Absent => NaN
  | Null => Num 0
  | Present n => n
  end.

(** [String(v)] for an optional string, as a template literal prints it. *)
Definition to_string (v : Opt string) : string :=
  match v with
  | Absent => "undefined"
  | Null => "null"
  | Present s => s
  end.

(** [v === s] for an optional string and a string literal. *)
Definition strict_eq (v : Opt string) (s : string) : bool :=
  match v with
  | Present x => String.eqb x s
  | _ => false
  end.

(** Truthiness of the value types the pages test. *)
Class Truthy (A : Type) : Type := truthy : A -> bool.

#[export] Instance Truthy_bool : Truthy bool := fun b => b.

#[export] Instance Truthy_string : Truthy string :=
  fun s => match s with EmptyString => false | String _ _ => true end.

#[export] Instance Truthy_number : Truthy number :=
  fun n => match n with
           | NaN => false
           | Num q => negb (Qeq_bool q 0)
           | Infinity _ => true
           end.

(** An array is an object: always truthy. *)
#[export] Instance Truthy_list {A : Type} : Truthy (list A) := fun _ => true.

#[export] Instance Truthy_Opt {A : Type} `{Truthy A} : Truthy (Opt A) :=
  fun v => match v with Present a => truthy a | _ => false end.

#[export] Instance Truthy_option {A : Type} `{Truthy A} : Truthy (option A) :=
  fun v => match v with Some a => truthy a | None => false end.

(** [v || d] for an optional string and a string default. *)
Definition or_else (v : Opt string) (d : string) : string :=
  match v with
  | Present s => if truthy s then s else d
  | _ => d
  end.

(** A value of type [any], as the filter handlers receive it. *)
Inductive value : Type :=
| VUndefined
| VNull
| VBool (b : bool)
| VNum (n : number)
| VStr (s : string).

#[export] Instance Truthy_value : Truthy value :=
  fun v => match v with
           | VUndefined | VNull => false
           | VBool b => b
           | VNum n => truthy n
           | VStr s => truthy s
           end.

(** What JSON can put behind the type [any]: a primitive, an array, or an
    object (whose members play no part in what follows). *)
Inductive any : Type :=
| Primitive (v : value)
| ArrayOf (items : list any)
| PlainObject.

(** ** [parseInt] with no radix argument *)

(** The white space [parseInt] skips first is the [StrWhiteSpaceChar] of
    ECMAScript.  In ASCII: tab, LF, VT, FF, CR and space. *)
Definition is_white_space (c : ascii) : bool :=
  let n := nat_of_ascii c in
  ((9 <=? n) && (n <=? 13))%nat || (n =? 32)%nat.

Definition is_byte (n : nat) (c : ascii) : bool := (nat_of_ascii c =? n)%nat.

(** In two bytes: U+00A0, the no-break space. *)
Definition is_white_space_2 (c1 c2 : ascii) : bool :=
  is_byte 194 c1 && is_byte 160 c2.

(** In three bytes: U+1680, U+2000 to U+200A, the line and paragraph
    separators U+2028 and U+2029, U+202F, U+205F, U+3000, and the byte
    order mark U+FEFF. *)
Definition is_white_space_3 (c1 c2 c3 : ascii) : bool :=
  let n3 := nat_of_ascii c3 in
  (is_byte 225 c1 && is_byte 154 c2 && is_byte 128 c3)
  || (is_byte 226 c1 && is_byte 128 c2
      && (((128 <=? n3) && (n3 <=? 138))
          || (n3 =? 168) || (n3 =? 169) || (n3 =? 175))%nat)
  || (is_byte 226 c1 && is_byte 129 c2 && is_byte 159 c3)
  || (is_byte 227 c1 && is_byte 128 c2 && is_byte 128 c3)
  || (is_byte 239 c1 && is_byte 187 c2 && is_byte 191 c3).

Fixpoint trim_start (s : string) : string :=
  match s with
  | String c1 r1 =>
      if is_white_space c1 then trim_start r1
      else
        match r1 with
        | String c2 r2 =>
            if is_white_space_2 c1 c2 then trim_start r2
            else
              match r2 with
              | String c3 r3 =>
                  if is_white_space_3 c1 c2 c3 then trim_start r3 else s
              | EmptyString => s
              end
        | EmptyString => s
        end
  | EmptyString => s
  end.

(** The value of a digit character: 0-9, then a-z and A-Z from 10. *)
Definition digit_value (c : ascii) : option N :=
  let n := N_of_ascii c in
  if ((48 <=? n) && (n <=? 57))%N then Some (n - 48)%N
  else if ((97 <=? n) && (n <=? 122))%N then Some (n - 87)%N
  else if ((65 <=? n) && (n <=? 90))%N then Some (n - 55)%N
  else None.

(** The longest prefix of digits of the radix, read as an integer; [None]
    when that prefix is empty. *)
Fixpoint parse_digits (radix : N) (s : string) (acc : option N) : option N :=
  match s with
  | String c s' =>
      match digit_value c with
      | Some d =>
          if (d <? radix)%N then
            parse_digits radix s'
              (Some (radix * match acc with Some a => a | None => 0 end + d)%N)
          else acc
      | None => acc
      end
  | EmptyString => acc
  end.

Definition strip_sign (s : string) : Z * string :=
  match s with
  | String "-" r => ((-1)%Z, r)
  | String "+" r => (1%Z, r)
  | _ => (1%Z, s)
  end.

Definition strip_hex_prefix (s : string) : N * string :=
  match s with
  | String "0" (String "x" r) => (16%N, r)
  | String "0" (String "X" r) => (16%N, r)
  | _ => (10%N, s)
  end.

(** [parseInt(input)]: the integer the digits denote becomes the nearest
    binary64 number.  (For more than 20 significant decimal digits
    ECMAScript lets an engine read the digits after the 20th as 0; the
    engines in use read them all, as is done here.) *)
Definition parseInt (input : string) : number :=
  let (sign, s) := strip_sign (trim_start input) in
  let (radix, body) := strip_hex_prefix s in
  match parse_digits radix body None with
  | None => NaN
  | Some n => binary64 (inject_Z (sign * Z.of_N n))
  end.

End Js.

Export Js.

(* ================================================================== *)
(** * React elements *)
(* ================================================================== *)

Module Jsx.

(** What a component returns: text, or an element with its attributes
    ([className], [style.*], [to], [href], ...) and its children; and,
    where a child is typed [any], an object that was put among the
    children.  A component may return a tree with such a child, but React
    cannot render it: it throws "Objects are not valid as a React child"
    and draws nothing of the tree. *)
Inductive Node : Type :=
| Text (t : Template)
| Elem (tag : string) (attrs : list (string * Template)) (children : list Node)
| Invalid.

(** How React renders a value placed among the children: booleans, [null]
    and [undefined] render nothing, a string renders as text (the empty
    string as nothing), a number renders as its digits -- 0 and [NaN]
    included. *)
Class Child (A : Type) : Type := child : A -> list Node.

#[export] Instance Child_bool : Child bool := fun _ => [].

#[export] Instance Child_string : Child string :=
  fun s => match s with EmptyString => [] | String _ _ => [Text (lit s)] end.

#[export] Instance Child_number : Child number :=
  fun n => [Text [toString n]].

#[export] Instance Child_list {A : Type} `{Child A} : Child (list A) :=
  fun l => flat_map child l.

#[export] Instance Child_Opt {A : Type} `{Child A} : Child (Opt A) :=
  fun v => match v with Present a => child a | _ => [] end.

(** [{v && el}]: the value of [v && el] is [el] when [v] is truthy and [v]
    itself otherwise, and React renders that value. *)
Definition jsx_and {A : Type} `{Truthy A} `{Child A} (v : A) (el : list Node)
  : list Node :=
  if truthy v then el else child v.

(** [<tag className=...>children</tag>]. *)
Definition el (tag className : string) (children : list Node) : Node :=
  Elem tag [("className", lit className)] children.

Definition text (s : string) : Node := Text (lit s).

(** All text pieces of a tree, in document order. *)
Fixpoint pieces (n : Node) : list Piece :=
  match n with
  | Text t => t
  | Elem _ _ children => flat_map pieces children
  | Invalid => []
  end.

Definition pieces_of (l : list Node) : list Piece := flat_map pieces l.

End Jsx.

Export Jsx.

(* ================================================================== *)
(** * The API client: [services/api.ts] *)
(* ================================================================== *)

Module Api.

(** ** Types *)

Record Theme : Type := {
  theme_id : number;
  theme_name : string;
  theme_description : Opt string;
  theme_keywords : Opt (list string);
  theme_color : Opt string
}.

Record Sector : Type := {
  sector_id : number;
  sector_name : string;
  sector_description : Opt string
}.

Record Article : Type := {
  id : number;
  title : string;
  url : string;
  source : string;
  source_type : string;
  author : Opt string;
  published_date : string;
  scraped_date : string;
  summary : Opt string;
  key_takeaways : Opt (list string);
  primary_theme : Opt string;
  confidence_score : Opt number;
  region : Opt string;
  sentiment_score : Opt number;
  sentiment_label : Opt string;
  signal_strength : Opt number;
  is_featured : bool;
  is_emerging : bool;
  view_count : number;
  themes : list Theme;
  sectors : list Sector
}.

Record TrendDataPoint : Type := {
  dp_date : string;
  dp_article_count : number;
  dp_sentiment_avg : Opt number;
  dp_signal_strength_avg : Opt number
}.

Record Trend : Type := {
  trend_id : number;
  trend_name : string;
  trend_description : Opt string;
  trend_keywords : Opt (list string);
  trend_start_date : string;
  trend_last_updated : string;
  trend_article_count : number;
  momentum : Opt number;
  status : Opt string;
  trend_region : Opt string;
  data_points : list TrendDataPoint
}.

Record SentimentCount : Type := {
  sentiment : string;
  count : number
}.

(** [keyof ArticleFilters]. *)
Inductive FilterKey : Type :=
| K_skip | K_limit | K_theme | K_sector | K_region | K_start_date
| K_end_date | K_search | K_is_featured | K_is_emerging
| K_min_signal_strength.

Definition FilterKey_eqb (a b : FilterKey) : bool :=
  match a, b with
  | K_skip, K_skip | K_limit, K_limit | K_theme, K_theme
  | K_sector, K_sector | K_region, K_region
  | K_start_date, K_start_date | K_end_date, K_end_date
  | K_search, K_search | K_is_featured, K_is_featured
  | K_is_emerging, K_is_emerging
  | K_min_signal_strength, K_min_signal_strength => true
  | _, _ => false
  end.

Definition key_name (k : FilterKey) : string :=
  match k with
  | K_skip => "skip"
  | K_limit => "limit"
  | K_theme => "theme"
  | K_sector => "sector"
  | K_region => "region"
  | K_start_date => "start_date"
  | K_end_date => "end_date"
  | K_search => "search"
  | K_is_featured => "is_featured"
  | K_is_emerging => "is_emerging"
  | K_min_signal_strength => "min_signal_strength"
  end.

Definition all_keys : list FilterKey :=
  [ K_skip; K_limit; K_theme; K_sector; K_region; K_start_date; K_end_date;
    K_search; K_is_featured; K_is_emerging; K_min_signal_strength ].

(** An [ArticleFilters] object, as the map from its keys to what they hold;
    an absent key holds [VUndefined]. The handlers store values of type
    [any], so a key holds a [value]. *)
Definition ArticleFilters : Type := FilterKey -> value.

(** [{ ...obj, [key]: v }]. *)
Definition with_key (obj : ArticleFilters) (key : FilterKey) (v : value)
  : ArticleFilters :=
  fun k => if FilterKey_eqb k key then v else obj k.

(** ** Requests *)

Inductive Method : Type :=
| GET | POST | PUT | PATCH | DELETE | HEAD | OPTIONS.

Record Request : Type := {
  req_method : Method;
  req_baseURL : string;
  req_headers : list (string * string);
  req_url : Template;
  req_params : list (string * value)
}.

Record AxiosInstance : Type := {
  baseURL : string;
  headers : list (string * string)
}.

(** [instance.get(url, { params })]. *)
Definition axios_get (inst : AxiosInstance) (url : Template)
    (params : list (string * value)) : Request :=
  {| req_method := GET;
     req_baseURL := baseURL inst;
     req_headers := headers inst;
     req_url := url;
     req_params := params |}.

(** The [params] an [ArticleFilters] object contributes, in the order of
    the interface. *)
Definition filter_params (f : ArticleFilters) : list (string * value) :=
  map (fun k => (key_name k, f k)) all_keys.

(** A parameter with a default: the default replaces [undefined] only. *)
Definition default_num (d : Z) (arg : option number) : value :=
  match arg with
  | Some n => VNum n
  | None => VNum (of_Z d)
  end.

Definition opt_num (arg : option number) : value :=
  match arg with
  | Some n => VNum n
  | None => VUndefined
  end.

Definition opt_str (arg : option string) : value :=
  match arg with
  | Some s => VStr s
  | None => VUndefined
  end.

Section Client.

(** [import.meta.env.VITE_API_URL]. *)
Variable VITE_API_URL : Opt string.

Definition API_BASE_URL : string :=
  or_else VITE_API_URL "http://localhost:8000/api/v1".

Definition api : AxiosInstance :=
  {| baseURL := API_BASE_URL;
     headers := [("Content-Type", "application/json")] |}.

Definition articlesApi_getAll (filters : option ArticleFilters) : Request :=
  axios_get api (lit "/articles")
    match filters with
    | Some f => filter_params f
    | None => []
    end.

Definition articlesApi_getById (id : number) : Request :=
  axios_get api [Lit "/articles/"; toString id] [].

Definition articlesApi_getFeatured (limit : option number) : Request :=
  axios_get api (lit "/articles/featured") [("limit", default_num 10 limit)].

Definition articlesApi_search (query : string) (limit : option number)
  : Request :=
  axios_get api (lit "/search")
    [("q", VStr query); ("limit", default_num 20 limit)].

Definition themesApi_getAll : Request :=
  axios_get api (lit "/themes") [].

Definition themesApi_getArticles (themeId : number) (limit : option number)
  : Request :=
  axios_get api [Lit "/themes/"; toString themeId; Lit "/articles"]
    [("limit", default_num 20 limit)].

Definition insightsApi_getAll (skip limit : option number)
    (impactLevel : option string) : Request :=
  axios_get api (lit "/insights")
    [("skip", default_num 0 skip); ("limit", default_num 20 limit);
     ("impact_level", opt_str impactLevel)].

Definition trendsApi_getAll (status : option string)
    (themeId : option number) : Request :=
  axios_get api (lit "/trends")
    [("status", opt_str status); ("theme_id", opt_num themeId)].

Definition trendsApi_getEmerging (limit : option number) : Request :=
  axios_get api (lit "/trends/emerging") [("limit", default_num 10 limit)].

Definition digestsApi_getAll (digestType : option string)
    (limit : option number) : Request :=
  axios_get api (lit "/digests")
    [("digest_type", opt_str digestType); ("limit", default_num 10 limit)].

Definition digestsApi_getLatest (digestType : option string) : Request :=
  axios_get api (lit "/digests/latest")
    [("digest_type",
      VStr match digestType with Some s => s | None => "daily" end)].

Definition statsApi_get : Request :=
  axios_get api (lit "/stats") [].

(** One call of an operation the client exports, with its arguments. *)
Inductive ClientCall : Type :=
| Articles_getAll (filters : option ArticleFilters)
| Articles_getById (id : number)
| Articles_getFeatured (limit : option number)
| Articles_search (query : string) (limit : option number)
| Themes_getAll
| Themes_getArticles (themeId : number) (limit : option number)
| Insights_getAll (skip limit : option number) (impactLevel : option string)
| Trends_getAll (status : option string) (themeId : option number)
| Trends_getEmerging (limit : option number)
| Digests_getAll (digestType : option string) (limit : option number)
| Digests_getLatest (digestType : option string)
| Stats_get.

(** The HTTP request a call issues. *)
Definition request_of (c : ClientCall) : Request :=
  match c with
  | Articles_getAll filters => articlesApi_getAll filters
  | Articles_getById id => articlesApi_getById id
  | Articles_getFeatured limit => articlesApi_getFeatured limit
  | Articles_search query limit => articlesApi_search query limit
  | Themes_getAll => themesApi_getAll
  | Themes_getArticles themeId limit => themesApi_getArticles themeId limit
  | Insights_getAll skip limit impactLevel =>
      insightsApi_getAll skip limit impactLevel
  | Trends_getAll status themeId => trendsApi_getAll status themeId
  | Trends_getEmerging limit => trendsApi_getEmerging limit
  | Digests_getAll digestType limit => digestsApi_getAll digestType limit
  | Digests_getLatest digestType => digestsApi_getLatest digestType
  | Stats_get => statsApi_get
  end.

End Client.

(** A method that creates, updates or deletes. *)
Definition is_write_method (m : Method) : bool :=
  match m with
  | POST | PUT | PATCH | DELETE => true
  | GET | HEAD | OPTIONS => false
  end.

End Api.

Export Api.

(* ================================================================== *)
(** * The library pieces the pages use *)
(* ================================================================== *)

(** What the host gives the pages: the clock and the locale's dates. *)
Record Env : Type := {
  (** [new Date().getTime()] *)
  now : number;
  (** [new Date(s).getTime()], [NaN] for an invalid date *)
  getTime : string -> number;
  (** [new Date(s).toLocaleDateString()] *)
  toLocaleDateString : string -> string;
  (** [parseFloat(s)] *)
  parseFloat : string -> number
}.

Module ReactQuery.

(** Where the promise of a query function stands. *)
Inductive Fetch (A : Type) : Type :=
| Pending
| Resolved (a : A)
| Rejected.

Arguments Pending {A}.
Arguments Resolved {A} a.
Arguments Rejected {A}.

(** What [useQuery] hands to the component, and the requests the hook has
    made the query function issue. *)
Record Query (A : Type) : Type := {
  data : option A;
  isLoading : bool;
  issued : list Request
}.

Arguments data {A} q.
Arguments isLoading {A} q.
Arguments issued {A} q.

(** The options of the [QueryClient] the hooks run under, as far as they
    bear on the requests.  The client is created in [main.tsx], which is
    not among the sources, so its options are a parameter of the pages:
    [retry] is how many times a query function that failed is run again
    (3 when the option is left out, 0 for [retry: false]). *)
Record QueryClient : Type := {
  retry : nat
}.

(** [useQuery(key, () => request.then(res => res.data), { enabled })] of
    react-query 3 on an empty cache: a disabled query stays idle, runs no
    query function and has no data; an enabled one runs it and is loading
    until the query settles.  It settles with the data when the promise
    resolves; when the promise rejects the query function is run again,
    [retry] times, and with every attempt rejected the query ends without
    data. *)
Definition useQuery {A : Type} (client : QueryClient) (enabled : bool)
    (request : Request) (network : Request -> Fetch A) : Query A :=
  if enabled then
    match network request with
    | Pending => {| data := None; isLoading := true; issued := [request] |}
    | Resolved a =>
        {| data := Some a; isLoading := false; issued := [request] |}
    | Rejected =>
        {| data := None; isLoading := false;
           issued := repeat request (S (retry client)) |}
    end
  else {| data := None; isLoading := false; issued := [] |}.

End ReactQuery.

Export ReactQuery.

(** [list.map((x, i) => f i x)]. *)
Definition mapi {A B : Type} (f : nat -> A -> B) (l : list A) : list B :=
  map (fun p => f (fst p) (snd p)) (combine (seq 0 (List.length l)) l).

(** The spinner every page shows while its query loads. *)
Definition spinner : Node :=
  el "div" "flex items-center justify-center h-64"
    [ el "div"
        "animate-spin rounded-full h-12 w-12 border-b-2 border-indigo-600" [] ].

(* ================================================================== *)
(** * [pages/Dashboard.tsx] *)
(* ================================================================== *)

Module Dashboard.

(** The class of bar [i]: green below [bars], gray from there on. *)
Definition bar_colour (i : nat) (bars : number) : string :=
  if lt (of_nat i) bars then "bg-green-500" else "bg-gray-300".

(** [SignalStrength] (lines 335-349). *)
Definition SignalStrength (value : number) : Node :=
  let bars := Math_round (mul value (Num 5)) in
  el "div" "flex items-center gap-0.5"
    (map
       (fun i =>
          Elem "div"
            [ ("key", [toString (of_nat i)]);
              ("className",
               [ Lit "w-1 h-"; toString (of_nat ((i + 1) * 2)); Lit " ";
                 Lit (bar_colour i bars) ]) ]
            [])
       (seq 0 5)).

(** The fill of a pie cell (lines 143-149). *)
Definition sentiment_fill (sentiment : string) : string :=
  if String.eqb sentiment "positive" then "#10B981"
  else if String.eqb sentiment "negative" then "#EF4444"
  else "#6B7280".

(** The cells of the sentiment pie:
    [(stats?.sentiment_distribution || []).map(...)]. *)
Definition SentimentCells (sentiment_distribution : list SentimentCount)
  : list Node :=
  mapi
    (fun index entry =>
       Elem "Cell"
         [ ("key", [Lit "cell-"; toString (of_nat index)]);
           ("fill", lit (sentiment_fill (sentiment entry))) ]
         [])
    sentiment_distribution.

(** One entry of the "Featured Stories" panel (lines 171-196). *)
Definition FeaturedStory (env : Env) (article : Article) : Node :=
  Elem "Link"
    [ ("key", [toString (id article)]);
      ("to", [Lit "/articles/"; toString (id article)]);
      ("className", lit "block p-4 hover:bg-gray-50 transition") ]
    [ el "div" "flex items-start justify-between"
        ([ el "div" "flex-1"
             ([ el "h3" "text-sm font-medium text-gray-900 mb-1"
                  (child (title article));
                el "p" "text-xs text-gray-500"
                  (child (source article)
                   ++ [ text " • ";
                        text (toLocaleDateString env (published_date article)) ]) ]
              ++ jsx_and (primary_theme article)
                   [ el "span"
                       "inline-block mt-2 px-2 py-1 text-xs font-medium rounded-full bg-blue-100 text-blue-800"
                       (child (primary_theme article)) ]) ]
         ++ jsx_and (signal_strength article)
              [ el "div" "ml-4 flex-shrink-0"
                  [ SignalStrength (to_number (signal_strength article)) ] ]) ].

(** The momentum indicator of the "Emerging Trends" panel
    (lines 229-234). *)
Definition momentum_indicator (momentum : Opt number) : list Node :=
  jsx_and momentum
    [ el "span" "flex items-center text-green-600"
        [ el "ArrowTrendingUpIcon" "h-3 w-3 mr-1" [];
          Text (toFixed0 (mul (to_number momentum) (Num 100)));
          text "% momentum" ] ].

(** One entry of the "Emerging Trends" panel (lines 218-238). *)
Definition EmergingTrend (trend : Trend) : Node :=
  Elem "div"
    [ ("key", [toString (trend_id trend)]); ("className", lit "p-4") ]
    [ el "div" "flex items-start justify-between"
        [ el "div" "flex-1"
            [ el "h3" "text-sm font-medium text-gray-900 mb-1"
                (child (trend_name trend));
              el "p" "text-xs text-gray-600 mb-2"
                (child (trend_description trend));
              el "div" "flex items-center gap-3 text-xs text-gray-500"
                (Elem "span" []
                   (child (trend_article_count trend) ++ [ text " articles" ])
                 :: momentum_indicator (momentum trend)) ] ] ].

End Dashboard.

(* ================================================================== *)
(** * [pages/TrendsPage.tsx] *)
(* ================================================================== *)

Module TrendsPage.

Definition status_class (status : Opt string) : string :=
  if strict_eq status "emerging" then "bg-green-100 text-green-800"
  else if strict_eq status "growing" then "bg-blue-100 text-blue-800"
  else "bg-gray-100 text-gray-800".

(** The momentum indicator of a trend card (lines 45-50). *)
Definition momentum_indicator (momentum : Opt number) : list Node :=
  jsx_and momentum
    [ el "span" "flex items-center text-green-600"
        [ el "ArrowTrendingUpIcon" "h-4 w-4 mr-1" [];
          Text (toFixed0 (mul (to_number momentum) (Num 100)));
          text "% momentum" ] ].

(** The head of a trend card (lines 29-54); the chart below it draws
    [data_points] and is left out. *)
Definition TrendCardHead (trend : Trend) : Node :=
  el "div" "flex items-start justify-between mb-4"
    [ el "div" "flex-1"
        [ el "div" "flex items-center gap-2 mb-2"
            [ el "h3" "text-xl font-semibold text-gray-900"
                (child (trend_name trend));
              Elem "span"
                [ ("className",
                   [ Lit "px-2 py-1 rounded-full text-xs font-medium ";
                     Lit (status_class (status trend)) ]) ]
                (child (status trend)) ];
          el "p" "text-gray-600 mb-3" (child (trend_description trend));
          el "div" "flex items-center gap-4 text-sm text-gray-500"
            ([ Elem "span" []
                 (child (trend_article_count trend) ++ [ text " articles" ]) ]
             ++ momentum_indicator (momentum trend)
             ++ [ Elem "span" [] (child (trend_region trend)) ]) ] ].

End TrendsPage.

(* ================================================================== *)
(** * [pages/ArticlesPage.tsx] *)
(* ================================================================== *)

Module ArticlesPage.

(** ** The filter state *)

(** [useState<ArticleFilters>({ skip: 0, limit: 20 })]. *)
Definition initial_filters : ArticleFilters :=
  fun k =>
    match k with
    | K_skip => VNum (of_Z 0)
    | K_limit => VNum (of_Z 20)
    | _ => VUndefined
    end.

(** [(x || 0) + 20] for a value [x] of type [any]. *)
Definition or_zero (x : value) : value :=
  if truthy x then x else VNum (of_Z 0).

Definition plus_20 (x : value) : value :=
  match x with
  | VNum n => VNum (add n (of_Z 20))
  | VBool b => VNum (add (of_Z (if b then 1 else 0)) (of_Z 20))
  | VNull => VNum (of_Z 20)
  | VUndefined => VNum NaN
  | VStr s => VStr (s ++ "20")
  end.

(** The updater [handleFilterChange] passes to [setFilters]:
    [(prev) => ({ ...prev, [key]: value, skip: 0 })]. *)
Definition handleFilterChange (key : FilterKey) (v : value)
    (prev : ArticleFilters) : ArticleFilters :=
  with_key (with_key prev key v) K_skip (VNum (of_Z 0)).

(** The updater [handleLoadMore] passes to [setFilters]:
    [(prev) => ({ ...prev, skip: (prev.skip || 0) + 20 })]. *)
Definition handleLoadMore (prev : ArticleFilters) : ArticleFilters :=
  with_key prev K_skip (plus_20 (or_zero (prev K_skip))).

(** What the user can do on the page: pick an option of one of the four
    selects ([target_value] is [e.target.value]) or press "Load More". *)
Inductive Event : Type :=
| ThemeChanged (target_value : string)
| RegionChanged (target_value : string)
| FeaturedChanged (target_value : string)
| SignalChanged (target_value : string)
| LoadMoreClicked.

(** [s || undefined]. *)
Definition or_undefined (s : string) : value :=
  if truthy s then VStr s else VUndefined.

(** The [onChange] and [onClick] handlers of lines 55, 69, 84-89, 100-105
    and 131. *)
Definition handle (env : Env) (e : Event) (prev : ArticleFilters)
  : ArticleFilters :=
  match e with
  | ThemeChanged s => handleFilterChange K_theme (or_undefined s) prev
  | RegionChanged s => handleFilterChange K_region (or_undefined s) prev
  | FeaturedChanged s =>
      handleFilterChange K_is_featured
        (if String.eqb s "" then VUndefined else VBool (String.eqb s "true"))
        prev
  | SignalChanged s =>
      handleFilterChange K_min_signal_strength
        (if truthy s then VNum (parseFloat env s) else VUndefined)
        prev
  | LoadMoreClicked => handleLoadMore prev
  end.

(** The filter state after a run of events, from the initial state. *)
Definition filters_after (env : Env) (events : list Event) : ArticleFilters :=
  fold_left (fun f e => handle env e f) events initial_filters.

(** The filter state after a run of direct calls of the two handlers. *)
Inductive Call : Type :=
| FilterChange (key : FilterKey) (v : value)
| LoadMore.

Definition call (c : Call) (prev : ArticleFilters) : ArticleFilters :=
  match c with
  | FilterChange key v => handleFilterChange key v prev
  | LoadMore => handleLoadMore prev
  end.

Definition filters_after_calls (calls : list Call) : ArticleFilters :=
  fold_left (fun f c => call c f) calls initial_filters.

(** The keys the page passes to [handleFilterChange]. *)
Definition page_key (k : FilterKey) : bool :=
  match k with
  | K_theme | K_region | K_is_featured | K_min_signal_strength => true
  | _ => false
  end.

Definition page_call (c : Call) : bool :=
  match c with
  | FilterChange key _ => page_key key
  | LoadMore => true
  end.

(** ** [ArticleCard] *)

(** [formatDate] (lines 150-162). *)
Definition formatDate (env : Env) (dateString : string) : Template :=
  let diffHours :=
    Math_floor (div_by (sub (now env) (getTime env dateString)) 3600000) in
  if lt diffHours (of_Z 24) then [toString diffHours; Lit "h ago"]
  else if lt diffHours (of_Z 48) then lit "Yesterday"
  else lit (toLocaleDateString env dateString).

(** [article.themes[0]?.color]. *)
Definition first_theme_color (themes : list Theme) : Opt string :=
  match themes with
  | t :: _ => theme_color t
  | [] => Absent
  end.

(** The class of the sentiment badge (lines 228-234). *)
Definition sentiment_badge_class (sentiment_label : Opt string) : string :=
  if strict_eq sentiment_label "positive" then "bg-green-100 text-green-800"
  else if strict_eq sentiment_label "negative" then "bg-red-100 text-red-800"
  else "bg-gray-100 text-gray-800".

(** The sentiment badge (lines 226-238). *)
Definition sentiment_badge (sentiment_label : Opt string) : list Node :=
  jsx_and sentiment_label
    [ Elem "span"
        [ ("className",
           [ Lit "px-2 py-1 rounded-full ";
             Lit (sentiment_badge_class sentiment_label) ]) ]
        (child sentiment_label) ].

(** The signal strength indicator (lines 243-252). *)
Definition signal_indicator (signal_strength : Opt number) : list Node :=
  jsx_and (not_null signal_strength)
    [ el "div" "ml-6 flex-shrink-0"
        [ el "div" "text-center"
            [ el "div" "text-2xl font-bold text-indigo-600"
                [ Text (toFixed0 (mul (to_number signal_strength) (Num 100))) ];
              el "div" "text-xs text-gray-500" [ text "Signal" ] ] ] ].

Definition ArticleCard (env : Env) (article : Article) : Node :=
  Elem "Link" [ ("to", [Lit "/articles/"; toString (id article)]) ]
    [ el "div" "bg-white p-6 rounded-lg shadow hover:shadow-md transition cursor-pointer"
        [ el "div" "flex items-start justify-between"
            ([ el "div" "flex-1"
                 ([ (* Badges *)
                    el "div" "flex items-center gap-2 mb-2"
                      (jsx_and (is_featured article)
                         [ el "span"
                             "inline-flex items-center px-2 py-1 rounded-full text-xs font-medium bg-yellow-100 text-yellow-800"
                             [ text "Featured" ] ]
                       ++ jsx_and (is_emerging article)
                            [ el "span"
                                "inline-flex items-center px-2 py-1 rounded-full text-xs font-medium bg-green-100 text-green-800"
                                [ el "ArrowUpIcon" "h-3 w-3 mr-1" [];
                                  text "Emerging" ] ]
                       ++ jsx_and (primary_theme article)
                            [ Elem "span"
                                [ ("className",
                                   lit "inline-flex items-center px-2 py-1 rounded-full text-xs font-medium");
                                  ("style.backgroundColor",
                                   [ Lit (to_string
                                            (first_theme_color (themes article)));
                                     Lit "20" ]);
                                  ("style.color",
                                   lit (or_else
                                          (first_theme_color (themes article))
                                          "#3B82F6")) ]
                                (child (primary_theme article)) ]);
                    (* Title *)
                    el "h3" "text-lg font-semibold text-gray-900 mb-2"
                      (child (title article)) ]
                  (* Summary *)
                  ++ jsx_and (summary article)
                       [ el "p" "text-sm text-gray-600 mb-3 line-clamp-2"
                           (child (summary article)) ]
                  (* Key Takeaways *)
                  ++ jsx_and (key_takeaways article)
                       (match key_takeaways article with
                        | Present takeaways =>
                            jsx_and (0 <? List.length takeaways)%nat
                              [ el "div" "mb-3"
                                  [ el "h4"
                                      "text-xs font-medium text-gray-700 mb-1"
                                      [ text "Key Takeaways:" ];
                                    el "ul"
                                      "list-disc list-inside text-xs text-gray-600 space-y-1"
                                      (mapi
                                         (fun i takeaway =>
                                            Elem "li"
                                              [ ("key", [toString (of_nat i)]) ]
                                              (child takeaway))
                                         (firstn 2 takeaways)) ] ]
                        | _ => []
                        end)
                  (* Metadata *)
                  ++ [ el "div" "flex items-center gap-4 text-xs text-gray-500"
                         ([ el "span" "font-medium" (child (source article));
                            Elem "span" []
                              [ Text (formatDate env (published_date article)) ] ]
                          ++ jsx_and (region article)
                               [ Elem "span" [] (child (region article)) ]
                          ++ sentiment_badge (sentiment_label article)) ]) ]
             (* Signal Strength Indicator *)
             ++ signal_indicator (signal_strength article)) ] ].

End ArticlesPage.

(* ================================================================== *)
(** * [pages/ArticleDetail.tsx] *)
(* ================================================================== *)

Module ArticleDetail.

(** [parseInt(id || '0')], for the [id] of [useParams]. *)
Definition articleId_of (id : option string) : number :=
  parseInt
    match id with
    | Some s => if truthy s then s else "0"
    | None => "0"
    end.

(** The article query of lines 10-14. *)
Definition article_query (VITE_API_URL : Opt string) (client : QueryClient)
    (id : option string) (network : Request -> Fetch Article)
  : Query Article :=
  let articleId := articleId_of id in
  useQuery client (truthy articleId)
    (articlesApi_getById VITE_API_URL articleId) network.

Definition not_found : Node :=
  el "div" "text-center py-12"
    [ el "p" "text-gray-500" [ text "Article not found" ] ].

(** The class of the sentiment metric (lines 125-129). *)
Definition sentiment_metric_class (sentiment_label : Opt string) : string :=
  if strict_eq sentiment_label "positive" then "text-green-600"
  else if strict_eq sentiment_label "negative" then "text-red-600"
  else "text-gray-600".

(** The three analysis metrics (lines 112-143). *)
Definition signal_metric (signal_strength : Opt number) : list Node :=
  jsx_and (not_null signal_strength)
    [ el "div" "bg-gray-50 p-4 rounded-lg"
        [ el "div" "text-sm text-gray-500 mb-1" [ text "Signal Strength" ];
          el "div" "text-2xl font-bold text-indigo-600"
            [ Text (toFixed0 (mul (to_number signal_strength) (Num 100)));
              text "%" ] ] ].

Definition sentiment_metric (sentiment_label : Opt string) : list Node :=
  jsx_and sentiment_label
    [ el "div" "bg-gray-50 p-4 rounded-lg"
        [ el "div" "text-sm text-gray-500 mb-1" [ text "Sentiment" ];
          Elem "div"
            [ ("className",
               [ Lit "text-2xl font-bold capitalize ";
                 Lit (sentiment_metric_class sentiment_label) ]) ]
            (child sentiment_label) ] ].

Definition confidence_metric (confidence_score : Opt number) : list Node :=
  jsx_and (not_null confidence_score)
    [ el "div" "bg-gray-50 p-4 rounded-lg"
        [ el "div" "text-sm text-gray-500 mb-1" [ text "AI Confidence" ];
          el "div" "text-2xl font-bold text-indigo-600"
            [ Text (toFixed0 (mul (to_number confidence_score) (Num 100)));
              text "%" ] ] ].

Definition analysis_metrics (article : Article) : Node :=
  el "div" "grid grid-cols-3 gap-4 mb-6"
    (signal_metric (signal_strength article)
     ++ sentiment_metric (sentiment_label article)
     ++ confidence_metric (confidence_score article)).

Definition theme_chip (theme : Theme) : Node :=
  Elem "span"
    [ ("key", [toString (theme_id theme)]);
      ("className", lit "px-3 py-1 rounded-full text-sm");
      ("style.backgroundColor", [ Lit (to_string (theme_color theme)); Lit "20" ]);
      ("style.color", lit (or_else (theme_color theme) "#3B82F6")) ]
    (child (theme_name theme)).

Definition sector_chip (sector : Sector) : Node :=
  Elem "span"
    [ ("key", [toString (sector_id sector)]);
      ("className", lit "px-3 py-1 bg-gray-100 text-gray-800 rounded-full text-sm") ]
    (child (sector_name sector)).

(** The page for a loaded article (lines 28-196). *)
Definition article_view (env : Env) (article : Article) : Node :=
  el "div" "space-y-6"
    [ (* Back Button *)
      Elem "Link"
        [ ("to", lit "/articles");
          ("className",
           lit "inline-flex items-center text-sm text-gray-500 hover:text-gray-700") ]
        [ el "ArrowLeftIcon" "h-4 w-4 mr-2" []; text "Back to articles" ];
      (* Article Header *)
      el "div" "bg-white p-8 rounded-lg shadow"
        ([ (* Badges *)
           el "div" "flex items-center gap-2 mb-4"
             (jsx_and (is_featured article)
                [ el "span"
                    "px-3 py-1 rounded-full text-sm font-medium bg-yellow-100 text-yellow-800"
                    [ text "Featured" ] ]
              ++ jsx_and (is_emerging article)
                   [ el "span"
                       "px-3 py-1 rounded-full text-sm font-medium bg-green-100 text-green-800"
                       [ text "Emerging Trend" ] ]
              ++ jsx_and (primary_theme article)
                   [ Elem "span"
                       [ ("className",
                          lit "px-3 py-1 rounded-full text-sm font-medium");
                         ("style.backgroundColor",
                          [ Lit (to_string
                                   (ArticlesPage.first_theme_color
                                      (themes article)));
                            Lit "20" ]);
                         ("style.color",
                          lit (or_else
                                 (ArticlesPage.first_theme_color
                                    (themes article))
                                 "#3B82F6")) ]
                       (child (primary_theme article)) ]);
           (* Title *)
           el "h1" "text-3xl font-bold text-gray-900 mb-4"
             (child (title article));
           (* Metadata *)
           el "div"
             "flex items-center gap-6 text-sm text-gray-600 mb-6 pb-6 border-b border-gray-200"
             ([ el "span" "font-medium" (child (source article)) ]
              ++ jsx_and (author article)
                   [ Elem "span" [] (text "By " :: child (author article)) ]
              ++ [ Elem "span" []
                     [ text (toLocaleDateString env (published_date article)) ] ]
              ++ jsx_and (region article)
                   [ Elem "span" [] (child (region article)) ]
              ++ jsx_and (gt (view_count article) (of_Z 0))
                   [ Elem "span" []
                       (child (view_count article) ++ [ text " views" ]) ]) ]
         (* Summary *)
         ++ jsx_and (summary article)
              [ el "div" "mb-6"
                  [ el "h2" "text-lg font-semibold text-gray-900 mb-3"
                      [ text "Executive Summary" ];
                    el "p" "text-gray-700 leading-relaxed"
                      (child (summary article)) ] ]
         (* Key Takeaways *)
         ++ jsx_and (key_takeaways article)
              (match key_takeaways article with
               | Present takeaways =>
                   jsx_and (0 <? List.length takeaways)%nat
                     [ el "div" "mb-6"
                         [ el "h2" "text-lg font-semibold text-gray-900 mb-3"
                             [ text "Key Takeaways" ];
                           el "ul" "space-y-2"
                             (mapi
                                (fun i takeaway =>
                                   Elem "li"
                                     [ ("key", [toString (of_nat i)]);
                                       ("className", lit "flex items-start") ]
                                     [ el "span"
                                         "flex-shrink-0 h-6 w-6 rounded-full bg-indigo-100 text-indigo-600 flex items-center justify-center text-sm font-medium mr-3"
                                         (child (of_nat (i + 1)));
                                       el "span" "text-gray-700 pt-0.5"
                                         (child takeaway) ])
                                takeaways) ] ]
               | _ => []
               end)
         (* Analysis Metrics *)
         ++ [ analysis_metrics article;
              (* Themes and Sectors; the arrays [article.themes] and
                 [article.sectors] are truthy *)
              el "div" "flex items-start gap-8 mb-6"
                (jsx_and (0 <? List.length (themes article))%nat
                   [ Elem "div" []
                       [ el "h3" "text-sm font-semibold text-gray-900 mb-2"
                           [ text "Themes" ];
                         el "div" "flex flex-wrap gap-2"
                           (map theme_chip (themes article)) ] ]
                 ++ jsx_and (0 <? List.length (sectors article))%nat
                      [ Elem "div" []
                          [ el "h3" "text-sm font-semibold text-gray-900 mb-2"
                              [ text "Sectors" ];
                            el "div" "flex flex-wrap gap-2"
                              (map sector_chip (sectors article)) ] ]);
              (* Read Original Button *)
              Elem "a"
                [ ("href", lit (url article));
                  ("target", lit "_blank");
                  ("rel", lit "noopener noreferrer");
                  ("className",
                   lit "inline-flex items-center px-4 py-2 border border-transparent text-sm font-medium rounded-md shadow-sm text-white bg-indigo-600 hover:bg-indigo-700") ]
                [ text "Read Original Article";
                  el "ArrowTopRightOnSquareIcon" "ml-2 h-4 w-4" [] ] ]) ].

(** What the page shows, given what the query returned. *)
Definition render (env : Env) (q : Query Article) : Node :=
  if isLoading q then spinner
  else
    match data q with
    | None => not_found
    | Some article => article_view env article
    end.

(** The component: the page it shows and the requests it has issued. *)
Definition ArticleDetail (env : Env) (VITE_API_URL : Opt string)
    (client : QueryClient) (id : option string)
    (network : Request -> Fetch Article)
  : Node * list Request :=
  let q := article_query VITE_API_URL client id network in
  (render env q, issued q).

End ArticleDetail.

(* ================================================================== *)
(** * The content intelligence pipeline *)
(* ================================================================== *)

(** The pipeline is the Python backend ([backend/services/
    content_processor.py], [backend/services/ai_service.py],
    [backend/scrapers/news_scraper.py], [backend/models/database.py]). None
    of these files is among the sources embedded above, so the components
    below are modelled from the specification, section by section. *)

Module Pipeline.

(** ** Data model (specification, section 3) *)

(** Modelled from the spec: the enumeration of [sentiment_label]
    (section 3); the backend's models are missing. *)
Inductive SentimentLabel : Type :=
| label_positive
| label_neutral
| label_negative.

(** Modelled from the spec: the [AnalysisResult] of section 4.3, the
    structured output of the Analyzer (missing: [ai_service.py]) for one
    document. *)
Record AnalysisResult : Type := {
  res_summary : string;
  res_key_takeaways : list string;
  res_theme_guess : string;
  res_sentiment_label : SentimentLabel;
  res_sentiment_score : Q;
  res_signal_strength : Q;
  res_confidence_score : Q
}.

(** Modelled from the spec: the two kinds of analysis failure that
    section 4.3 keeps apart (missing: [ai_service.py]). *)
Inductive FailureKind : Type := transient | permanent.

(** Modelled from the spec: the result of [analyze], section 4.3
    (missing: [ai_service.py]). *)
Inductive Outcome : Type :=
| Analyzed (r : AnalysisResult)
| AnalysisFailure (k : FailureKind).

(** Modelled from the spec: the transient [IngestedDocument] of section 3
    (missing: [news_scraper.py]). *)
Record IngestedDocument : Type := {
  doc_url : string;
  doc_raw_text : string;
  doc_title : string;
  doc_published_at : Z;
  doc_source_id : nat
}.

(** Modelled from the spec: the persisted [Article] of section 3
    (missing: [models/database.py]). The analysis fields are present
    together or not at all; [analysis_log] keeps, latest first, the
    outcome of every analysis of the article. *)
Record StoredArticle : Type := {
  art_id : nat;
  art_url : string;
  art_source_id : nat;
  art_title : string;
  art_text : string;
  art_published_at : Z;
  analysis : option AnalysisResult;
  analysis_log : list Outcome
}.

(** Modelled from the spec: the persisted Articles, append-only
    (section 3; the database layer is missing). *)
Definition Store : Type := list StoredArticle.

(** Modelled from the spec: the optional score fields of an Article
    (section 3), absent until an analysis succeeded. *)
Definition signal_strength_of (a : StoredArticle) : option Q :=
  option_map res_signal_strength (analysis a).
Definition confidence_score_of (a : StoredArticle) : option Q :=
  option_map res_confidence_score (analysis a).
Definition sentiment_score_of (a : StoredArticle) : option Q :=
  option_map res_sentiment_score (analysis a).

(** Modelled from the spec: the structured response of the external
    analysis capability (section 6), before validation: any field may be
    missing, any score out of range. *)
Record RawAnalysis : Type := {
  raw_summary : option string;
  raw_key_takeaways : option (list string);
  raw_theme_guess : option string;
  raw_sentiment_label : option string;
  raw_sentiment_score : option Q;
  raw_signal_strength : option Q;
  raw_confidence_score : option Q
}.

(** Modelled from the spec: what one attempt to call the capability
    comes back with (sections 4.3 and 7): a timeout, a rate-limit signal,
    an unparseable response or a structured one. *)
Inductive Reply : Type :=
| TimedOut
| RateLimited
| Unparseable
| Answer (raw : RawAnalysis).

(** Modelled from the spec: the external capability as a black box
    (section 9): the reply to attempt [n] of analysing a text with a
    title. *)
Definition Capability : Type := string -> string -> nat -> Reply.

(** Modelled from the spec: the configuration surface of section 6
    (missing: [config/settings.py]), as far as the components modelled
    here consume it. *)
Record Config : Type := {
  (** the query parameters that only track *)
  is_tracking_param : string -> bool;
  (** the secondary guard of the Deduplicator: how many characters of the
      text it compares, a similarity measure and its threshold *)
  dedup_prefix_length : nat;
  similarity : string -> string -> Q;
  dedup_threshold : Q;
  (** the Analyzer: the bound on attempts, the bound on the summary *)
  max_attempts : nat;
  max_summary_length : nat;
  (** the Trend Engine: momentum above [growth_threshold] is growth,
      momentum within [near_zero] of 0 is a plateau *)
  growth_threshold : Q;
  near_zero : Q
}.

(** ** Deduplicator (section 4.2) *)

Definition lower (c : ascii) : ascii :=
  let n := nat_of_ascii c in
  if ((65 <=? n) && (n <=? 90))%nat then ascii_of_nat (n + 32) else c.

Fixpoint lowercase (s : string) : string :=
  match s with
  | String c s' => String (lower c) (lowercase s')
  | EmptyString => EmptyString
  end.

(** The text before the first [sep], and the text after it if there is
    one. *)
Fixpoint split_first (sep : ascii) (s : string) : string * option string :=
  match s with
  | EmptyString => (EmptyString, None)
  | String c s' =>
      if Ascii.eqb c sep then (EmptyString, Some s')
      else let (before, after) := split_first sep s' in
           (String c before, after)
  end.

Fixpoint split_all (sep : ascii) (s : string) : list string :=
  match s with
  | EmptyString => [EmptyString]
  | String c s' =>
      if Ascii.eqb c sep then EmptyString :: split_all sep s'
      else
        match split_all sep s' with
        | first :: rest => String c first :: rest
        | [] => [String c EmptyString]
        end
  end.

Definition param_name (p : string) : string := fst (split_first "=" p).

(** Modelled from the spec: "the normalized URL (scheme/host/path
    lowercased, tracking query parameters stripped)". *)
Definition normalize_url (cfg : Config) (u : string) : string :=
  let (base, query) := split_first "?" u in
  let kept :=
    match query with
    | Some q =>
        filter (fun p => negb (is_tracking_param cfg (param_name p)))
          (split_all "&" q)
    | None => []
    end in
  match kept with
  | [] => lowercase base
  | _ :: _ => lowercase base ++ "?" ++ String.concat "&" kept
  end.

(** Modelled from the spec: the "title+first-N-characters of text" that
    the secondary guard of the Deduplicator compares. *)
Definition fingerprint (cfg : Config) (title text : string) : string :=
  title ++ substring 0 (dedup_prefix_length cfg) text.

(** Modelled from the spec: the Deduplicator of section 4.2 (missing:
    [content_processor.py]). A stored Article makes a document a duplicate
    when the normalized URLs are equal or, failing that, when title and
    first characters of the text are near-identical. *)
Definition duplicates (cfg : Config) (d : IngestedDocument)
    (a : StoredArticle) : bool :=
  String.eqb (normalize_url cfg (art_url a)) (normalize_url cfg (doc_url d))
  || Qle_bool (dedup_threshold cfg)
       (similarity cfg
          (fingerprint cfg (doc_title d) (doc_raw_text d))
          (fingerprint cfg (art_title a) (art_text a))).

(** Modelled from the spec: [resolveExistingId(document) -> ArticleId?]. *)
Definition resolveExistingId (cfg : Config) (st : Store)
    (d : IngestedDocument) : option nat :=
  option_map art_id (find (duplicates cfg d) st).

(** Modelled from the spec: [isNew(document) -> bool]. *)
Definition isNew (cfg : Config) (st : Store) (d : IngestedDocument) : bool :=
  match resolveExistingId cfg st d with
  | Some _ => false
  | None => true
  end.

(** Modelled from the spec: "malformed documents (missing url or empty
    text) are rejected before persistence". *)
Definition well_formed (d : IngestedDocument) : bool :=
  negb (String.eqb (doc_url d) "") && negb (String.eqb (doc_raw_text d) "").

(** ** Analyzer (section 4.3) *)

Definition in_range (lo hi x : Q) : bool := Qle_bool lo x && Qle_bool x hi.

Definition label_of (s : string) : option SentimentLabel :=
  if String.eqb s "positive" then Some label_positive
  else if String.eqb s "neutral" then Some label_neutral
  else if String.eqb s "negative" then Some label_negative
  else None.

(** Modelled from the spec: "validate every required field is present and
    of the correct type before accepting a response": a bounded summary,
    3 to 5 takeaways, a label of the enumeration, a sentiment score in
    [-1, 1], signal strength and confidence in [0, 1]. *)
Definition validate (cfg : Config) (raw : RawAnalysis)
  : option AnalysisResult :=
  match raw_summary raw, raw_key_takeaways raw, raw_theme_guess raw,
        raw_sentiment_label raw, raw_sentiment_score raw,
        raw_signal_strength raw, raw_confidence_score raw with
  | Some s, Some kt, Some th, Some l, Some sc, Some sg, Some cf =>
      match label_of l with
      | Some lbl =>
          if (String.length s <=? max_summary_length cfg)%nat
             && (3 <=? List.length kt)%nat && (List.length kt <=? 5)%nat
             && in_range (-1) 1 sc && in_range 0 1 sg && in_range 0 1 cf
          then Some {| res_summary := s;
                       res_key_takeaways := kt;
                       res_theme_guess := th;
                       res_sentiment_label := lbl;
                       res_sentiment_score := sc;
                       res_signal_strength := sg;
                       res_confidence_score := cf |}
          else None
      | None => None
      end
  | _, _, _, _, _, _, _ => None
  end.

(** Modelled from the spec: the bounded retry of section 4.3. The
    attempts from number [n] on, [remaining] of them left; [last] is the
    kind of the failure seen last. *)
Fixpoint attempts_from (cfg : Config) (reply : nat -> Reply)
    (n remaining : nat) (last : FailureKind) : Outcome :=
  match remaining with
  | O => AnalysisFailure last
  | S r =>
      match reply n with
      | Answer raw =>
          match validate cfg raw with
          | Some res => Analyzed res
          | None => attempts_from cfg reply (S n) r permanent
          end
      | Unparseable => attempts_from cfg reply (S n) r permanent
      | TimedOut | RateLimited => attempts_from cfg reply (S n) r transient
      end
  end.

(** Modelled from the spec: [analyze(article_text, title)] with its bounded
    retry: a reply is accepted once it validates; a malformed reply is
    retried like a transient failure and, when the attempts run out,
    recorded as a permanent failure. *)
Definition analyze (cfg : Config) (capability : Capability)
    (article_text title : string) : Outcome :=
  attempts_from cfg (capability article_text title) 0 (max_attempts cfg)
    transient.

(** ** Pipeline Orchestrator *)

(** Modelled from the spec: the Article a new document becomes, before
    its analysis: a fresh stable id, no analysis fields (section 3). *)
Definition new_article (st : Store) (d : IngestedDocument) : StoredArticle :=
  {| art_id := List.length st;
     art_url := doc_url d;
     art_source_id := doc_source_id d;
     art_title := doc_title d;
     art_text := doc_raw_text d;
     art_published_at := doc_published_at d;
     analysis := None;
     analysis_log := [] |}.

(** Modelled from the spec: a successful analysis overwrites the analysis
    fields; a failed one leaves them as they are and is recorded for a
    later re-attempt. *)
Definition record_outcome (o : Outcome) (a : StoredArticle) : StoredArticle :=
  {| art_id := art_id a;
     art_url := art_url a;
     art_source_id := art_source_id a;
     art_title := art_title a;
     art_text := art_text a;
     art_published_at := art_published_at a;
     analysis := match o with
                 | Analyzed r => Some r
                 | AnalysisFailure _ => analysis a
                 end;
     analysis_log := o :: analysis_log a |}.

(** Modelled from the spec: one analysis of an Article, recorded. *)
Definition analyze_article (cfg : Config) (capability : Capability)
    (a : StoredArticle) : StoredArticle :=
  record_outcome (analyze cfg capability (art_text a) (art_title a)) a.

(** Modelled from the spec: the "later re-attempt" of section 4.3: the
    Articles still without analysis are analysed again. *)
Definition retry_pending (cfg : Config) (capability : Capability)
    (st : Store) : Store :=
  map (fun a =>
         match analysis a with
         | None => analyze_article cfg capability a
         | Some _ => a
         end)
      st.

(** Modelled from the spec: the orchestrator's step for one document
    (sections 2, 4.2, 4.3 and 6): rejected when malformed, skipped when a
    duplicate, otherwise analysed and persisted -- without analysis
    fields when the Analyzer fails. *)
Definition ingest (cfg : Config) (capability : Capability) (st : Store)
    (d : IngestedDocument) : Store :=
  if well_formed d && isNew cfg st d
  then st ++ [analyze_article cfg capability (new_article st d)]
  else st.

(** Modelled from the spec: one run of the pipeline (missing:
    [content_processor.py]) on the output of the Fetcher. *)
Definition run (cfg : Config) (capability : Capability) (st : Store)
    (docs : list IngestedDocument) : Store :=
  fold_left (ingest cfg capability) docs (retry_pending cfg capability st).

(** Modelled from the spec: the store after a series of scheduled runs
    from the empty store, each with the replies the capability gave
    during it and the documents fetched. *)
Definition after_runs (cfg : Config)
    (runs : list (Capability * list IngestedDocument)) : Store :=
  fold_left (fun st r => run cfg (fst r) st (snd r)) runs [].

(** Whether an outcome is a success. *)
Definition succeeded (o : Outcome) : bool :=
  match o with
  | Analyzed _ => true
  | AnalysisFailure _ => false
  end.

(** The Analyzer never succeeded for the Article. *)
Definition never_succeeded (a : StoredArticle) : bool :=
  forallb (fun o => negb (succeeded o)) (analysis_log a).

(** The ranges of section 3 for the scores of an analysis. *)
Definition scores_in_range (r : AnalysisResult) : Prop :=
  (0 <= res_signal_strength r /\ res_signal_strength r <= 1)
  /\ (0 <= res_confidence_score r /\ res_confidence_score r <= 1)
  /\ (-1 <= res_sentiment_score r /\ res_sentiment_score r <= 1).

(** An Article whose analysis fields are in range when present, and
    absent exactly when no analysis of it succeeded. *)
Definition consistent (a : StoredArticle) : Prop :=
  (forall r, analysis a = Some r -> scores_in_range r)
  /\ (analysis a = None <-> never_succeeded a = true).

(** The normalized URLs of the stored Articles. *)
Definition normalized_urls (cfg : Config) (st : Store) : list string :=
  map (fun a => normalize_url cfg (art_url a)) st.

(** ** Trend Engine (section 4.5) *)

(** Modelled from the spec: the status of a Trend (section 3); the Trend
    Engine is missing. *)
Inductive TrendStatus : Type := emerging | growing | peak | declining.

Definition TrendStatus_eqb (a b : TrendStatus) : bool :=
  match a, b with
  | emerging, emerging | growing, growing | peak, peak
  | declining, declining => true
  | _, _ => false
  end.

(** Modelled from the spec: the status after a run that recomputed the
    momentum to [m]: "sustained positive momentum transitions growing;
    momentum crossing near zero after growth transitions peak; negative
    momentum transitions declining", a declining Trend that regains
    velocity "re-enters growing, not emerging", and no state is skipped. *)
Definition next_status (cfg : Config) (s : TrendStatus) (m : Q)
  : TrendStatus :=
  match s with
  | emerging => if Qltb (growth_threshold cfg) m then growing else emerging
  | growing => if Qle_bool m (near_zero cfg) then peak else growing
  | peak => if Qltb m 0 then declining else peak
  | declining => if Qltb (growth_threshold cfg) m then growing else declining
  end.

(** Modelled from the spec: the statuses a Trend takes on: [emerging] at
    its first detection, then one status per run, given the momentum each
    run recomputed. *)
Fixpoint statuses_from (cfg : Config) (s : TrendStatus) (momenta : list Q)
  : list TrendStatus :=
  match momenta with
  | [] => [s]
  | m :: rest => s :: statuses_from cfg (next_status cfg s m) rest
  end.

Definition status_history (cfg : Config) (momenta : list Q)
  : list TrendStatus :=
  statuses_from cfg emerging momenta.

(** The edges of the state machine. *)
Definition allowed_edge (a b : TrendStatus) : bool :=
  match a, b with
  | emerging, growing | growing, peak | peak, declining
  | declining, growing => true
  | _, _ => false
  end.

(** The pairs of consecutive elements of a list. *)
Fixpoint consecutive {A : Type} (l : list A) : list (A * A) :=
  match l with
  | a :: (b :: _) as rest => (a, b) :: consecutive rest
  | _ => []
  end.

(** The pairs of consecutive statuses that differ: the transitions. *)
Definition transitions (h : list TrendStatus)
  : list (TrendStatus * TrendStatus) :=
  filter (fun p => negb (TrendStatus_eqb (fst p) (snd p))) (consecutive h).

(** The number of times a history enters [emerging]: at its start, and at
    every step into [emerging] from another status. *)
Definition entries_into_emerging (h : list TrendStatus) : nat :=
  (match h with
   | emerging :: _ => 1
   | _ => 0
   end
   + List.length
       (filter (fun p => negb (TrendStatus_eqb (fst p) emerging)
                         && TrendStatus_eqb (snd p) emerging)
          (consecutive h)))%nat.

End Pipeline.

(* ================================================================== *)
(** * Vocabulary of the properties *)
(* ================================================================== *)

(** ** The read layer *)

Module ReadLayer.

(** An instance of a backend for the frame property of the client: what
    the pipeline wrote (the urls of its Articles) and a view counter of
    the read layer's own. It counts a view on every [GET], and it would
    create on [POST], overwrite on [PUT] and [PATCH] and delete on
    [DELETE]. *)
Definition State : Type := (list string * nat)%type.

Definition written_by_pipeline (st : State) : list string := fst st.

Definition serve (r : Request) (st : State) : State :=
  match req_method r with
  | GET => (fst st, S (snd st))
  | POST => ("created" :: fst st, snd st)
  | PUT | PATCH => (map (fun _ => "updated") (fst st), snd st)
  | DELETE => ([], snd st)
  | HEAD | OPTIONS => st
  end.

End ReadLayer.

(** ** Sentiment styles *)

Inductive Style : Type := Green | Red | Gray.

(** The mapping the specification states for a sentiment label. *)
Definition style_of_label (label : string) : Style :=
  if String.eqb label "positive" then Green
  else if String.eqb label "negative" then Red
  else Gray.

(** The style a fill colour or a class of the three renderings stands
    for. *)
Definition style_of_class (c : string) : option Style :=
  if String.eqb c "#10B981" || String.eqb c "bg-green-100 text-green-800"
     || String.eqb c "text-green-600" then Some Green
  else if String.eqb c "#EF4444" || String.eqb c "bg-red-100 text-red-800"
          || String.eqb c "text-red-600" then Some Red
  else if String.eqb c "#6B7280" || String.eqb c "bg-gray-100 text-gray-800"
          || String.eqb c "text-gray-600" then Some Gray
  else None.

Definition attr (name : string) (n : Node) : option Template :=
  match n with
  | Elem _ attrs _ =>
      option_map snd (find (fun a => String.eqb (fst a) name) attrs)
  | Text _ | Invalid => None
  end.

(** The last literal of a template: the class a ternary contributed. *)
Definition last_literal (t : Template) : option string :=
  match List.last t (Lit "") with
  | Lit c => Some c
  | Shown _ => None
  end.

Definition style_of_attr (name : string) (n : Node) : option Style :=
  match attr name n with
  | Some t =>
      match last_literal t with
      | Some c => style_of_class c
      | None => None
      end
  | None => None
  end.

(** The style of the pie cell the dashboard draws for a label. *)
Definition pie_cell_style (label : string) : option Style :=
  match Dashboard.SentimentCells [ {| sentiment := label; count := of_Z 1 |} ] with
  | [cell] => style_of_attr "fill" cell
  | _ => None
  end.

(** The style of the badge the article card draws for a label; [None] when
    it draws no badge. *)
Definition card_badge_style (label : Opt string) : option Style :=
  match ArticlesPage.sentiment_badge label with
  | [badge] => style_of_attr "className" badge
  | _ => None
  end.

(** The style of the sentiment metric the detail page draws for a label;
    [None] when it draws no metric. *)
Definition detail_metric_style (label : Opt string) : option Style :=
  match ArticleDetail.sentiment_metric label with
  | [Elem _ _ [_; value]] => style_of_attr "className" value
  | _ => None
  end.

(** The three renderings agree with the stated mapping on a label. *)
Definition same_mapping (label : string) : Prop :=
  pie_cell_style label = Some (style_of_label label)
  /\ card_badge_style (Present label) = Some (style_of_label label)
  /\ detail_metric_style (Present label) = Some (style_of_label label).

(** ** Paging *)

(** What every reachable filter state of the articles page satisfies:
    [skip] is 20 times a natural number and [limit] is 20. *)
Definition paged (f : ArticleFilters) : Prop :=
  (exists k : nat, f K_skip = VNum (of_Z (20 * Z.of_nat k)))
  /\ f K_limit = VNum (of_Z 20).

(** ** Signal bars *)

(** The colour class of a bar of [SignalStrength]. *)
Definition bar_class (bar : Node) : option string :=
  match bar with
  | Elem _ [_; (_, [_; _; _; Lit c])] _ => Some c
  | _ => None
  end.

Definition is_green (bar : Node) : bool :=
  match bar_class bar with
  | Some c => String.eqb c "bg-green-500"
  | None => false
  end.

Definition is_gray (bar : Node) : bool :=
  match bar_class bar with
  | Some c => String.eqb c "bg-gray-300"
  | None => false
  end.

Definition bars_of (n : Node) : list Node :=
  match n with
  | Elem _ _ children => children
  | Text _ | Invalid => []
  end.

Definition green_bars (n : Node) : nat :=
  List.length (filter is_green (bars_of n)).

Definition clamp (lo hi x : Z) : Z := Z.min hi (Z.max lo x).

(** ** Numbers up to the value they denote *)

Definition same_number (a b : number) : Prop :=
  match a, b with
  | NaN, NaN => True
  | Num x, Num y => x == y
  | Infinity s, Infinity t => s = t
  | _, _ => False
  end.

(** The integer a template of digits with an optional sign denotes. *)
Definition integer_shown (t : Template) : option Z :=
  match t with
  | [Lit (String "-" ds)] =>
      option_map (fun d => (- Z.of_N (N.of_uint d))%Z)
        (NilEmpty.uint_of_string ds)
  | [Lit ds] =>
      option_map (fun d => Z.of_N (N.of_uint d)) (NilEmpty.uint_of_string ds)
  | _ => None
  end.

(** Rounding to the nearest integer, a tie going away from 0. *)
Definition round_half_away (q : Q) : Z :=
  if Qltb q 0 then (- Qfloor (- q + (1 # 2)))%Z else Qfloor (q + (1 # 2)).

(** ** Binary64 values *)

(** The binary64 values nearest 0.3, 0.1 and 0.675 (the one just below
    it, which prints as 0.6749999999999999). *)
Definition double_0_3 : Q := 5404319552844595 # 18014398509481984.
Definition double_0_1 : Q := 3602879701896397 # 36028797018963968.
Definition double_0_675 : Q := 6079859496950169 # 9007199254740992.

(** ** Sample data *)

(** A [QueryClient] made with no options: three retries. *)
Definition default_client : QueryClient := {| retry := 3 |}.

Definition sample_env : Env :=
  {| now := of_Z 1700000000000;
     getTime := fun _ => of_Z 1699990000000;
     toLocaleDateString := fun _ => "11/14/2023";
     parseFloat := fun _ => NaN |}.

(** An Article the Analyzer never processed, as the interface of the
    client types it: the optional analysis fields are absent. *)
Definition unanalyzed_article : Article :=
  {| id := of_Z 7;
     title := "Hybrid work policies shift again";
     url := "https://example.com/hybrid";
     source := "HR Dive";
     source_type := "media";
     author := Absent;
     published_date := "2023-11-14T08:00:00";
     scraped_date := "2023-11-14T09:00:00";
     summary := Absent;
     key_takeaways := Absent;
     primary_theme := Absent;
     confidence_score := Absent;
     region := Absent;
     sentiment_score := Absent;
     sentiment_label := Absent;
     signal_strength := Absent;
     is_featured := false;
     is_emerging := false;
     view_count := of_Z 0;
     themes := [];
     sectors := [] |}.

(** A Trend whose momentum is 0. *)
Definition flat_trend : Trend :=
  {| trend_id := of_Z 3;
     trend_name := "AI Governance";
     trend_description := Present "Rules for AI at work";
     trend_keywords := Absent;
     trend_start_date := "2023-11-01";
     trend_last_updated := "2023-11-14";
     trend_article_count := of_Z 12;
     momentum := Present (Num 0);
     status := Present "emerging";
     trend_region := Present "Global";
     data_points := [] |}.

(** A configuration of the pipeline: the [utm_] parameters track, two
    fingerprints are near-identical when they are equal, three attempts. *)
Definition sample_config : Pipeline.Config :=
  {| Pipeline.is_tracking_param := fun p => String.prefix "utm_" p;
     Pipeline.dedup_prefix_length := 20;
     Pipeline.similarity := fun a b => if String.eqb a b then 1 else 0;
     Pipeline.dedup_threshold := 9 # 10;
     Pipeline.max_attempts := 3;
     Pipeline.max_summary_length := 280;
     Pipeline.growth_threshold := 1 # 2;
     Pipeline.near_zero := 1 # 10 |}.

Definition sample_doc (u title text : string) : Pipeline.IngestedDocument :=
  {| Pipeline.doc_url := u;
     Pipeline.doc_raw_text := text;
     Pipeline.doc_title := title;
     Pipeline.doc_published_at := 1700000000;
     Pipeline.doc_source_id := 1 |}.

(** The fetch output of the scenario of section 8: [A], [B] and [A] again
    with a tracking query string. *)
Definition scenario_docs : list Pipeline.IngestedDocument :=
  [ sample_doc "https://example.com/News/A" "Hybrid work" "Offices reopen.";
    sample_doc "https://example.com/news/b" "AI rules" "A new framework.";
    sample_doc "https://example.com/news/a?utm_source=feed" "Hybrid work, again"
      "Offices reopen, says a repost." ].

Definition sample_answer : Pipeline.RawAnalysis :=
  {| Pipeline.raw_summary := Some "Offices reopen under new policies.";
     Pipeline.raw_key_takeaways := Some ["Return"; "Policy"; "Flexibility"];
     Pipeline.raw_theme_guess := Some "Future of Work";
     Pipeline.raw_sentiment_label := Some "neutral";
     Pipeline.raw_sentiment_score := Some (1 # 10);
     Pipeline.raw_signal_strength := Some (7 # 10);
     Pipeline.raw_confidence_score := Some (9 # 10) |}.

(** A capability that times out twice and then answers. *)
Definition flaky_capability : Pipeline.Capability :=
  fun _ _ n => if (n <? 2)%nat then Pipeline.TimedOut
               else Pipeline.Answer sample_answer.

(** A capability that never answers. *)
Definition dead_capability : Pipeline.Capability :=
  fun _ _ _ => Pipeline.TimedOut.

(* ================================================================== *)
(** * The rest of the pages *)
(* ================================================================== *)

(** ** How axios sends the parameters *)

Module Axios.

(** [null] and [undefined] parameters are left out of the query string. *)
Definition is_sent (v : value) : bool :=
  match v with
  | VUndefined | VNull => false
  | _ => true
  end.

Definition sent_params (r : Request) : list (string * value) :=
  filter (fun p => is_sent (snd p)) (req_params r).

(** The value sent for a parameter, if it is sent. *)
Definition sent (name : string) (r : Request) : option value :=
  option_map snd (find (fun p => String.eqb (fst p) name) (sent_params r)).

End Axios.

(** ** The body of [ArticlesPage] (lines 7-147 of [ArticlesPage.tsx]) *)

Module ArticlesBody.

(** The request of the query of lines 13-17: [articlesApi.getAll(filters)]. *)
Definition articles_request (VITE_API_URL : Opt string)
    (filters : ArticleFilters) : Request :=
  articlesApi_getAll VITE_API_URL (Some filters).

(** [String(v)], as React does for the [value] of a select. *)
Definition String_of (v : value) : Template :=
  match v with
  | VUndefined => lit "undefined"
  | VNull => lit "null"
  | VBool b => lit (if b then "true" else "false")
  | VNum n => [toString n]
  | VStr s => lit s
  end.

(** [v || ''] for a value of type [any]. *)
Definition or_empty (v : value) : value :=
  if truthy v then v else VStr "".

(** The [value] of the four selects (lines 54, 68, 83 and 99). *)
Definition theme_select_value (filters : ArticleFilters) : Template :=
  String_of (or_empty (filters K_theme)).

Definition region_select_value (filters : ArticleFilters) : Template :=
  String_of (or_empty (filters K_region)).

Definition featured_select_value (filters : ArticleFilters) : Template :=
  match filters K_is_featured with
  | VUndefined => lit ""
  | v => String_of v
  end.

Definition signal_select_value (filters : ArticleFilters) : Template :=
  String_of (or_empty (filters K_min_signal_strength)).

Definition select_class : string :=
  "block w-full rounded-md border-gray-300 shadow-sm focus:border-indigo-500 focus:ring-indigo-500 sm:text-sm".

Definition option_node (v label : string) : Node :=
  Elem "option" [ ("value", lit v) ] (child label).

Definition select (v : Template) (onChange : string) (options : list Node)
  : Node :=
  Elem "select"
    [ ("className", lit select_class); ("value", v); ("onChange", lit onChange) ]
    options.

(** The filter panel (lines 44-113); [themes] is the data of the themes
    query. *)
Definition filter_panel (themes : option (list Theme))
    (filters : ArticleFilters) : Node :=
  el "div" "bg-white p-6 rounded-lg shadow"
    [ el "div" "flex items-center gap-2 mb-4"
        [ el "FunnelIcon" "h-5 w-5 text-gray-400" [];
          el "h2" "text-sm font-medium text-gray-900" [ text "Filters" ] ];
      el "div" "grid grid-cols-1 md:grid-cols-4 gap-4"
        [ select (theme_select_value filters) "theme"
            (option_node "" "All Themes"
             :: match themes with
                | Some l =>
                    map (fun theme =>
                           Elem "option"
                             [ ("key", [toString (theme_id theme)]);
                               ("value", lit (theme_name theme)) ]
                             (child (theme_name theme)))
                      l
                | None => []
                end);
          select (region_select_value filters) "region"
            [ option_node "" "All Regions";
              option_node "Global" "Global";
              option_node "Australia" "Australia";
              option_node "Asia Pacific" "Asia Pacific";
              option_node "North America" "North America";
              option_node "Europe" "Europe";
              option_node "UK" "UK" ];
          select (featured_select_value filters) "is_featured"
            [ option_node "" "All Articles";
              option_node "true" "Featured Only";
              option_node "false" "Non-Featured" ];
          select (signal_select_value filters) "min_signal_strength"
            [ option_node "" "Any Signal";
              option_node "0.8" "High (0.8+)";
              option_node "0.6" "Medium (0.6+)";
              option_node "0.4" "Low (0.4+)" ] ] ].

(** [ToNumber(v)] for a value of type [any]; [StringToNumber] is the
    host's reading of a string as a number. *)
Definition value_to_number (StringToNumber : string -> number) (v : value)
  : number :=
  match v with
  | VUndefined => NaN
  | VNull => of_Z 0
  | VBool b => of_Z (if b then 1 else 0)
  | VNum n => n
  | VStr s => StringToNumber s
  end.

(** [a >= b] on numbers: false when either is [NaN]. *)
Definition ge (a b : number) : bool :=
  match a, b with
  | Num x, Num y => Qle_bool y x
  | Infinity false, Num _ | Infinity false, Infinity _
  | Num _, Infinity true | Infinity true, Infinity true => true
  | _, _ => false
  end.

(** [filters.limit || 20]. *)
Definition limit_or_20 (filters : ArticleFilters) : value :=
  if truthy (filters K_limit) then filters K_limit else VNum (of_Z 20).

Definition load_more_button : Node :=
  el "div" "flex justify-center pt-4"
    [ Elem "button"
        [ ("onClick", lit "handleLoadMore");
          ("className",
           lit "px-4 py-2 bg-white border border-gray-300 rounded-md shadow-sm text-sm font-medium text-gray-700 hover:bg-gray-50") ]
        [ text "Load More" ] ].

Definition no_articles : Node :=
  el "div" "text-center py-12"
    [ el "p" "text-gray-500"
        [ text "No articles found matching your filters." ] ].

(** The list of articles (lines 116-144); [articles] is the data of the
    articles query. *)
Definition articles_list (env : Env) (StringToNumber : string -> number)
    (isLoading : bool) (articles : option (list Article))
    (filters : ArticleFilters) : Node :=
  el "div" "space-y-4"
    (if isLoading then
       [ el "div" "flex items-center justify-center h-64"
           [ el "div"
               "animate-spin rounded-full h-12 w-12 border-b-2 border-indigo-600"
               [] ] ]
     else
       match articles with
       | Some l =>
           if (0 <? List.length l)%nat then
             map (ArticlesPage.ArticleCard env) l
             ++ jsx_and
                  (ge (of_nat (List.length l))
                     (value_to_number StringToNumber (limit_or_20 filters)))
                  [ load_more_button ]
           else [ no_articles ]
       | None => [ no_articles ]
       end).

(** The page (lines 31-146). *)
Definition ArticlesPage_view (env : Env) (StringToNumber : string -> number)
    (themes : option (list Theme)) (isLoading : bool)
    (articles : option (list Article)) (filters : ArticleFilters) : Node :=
  el "div" "space-y-6"
    [ el "div" "flex justify-between items-center"
        [ Elem "div" []
            [ el "h1" "text-3xl font-bold text-gray-900" [ text "Articles" ];
              el "p" "mt-2 text-gray-600"
                [ text "Browse and filter the latest HR and workforce news" ] ] ];
      filter_panel themes filters;
      articles_list env StringToNumber isLoading articles filters ].

End ArticlesBody.

(** ** [components/Layout.tsx] (after [ArticlesPage.tsx] in the sources) *)

Module Layout.

Record NavItem : Type := {
  name : string;
  href : string;
  icon : string
}.

Definition navigation : list NavItem :=
  [ {| name := "Dashboard"; href := "/"; icon := "HomeIcon" |};
    {| name := "Articles"; href := "/articles"; icon := "NewspaperIcon" |};
    {| name := "Trends"; href := "/trends"; icon := "ChartBarIcon" |};
    {| name := "Insights"; href := "/insights"; icon := "LightBulbIcon" |};
    {| name := "Digests"; href := "/digests"; icon := "DocumentTextIcon" |} ].

(** [location.pathname === item.href]. *)
Definition isActive (pathname : string) (item : NavItem) : bool :=
  String.eqb pathname (href item).

(** One link of the sidebar (lines 334-354 of the block). *)
Definition nav_link (pathname : string) (item : NavItem) : Node :=
  Elem "Link"
    [ ("key", lit (name item));
      ("to", lit (href item));
      ("className",
       [ Lit "flex items-center px-3 py-2 text-sm font-medium rounded-md ";
         Lit (if isActive pathname item
              then "bg-indigo-50 text-indigo-600"
              else "text-gray-700 hover:bg-gray-50 hover:text-gray-900") ]) ]
    [ Elem (icon item)
        [ ("className",
           [ Lit "mr-3 h-5 w-5 ";
             Lit (if isActive pathname item
                  then "text-indigo-600" else "text-gray-400") ]) ]
        [];
      text (name item) ].

Definition quick_filter (label : string) : Node :=
  el "button"
    "w-full text-left px-3 py-2 text-sm text-gray-700 hover:bg-gray-50 rounded-md"
    [ text label ].

(** [handleSearch]: the default is prevented and the query logged; no
    request is made. What it writes to the console and what it issues. *)
Definition handleSearch (searchQuery : string)
  : list (string * string) * list Request :=
  ([ ("Search:", searchQuery) ], []).

Definition Layout (pathname searchQuery : string) (children : list Node)
  : Node :=
  el "div" "min-h-screen bg-gray-50"
    [ el "header" "bg-white shadow-sm sticky top-0 z-50"
        [ el "div" "max-w-7xl mx-auto px-4 sm:px-6 lg:px-8"
            [ el "div" "flex justify-between items-center h-16"
                [ el "div" "flex items-center"
                    [ el "div" "flex-shrink-0"
                        [ el "h1" "text-2xl font-bold text-indigo-600"
                            [ text "HR Signals" ] ] ];
                  el "div" "flex-1 max-w-lg mx-8"
                    [ Elem "form"
                        [ ("onSubmit", lit "handleSearch");
                          ("className", lit "relative") ]
                        [ el "div"
                            "absolute inset-y-0 left-0 pl-3 flex items-center pointer-events-none"
                            [ el "MagnifyingGlassIcon" "h-5 w-5 text-gray-400" [] ];
                          Elem "input"
                            [ ("type", lit "text");
                              ("className",
                               lit "block w-full pl-10 pr-3 py-2 border border-gray-300 rounded-md leading-5 bg-white placeholder-gray-500 focus:outline-none focus:placeholder-gray-400 focus:ring-1 focus:ring-indigo-500 focus:border-indigo-500 sm:text-sm");
                              ("placeholder",
                               lit "Search articles, insights, trends...");
                              ("value", lit searchQuery) ]
                            [] ] ];
                  el "div" "flex items-center"
                    [ el "span" "text-sm text-gray-700"
                        [ text "Command Centre" ] ] ] ] ];
      el "div" "flex"
        [ el "aside" "w-64 bg-white shadow-sm min-h-screen sticky top-16"
            [ el "nav" "px-4 py-6 space-y-1"
                (map (nav_link pathname) navigation);
              el "div" "px-4 py-4 border-t border-gray-200"
                [ el "h3"
                    "text-xs font-semibold text-gray-500 uppercase tracking-wider mb-3"
                    [ text "Quick Filters" ];
                  el "div" "space-y-2"
                    [ quick_filter "Featured Stories";
                      quick_filter "Emerging Trends";
                      quick_filter "High Impact";
                      quick_filter "Australia" ] ] ];
          el "main" "flex-1 p-8"
            [ el "div" "max-w-7xl mx-auto" children ] ] ].

End Layout.

(** ** [pages/InsightsPage.tsx] (after [ArticleDetail.tsx] in the sources) *)

Module InsightsPage.

(** [interface Insight] of [services/api.ts]. *)
Record Insight : Type := {
  insight_id : number;
  article_id : number;
  insight_title : string;
  description : string;
  impact_level : Opt string;
  time_horizon : Opt string;
  created_date : string;
  relevance_score : Opt number
}.

(** The three ternaries on [insight.impact_level]. *)
Definition circle_class (impact_level : Opt string) : string :=
  if strict_eq impact_level "high" then "bg-red-100"
  else if strict_eq impact_level "medium" then "bg-yellow-100"
  else "bg-blue-100".

Definition bulb_class (impact_level : Opt string) : string :=
  if strict_eq impact_level "high" then "text-red-600"
  else if strict_eq impact_level "medium" then "text-yellow-600"
  else "text-blue-600".

Definition impact_badge_class (impact_level : Opt string) : string :=
  if strict_eq impact_level "high" then "bg-red-100 text-red-800"
  else if strict_eq impact_level "medium" then "bg-yellow-100 text-yellow-800"
  else "bg-blue-100 text-blue-800".

(** The badges under the description. *)
Definition impact_badge (impact_level : Opt string) : list Node :=
  jsx_and impact_level
    [ Elem "span"
        [ ("className",
           [ Lit "px-3 py-1 rounded-full font-medium ";
             Lit (impact_badge_class impact_level) ]) ]
        (child impact_level ++ [ text " impact" ]) ].

Definition relevance_badge (relevance_score : Opt number) : list Node :=
  jsx_and relevance_score
    [ el "span" "text-gray-500"
        [ text "Relevance: ";
          Text (toFixed0 (mul (to_number relevance_score) (Num 100)));
          text "%" ] ].

(** One insight of the page. *)
Definition InsightCard (insight : Insight) : Node :=
  Elem "div"
    [ ("key", [toString (insight_id insight)]);
      ("className", lit "bg-white p-6 rounded-lg shadow") ]
    [ el "div" "flex items-start"
        [ el "div" "flex-shrink-0"
            [ Elem "div"
                [ ("className",
                   [ Lit "h-10 w-10 rounded-full flex items-center justify-center ";
                     Lit (circle_class (impact_level insight)) ]) ]
                [ Elem "LightBulbIcon"
                    [ ("className",
                       [ Lit "h-6 w-6 ";
                         Lit (bulb_class (impact_level insight)) ]) ]
                    [] ] ];
          el "div" "ml-4 flex-1"
            [ el "h3" "text-lg font-semibold text-gray-900 mb-2"
                (child (insight_title insight));
              el "p" "text-gray-600 mb-3" (child (description insight));
              el "div" "flex items-center gap-3 text-sm"
                (impact_badge (impact_level insight)
                 ++ jsx_and (time_horizon insight)
                      [ el "span" "text-gray-500"
                          (child (time_horizon insight)) ]
                 ++ relevance_badge (relevance_score insight)) ] ] ].

(** The request of the page's query: [insightsApi.getAll(0, 50)]. *)
Definition insights_request (VITE_API_URL : Opt string) : Request :=
  insightsApi_getAll VITE_API_URL (Some (of_Z 0)) (Some (of_Z 50)) None.

(** The page, given the state of its query. *)
Definition InsightsPage (isLoading : bool) (insights : option (list Insight))
  : Node :=
  if isLoading then spinner
  else
    el "div" "space-y-6"
      [ Elem "div" []
          [ el "h1" "text-3xl font-bold text-gray-900" [ text "Insights" ];
            el "p" "mt-2 text-gray-600"
              [ text "AI-extracted strategic insights for HR leaders" ] ];
        el "div" "grid grid-cols-1 gap-4"
          match insights with
          | Some l => map InsightCard l
          | None => []
          end ].

End InsightsPage.

(** ** [pages/DigestsPage.tsx] (after [TrendsPage.tsx] in the sources) *)

Module DigestsPage.

(** How React renders a primitive of type [any]. *)
#[export] Instance Child_value : Child value :=
  fun v => match v with
           | VUndefined | VNull | VBool _ => []
           | VNum n => child n
           | VStr s => child s
           end.

(** How React takes a child of type [any]: a primitive as above, an array
    as its entries one after the other, an object as a child it cannot
    render. *)
Fixpoint child_any (a : any) : list Node :=
  match a with
  | Primitive v => child v
  | ArrayOf items => flat_map child_any items
  | PlainObject => [Invalid]
  end.

#[export] Instance Child_any : Child any := child_any.

(** [interface Digest] of [services/api.ts]; the entries of [top_stories]
    and [key_insights] are of type [any]. *)
Record Digest : Type := {
  digest_id : number;
  digest_type : string;
  period_start : string;
  period_end : string;
  created_date : string;
  digest_title : Opt string;
  digest_summary : Opt string;
  top_stories : Opt (list any);
  emerging_trends : Opt (list string);
  key_insights : Opt (list any);
  total_articles : Opt number;
  themes_covered : Opt (list string);
  regions_covered : Opt (list string)
}.

(** [digest.title || `${digest.digest_type} Digest`]. *)
Definition heading (digest : Digest) : string :=
  or_else (digest_title digest) (digest_type digest ++ " Digest").

Definition type_badge_class (digest_type : string) : string :=
  if String.eqb digest_type "daily" then "bg-blue-100 text-blue-800"
  else "bg-purple-100 text-purple-800".

(** [list && list.length > 0 && block], for an optional array. *)
Definition when_nonempty {A : Type} (l : Opt (list A))
    (block : list A -> list Node) : list Node :=
  match l with
  | Present items => jsx_and (0 <? List.length items)%nat (block items)
  | _ => []
  end.

Definition bullet_list {A : Type} `{Child A} (items : list A) : Node :=
  el "ul" "list-disc list-inside space-y-1 text-sm text-gray-600"
    (mapi (fun i item => Elem "li" [ ("key", [toString (of_nat i)]) ]
                           (child item))
       items).

(** One digest of the page. *)
Definition DigestCard (env : Env) (digest : Digest) : Node :=
  Elem "div"
    [ ("key", [toString (digest_id digest)]);
      ("className", lit "bg-white p-6 rounded-lg shadow") ]
    ([ el "div" "flex items-start justify-between mb-4"
         [ el "div" "flex items-center"
             [ el "DocumentTextIcon" "h-6 w-6 text-indigo-600 mr-3" [];
               Elem "div" []
                 [ el "h3" "text-xl font-semibold text-gray-900"
                     (child (heading digest));
                   el "p" "text-sm text-gray-500"
                     [ text (toLocaleDateString env (period_start digest));
                       text " -";
                       text " ";
                       text (toLocaleDateString env (period_end digest)) ] ] ];
           Elem "span"
             [ ("className",
                [ Lit "px-3 py-1 rounded-full text-xs font-medium ";
                  Lit (type_badge_class (digest_type digest)) ]) ]
             (child (digest_type digest)) ] ]
     ++ jsx_and (digest_summary digest)
          [ el "p" "text-gray-700 mb-4" (child (digest_summary digest)) ]
     ++ when_nonempty (top_stories digest)
          (fun stories =>
             [ el "div" "mb-4"
                 [ el "h4" "text-sm font-semibold text-gray-900 mb-2"
                     [ text "Top Stories" ];
                   bullet_list stories ] ])
     ++ when_nonempty (emerging_trends digest)
          (fun trends =>
             [ el "div" "mb-4"
                 [ el "h4" "text-sm font-semibold text-gray-900 mb-2"
                     [ text "Emerging Trends" ];
                   el "div" "flex flex-wrap gap-2"
                     (mapi
                        (fun i trend =>
                           Elem "span"
                             [ ("key", [toString (of_nat i)]);
                               ("className",
                                lit "px-3 py-1 bg-green-100 text-green-800 rounded-full text-sm") ]
                             (child trend))
                        trends) ] ])
     ++ when_nonempty (key_insights digest)
          (fun insights =>
             [ Elem "div" []
                 [ el "h4" "text-sm font-semibold text-gray-900 mb-2"
                     [ text "Strategic Implications" ];
                   bullet_list insights ] ])
     ++ [ el "div"
            "mt-4 pt-4 border-t border-gray-200 flex items-center gap-4 text-xs text-gray-500"
            (jsx_and (total_articles digest)
               [ Elem "span" []
                   (child (total_articles digest)
                    ++ [ text " articles analyzed" ]) ]
             ++ when_nonempty (themes_covered digest)
                  (fun themes =>
                     [ Elem "span" []
                         (child (of_nat (List.length themes))
                          ++ [ text " themes" ]) ])
             ++ when_nonempty (regions_covered digest)
                  (fun regions =>
                     [ Elem "span" []
                         (child (of_nat (List.length regions))
                          ++ [ text " regions" ]) ])) ]).

(** The request of the page's query: [digestsApi.getAll(undefined, 20)]. *)
Definition digests_request (VITE_API_URL : Opt string) : Request :=
  digestsApi_getAll VITE_API_URL None (Some (of_Z 20)).

(** The page, given the state of its query. *)
Definition DigestsPage (env : Env) (isLoading : bool)
    (digests : option (list Digest)) : Node :=
  if isLoading then spinner
  else
    el "div" "space-y-6"
      [ Elem "div" []
          [ el "h1" "text-3xl font-bold text-gray-900" [ text "Digests" ];
            el "p" "mt-2 text-gray-600"
              [ text "Executive summaries and curated insights" ] ];
        el "div" "space-y-6"
          match digests with
          | Some l => map (DigestCard env) l
          | None => []
          end ].

End DigestsPage.

(** ** Vocabulary of the further properties *)





(** The keys the articles page never sets. *)
Definition unset_keys : list FilterKey :=
  [ K_sector; K_start_date; K_end_date; K_search; K_is_emerging ].

(** A filter state in which these keys are still absent. *)
Definition page_only (f : ArticleFilters) : Prop :=
  forall k, In k unset_keys -> f k = VUndefined.

(** The number of elements with a given tag in a tree. *)
Fixpoint count_tag (tag : string) (n : Node) : nat :=
  match n with
  | Text _ | Invalid => 0
  | Elem t _ children =>
      (if String.eqb t tag then 1 else 0)
      + list_sum (map (count_tag tag) children)
  end%nat.

Definition count_tags (tag : string) (l : list Node) : nat :=
  list_sum (map (count_tag tag) l).

(** The children of an element. *)
Definition children_of (n : Node) : list Node :=
  match n with
  | Elem _ _ children => children
  | Text _ | Invalid => []
  end.

(** The child at a path of positions below an element. *)
Fixpoint descend (path : list nat) (n : Node) : option Node :=
  match path with
  | [] => Some n
  | i :: rest =>
      match nth_error (children_of n) i with
      | Some c => descend rest c
      | None => None
      end
  end.

(** A navigation link drawn as active. *)
Definition highlighted (n : Node) : bool :=
  match attr "className" n with
  | Some t =>
      match last_literal t with
      | Some c => String.eqb c "bg-indigo-50 text-indigo-600"
      | None => false
      end
  | None => false
  end.

(** The links of the sidebar that are drawn as active on a path. *)
Definition highlighted_links (pathname : string) : list Node :=
  filter highlighted (map (Layout.nav_link pathname) Layout.navigation).

(** An article that has a primary theme but no linked theme. *)
Definition themed_article : Article :=
  {| id := of_Z 8;
     title := "Boards ask for AI rules";
     url := "https://example.com/ai-rules";
     source := "HR Dive";
     source_type := "media";
     author := Absent;
     published_date := "2023-11-14T08:00:00";
     scraped_date := "2023-11-14T09:00:00";
     summary := Null;
     key_takeaways := Present ["Boards act"; "Rules follow"; "Audits grow"];
     primary_theme := Present "AI Governance";
     confidence_score := Present (Num (9 # 10));
     region := Null;
     sentiment_score := Present (Num (1 # 10));
     sentiment_label := Present "neutral";
     signal_strength := Present (Num (3 # 4));
     is_featured := false;
     is_emerging := true;
     view_count := of_Z 0;
     themes := [];
     sectors := [] |}.

(** The hue of a class of the insights page. *)
Inductive Hue : Type := HueRed | HueYellow | HueBlue.

Definition hue_of_class (c : string) : option Hue :=
  if String.eqb c "bg-red-100" || String.eqb c "text-red-600"
     || String.eqb c "bg-red-100 text-red-800" then Some HueRed
  else if String.eqb c "bg-yellow-100" || String.eqb c "text-yellow-600"
          || String.eqb c "bg-yellow-100 text-yellow-800" then Some HueYellow
  else if String.eqb c "bg-blue-100" || String.eqb c "text-blue-600"
          || String.eqb c "bg-blue-100 text-blue-800" then Some HueBlue
  else None.

(** The hue of the last class of an element. *)
Definition hue_of (n : Node) : option Hue :=
  match attr "className" n with
  | Some t =>
      match last_literal t with
      | Some c => hue_of_class c
      | None => None
      end
  | None => None
  end.

(** The hue the insights page gives an impact level. *)
Definition hue_of_impact (impact_level : Opt string) : Hue :=
  if strict_eq impact_level "high" then HueRed
  else if strict_eq impact_level "medium" then HueYellow
  else HueBlue.

(** The number of entries of an optional array: 0 when it is missing. *)
Definition entries {A : Type} (l : Opt (list A)) : nat :=
  match l with
  | Present items => List.length items
  | _ => 0
  end.

(** 1 for an optional array with an entry, 0 otherwise. *)
Definition has_entries {A : Type} (l : Opt (list A)) : nat :=
  if (0 <? entries l)%nat then 1 else 0.

(** A tree React can render: no object among the children, at any
    depth. *)
Fixpoint renderable (n : Node) : bool :=
  match n with
  | Text _ => true
  | Elem _ _ children => forallb renderable children
  | Invalid => false
  end.

(** A value of type [any] with no object in it, at any depth. *)
Fixpoint no_object (a : any) : bool :=
  match a with
  | Primitive _ => true
  | ArrayOf items => forallb no_object items
  | PlainObject => false
  end.

(** An optional array of type [any[]] with no object among its entries;
    so is a missing one. *)
Definition objects_free (l : Opt (list any)) : bool :=
  match l with
  | Present items => forallb no_object items
  | _ => true
  end.

(** A weekly digest with one top story: a text, or an object. *)
Definition digest_with_story (story : any) : DigestsPage.Digest :=
  {| DigestsPage.digest_id := of_Z 1;
     DigestsPage.digest_type := "weekly";
     DigestsPage.period_start := "2023-11-06";
     DigestsPage.period_end := "2023-11-13";
     DigestsPage.created_date := "2023-11-13";
     DigestsPage.digest_title := Null;
     DigestsPage.digest_summary := Absent;
     DigestsPage.top_stories := Present [story];
     DigestsPage.emerging_trends := Absent;
     DigestsPage.key_insights := Absent;
     DigestsPage.total_articles := Absent;
     DigestsPage.themes_covered := Absent;
     DigestsPage.regions_covered := Absent |}.

Definition text_story_digest : DigestsPage.Digest :=
  digest_with_story (Primitive (VStr "Boards ask for AI rules")).

Definition object_story_digest : DigestsPage.Digest :=
  digest_with_story PlainObject.

(** What a featured story shows to the right of its text column. *)
Definition signal_slot (story : Node) : list Node :=
  match descend [0%nat] story with
  | Some row => tl (children_of row)
  | None => []
  end.

(* ================================================================== *)
(** * Properties of the API client *)
(* ================================================================== *)

Section ClientFrame.

(** A backend: what it persists, the part of it the pipeline writes, and
    what handling one request does to it. Its [GET] handlers are taken to
    be safe: they may touch the read layer's own counters, not what the
    pipeline wrote. *)
Variable State View : Type.
Variable written_by_pipeline : State -> View.
Variable serve : Request -> State -> State.
Hypothesis GET_is_safe :
  forall r st,
    req_method r = GET ->
    written_by_pipeline (serve r st) = written_by_pipeline st.

(** C1. Every operation of the API client ([articlesApi], [themesApi],
    [insightsApi], [trendsApi], [digestsApi], [statsApi]), whatever its
    arguments and the configured base URL, issues a [GET] request; none
    issues a creating, updating or deleting method; so what the pipeline
    persisted is the same after the backend served the call. *)
Theorem client_calls_are_GET_and_leave_pipeline_state :
  forall (VITE_API_URL : Opt string) (c : ClientCall),
    req_method (request_of VITE_API_URL c) = GET
    /\ is_write_method (req_method (request_of VITE_API_URL c)) = false
    /\ forall st,
         written_by_pipeline (serve (request_of VITE_API_URL c) st)
         = written_by_pipeline st.
Proof.
  intros V c.
  assert (Hget : req_method (request_of V c) = GET) by (destruct c; reflexivity).
  split; [exact Hget|].
  split; [rewrite Hget; reflexivity|].
  intro st. apply GET_is_safe. exact Hget.
Qed.

End ClientFrame.

(** The sample read layer serves its [GET]s safely, and the frame holds
    for a call to [articlesApi.getById(7)] against it. *)
Lemma client_calls_are_GET_witness :
  (forall r st,
     req_method r = GET ->
     ReadLayer.written_by_pipeline (ReadLayer.serve r st)
     = ReadLayer.written_by_pipeline st)
  /\ req_method (request_of Absent (Articles_getById (of_Z 7))) = GET
  /\ is_write_method
       (req_method (request_of Absent (Articles_getById (of_Z 7)))) = false
  /\ forall st,
       ReadLayer.written_by_pipeline
         (ReadLayer.serve (request_of Absent (Articles_getById (of_Z 7))) st)
       = ReadLayer.written_by_pipeline st.
Proof.
  assert (Hsafe : forall r st,
             req_method r = GET ->
             ReadLayer.written_by_pipeline (ReadLayer.serve r st)
             = ReadLayer.written_by_pipeline st).
  { intros r st H. unfold ReadLayer.serve. rewrite H. reflexivity. }
  split; [exact Hsafe|].
  exact (client_calls_are_GET_and_leave_pipeline_state
           ReadLayer.State (list string)
           ReadLayer.written_by_pipeline ReadLayer.serve Hsafe
           Absent (Articles_getById (of_Z 7))).
Defined.

(** The sample read layer does write on the other methods: a [DELETE]
    would empty what the pipeline wrote. *)
Example read_layer_writes_on_DELETE :
  ReadLayer.written_by_pipeline
    (ReadLayer.serve
       {| req_method := DELETE; req_baseURL := ""; req_headers := [];
          req_url := lit "/articles/7"; req_params := [] |}
       (["https://example.com/hybrid"], 4%nat))
  = [].
Proof. reflexivity. Qed.

(** Every path the client requests is one of the read endpoints. *)
Lemma client_paths :
  forall (V : Opt string) (c : ClientCall),
    exists first, exists rest, req_url (request_of V c) = Lit first :: rest
      /\ In first [ "/articles"; "/articles/"; "/articles/featured"; "/search";
                    "/themes"; "/themes/"; "/insights"; "/trends";
                    "/trends/emerging"; "/digests"; "/digests/latest";
                    "/stats" ].
Proof.
  intros V c; destruct c; simpl; eexists; eexists; split;
    try reflexivity; simpl; tauto.
Qed.

(* ================================================================== *)
(** * Properties of the article views *)
(* ================================================================== *)

(** With [null] analysis fields the guards [!== null] hide both metrics. *)
Lemma null_analysis_fields_render_no_metric :
  ArticlesPage.signal_indicator Null = []
  /\ ArticleDetail.signal_metric Null = []
  /\ ArticleDetail.confidence_metric Null = [].
Proof. repeat split. Qed.

(** The card has no place for a confidence metric: whatever the confidence
    score, the card is the same. *)
Lemma card_ignores_confidence_score :
  forall env a c,
    ArticlesPage.ArticleCard env a
    = ArticlesPage.ArticleCard env
        {| id := id a; title := title a; url := url a; source := source a;
           source_type := source_type a; author := author a;
           published_date := published_date a;
           scraped_date := scraped_date a; summary := summary a;
           key_takeaways := key_takeaways a;
           primary_theme := primary_theme a; confidence_score := c;
           region := region a; sentiment_score := sentiment_score a;
           sentiment_label := sentiment_label a;
           signal_strength := signal_strength a;
           is_featured := is_featured a; is_emerging := is_emerging a;
           view_count := view_count a; themes := themes a;
           sectors := sectors a |}.
Proof. reflexivity. Qed.

(** C2 (the code departs from the stated property). For an Article the
    Analyzer never processed whose analysis fields are absent, the guards
    [signal_strength !== null] and [confidence_score !== null] hold, so
    the card shows a "Signal" metric and the detail view shows "Signal
    Strength" and "AI Confidence" metrics, each reading [NaN]. *)
Theorem unanalyzed_article_with_absent_fields_shows_NaN_metrics :
  forall env : Env,
    signal_strength unanalyzed_article = Absent
    /\ confidence_score unanalyzed_article = Absent
    /\ pieces_of (ArticlesPage.signal_indicator
                    (signal_strength unanalyzed_article))
       = [Lit "NaN"; Lit "Signal"]
    /\ (exists before,
          pieces (ArticlesPage.ArticleCard env unanalyzed_article)
          = before ++ [Lit "NaN"; Lit "Signal"])
    /\ pieces (ArticleDetail.analysis_metrics unanalyzed_article)
       = [ Lit "Signal Strength"; Lit "NaN"; Lit "%";
           Lit "AI Confidence"; Lit "NaN"; Lit "%" ]
    /\ pieces (ArticleDetail.article_view env unanalyzed_article)
       = [ Lit "Back to articles"; Lit "Hybrid work policies shift again";
           Lit "HR Dive";
           Lit (toLocaleDateString env "2023-11-14T08:00:00");
           Lit "Signal Strength"; Lit "NaN"; Lit "%";
           Lit "AI Confidence"; Lit "NaN"; Lit "%";
           Lit "Read Original Article" ].
Proof.
  intro env. repeat split.
  exists ([Lit "Hybrid work policies shift again"; Lit "HR Dive"]
          ++ ArticlesPage.formatDate env "2023-11-14T08:00:00").
  cbn -[ArticlesPage.formatDate]. rewrite !app_nil_r. reflexivity.
Qed.

(* ================================================================== *)
(** * Properties of the momentum indicators *)
(* ================================================================== *)

(** C6 (the code departs from the stated property). For a Trend whose
    momentum is 0 the guard [trend.momentum && ...] evaluates to the
    number 0, which React renders: the Trends page and the Dashboard
    panel both show a bare "0" where the indicator would be. *)
Theorem zero_momentum_renders_a_bare_zero :
  momentum flat_trend = Present (Num 0)
  /\ TrendsPage.momentum_indicator (momentum flat_trend) = [Text [Lit "0"]]
  /\ Dashboard.momentum_indicator (momentum flat_trend) = [Text [Lit "0"]]
  /\ pieces (TrendsPage.TrendCardHead flat_trend)
     = [ Lit "AI Governance"; Lit "emerging"; Lit "Rules for AI at work";
         Lit "12"; Lit " articles"; Lit "0"; Lit "Global" ]
  /\ pieces (Dashboard.EmergingTrend flat_trend)
     = [ Lit "AI Governance"; Lit "Rules for AI at work";
         Lit "12"; Lit " articles"; Lit "0" ].
Proof. repeat split. Qed.

(** An absent or [null] momentum renders nothing. *)
Lemma missing_momentum_renders_nothing :
  TrendsPage.momentum_indicator Absent = []
  /\ TrendsPage.momentum_indicator Null = []
  /\ Dashboard.momentum_indicator Absent = []
  /\ Dashboard.momentum_indicator Null = [].
Proof. repeat split. Qed.

(** A finite momentum other than 0 renders the green indicator with the
    trend icon, whatever its sign. *)
Lemma nonzero_momentum_renders_green_indicator :
  forall q : Q,
    ~ q == 0 ->
    TrendsPage.momentum_indicator (Present (Num q))
    = [ el "span" "flex items-center text-green-600"
          [ el "ArrowTrendingUpIcon" "h-4 w-4 mr-1" [];
            Text (toFixed0 (mul (Num q) (Num 100)));
            text "% momentum" ] ]
    /\ Dashboard.momentum_indicator (Present (Num q))
       = [ el "span" "flex items-center text-green-600"
             [ el "ArrowTrendingUpIcon" "h-3 w-3 mr-1" [];
               Text (toFixed0 (mul (Num q) (Num 100)));
               text "% momentum" ] ].
Proof.
  intros q Hq.
  assert (Ht : truthy (Present (Num q)) = true).
  { cbn. destruct (Qeq_bool q 0) eqn:E; [|reflexivity].
    apply Qeq_bool_iff in E. contradiction. }
  unfold TrendsPage.momentum_indicator, Dashboard.momentum_indicator, jsx_and.
  rewrite Ht. split; reflexivity.
Qed.

(* ================================================================== *)
(** * Properties of the sentiment renderings *)
(* ================================================================== *)

(** The pie chart applies the mapping to every label. *)
Lemma pie_cell_style_of_label :
  forall label : string, pie_cell_style label = Some (style_of_label label).
Proof.
  intro label. unfold pie_cell_style, style_of_label. cbn.
  unfold Dashboard.sentiment_fill.
  destruct (String.eqb label "positive"); [reflexivity|].
  destruct (String.eqb label "negative"); reflexivity.
Qed.

(** The card and the detail page draw no sentiment element for a label
    that is empty, [null] or absent. *)
Lemma falsy_label_renders_no_sentiment :
  forall label : Opt string,
    truthy label = false ->
    ArticlesPage.sentiment_badge label = []
    /\ ArticleDetail.sentiment_metric label = [].
Proof.
  intros label H.
  unfold ArticlesPage.sentiment_badge, ArticleDetail.sentiment_metric, jsx_and.
  rewrite H.
  destruct label as [| |s]; try (split; reflexivity).
  destruct s; [split; reflexivity|discriminate].
Qed.

(** C7 as stated fails at the empty label: the pie cell is gray, but the
    article card draws no badge for it. *)
Lemma same_mapping_fails_at_empty_label : ~ same_mapping "".
Proof.
  intros [_ [Hcard _]]. vm_compute in Hcard. discriminate Hcard.
Qed.

(** C7 (amended). For every non-empty sentiment label the three renderings
    apply the same mapping -- ['positive'] green, ['negative'] red,
    anything else gray; the pie chart applies it to the empty label too,
    for which (as for a [null] or absent label) the card and the detail
    page draw no sentiment element. *)
Theorem sentiment_renderings_share_mapping :
  forall label : string,
    label <> "" ->
    same_mapping label
    /\ pie_cell_style "" = Some Gray
    /\ card_badge_style (Present "") = None
    /\ detail_metric_style (Present "") = None.
Proof.
  intros label Hne.
  split; [|repeat split].
  unfold same_mapping. split; [apply pie_cell_style_of_label|].
  destruct label as [|c s]; [contradiction|].
  unfold card_badge_style, detail_metric_style, style_of_label,
    ArticlesPage.sentiment_badge, ArticleDetail.sentiment_metric, jsx_and,
    ArticlesPage.sentiment_badge_class, ArticleDetail.sentiment_metric_class,
    strict_eq.
  cbn [truthy Truthy_Opt Truthy_string].
  destruct (String.eqb (String c s) "positive");
    [split; reflexivity|].
  destruct (String.eqb (String c s) "negative"); split; reflexivity.
Qed.

Lemma sentiment_renderings_share_mapping_witness :
  "mixed" <> ""
  /\ same_mapping "mixed"
  /\ pie_cell_style "" = Some Gray
  /\ card_badge_style (Present "") = None
  /\ detail_metric_style (Present "") = None.
Proof.
  split; [discriminate|].
  apply (sentiment_renderings_share_mapping "mixed"). discriminate.
Defined.

(* ================================================================== *)
(** * Properties of the article detail page *)
(* ================================================================== *)

Lemma falsy_number :
  forall n : number,
    n = NaN \/ same_number n (of_Z 0) -> truthy n = false.
Proof.
  intros n [H|H].
  - subst; reflexivity.
  - destruct n as [|q|s]; [reflexivity| |contradiction].
    change (truthy (Num q)) with (negb (Qeq_bool q 0)).
    assert (E : Qeq_bool q 0 = true) by (apply Qeq_bool_iff; exact H).
    rewrite E. reflexivity.
Qed.

(** A string that starts with an ASCII character that is no white space
    has nothing for [parseInt] to skip. *)
Lemma trim_start_ascii :
  forall (c : ascii) (s : string),
    is_white_space c = false ->
    (nat_of_ascii c < 128)%nat ->
    trim_start (String c s) = String c s.
Proof.
  intros c s Hws Hc. cbn [trim_start]. rewrite Hws.
  assert (Hb : forall n, (128 <= n)%nat -> is_byte n c = false).
  { intros n Hn. unfold is_byte. apply Nat.eqb_neq. lia. }
  assert (H2 : forall c2, is_white_space_2 c c2 = false).
  { intro c2. unfold is_white_space_2. rewrite Hb by lia. reflexivity. }
  assert (H3 : forall c2 c3, is_white_space_3 c c2 c3 = false).
  { intros c2 c3. unfold is_white_space_3. rewrite !Hb by lia. reflexivity. }
  destruct s as [|c2 [|c3 r3]]; rewrite ?H2, ?H3; reflexivity.
Qed.

(** A string that starts with an ASCII character that is no white space,
    no sign and no digit has no integer for [parseInt] to read. *)
Lemma parseInt_without_leading_digit :
  forall (c : ascii) (s : string),
    is_white_space c = false ->
    (nat_of_ascii c < 128)%nat ->
    c <> "-"%char -> c <> "+"%char ->
    digit_value c = None ->
    parseInt (String c s) = NaN.
Proof.
  intros c s Hws Hc Hm Hp Hd.
  unfold parseInt. rewrite trim_start_ascii by assumption.
  assert (Hsign : strip_sign (String c s) = (1%Z, String c s)).
  { unfold strip_sign.
    destruct (Ascii.eqb_spec c "-"%char); [contradiction|].
    destruct (Ascii.eqb_spec c "+"%char); [contradiction|].
    destruct c as [[] [] [] [] [] [] [] []]; try reflexivity; congruence. }
  rewrite Hsign.
  assert (Hhex : strip_hex_prefix (String c s) = (10%N, String c s)).
  { unfold strip_hex_prefix.
    destruct c as [[] [] [] [] [] [] [] []]; try reflexivity.
    vm_compute in Hd. discriminate Hd. }
  rewrite Hhex. cbn [parse_digits]. rewrite Hd. reflexivity.
Qed.

(** C9. When the route parameter [id] is missing, is ['0'], or is any
    string for which [parseInt] gives 0 or [NaN], the article query is
    disabled: whatever the network would answer, the page issues no
    request and shows "Article not found". *)
Theorem article_detail_without_valid_id :
  forall (env : Env) (VITE_API_URL : Opt string) (client : QueryClient)
         (network : Request -> Fetch Article),
    ArticleDetail.ArticleDetail env VITE_API_URL client None network
    = (ArticleDetail.not_found, [])
    /\ ArticleDetail.ArticleDetail env VITE_API_URL client (Some "0") network
       = (ArticleDetail.not_found, [])
    /\ forall id : option string,
         ArticleDetail.articleId_of id = NaN
         \/ same_number (ArticleDetail.articleId_of id) (of_Z 0) ->
         issued (ArticleDetail.article_query VITE_API_URL client id network)
         = []
         /\ ArticleDetail.ArticleDetail env VITE_API_URL client id network
            = (ArticleDetail.not_found, []).
Proof.
  intros env V client network.
  split; [reflexivity|]. split; [reflexivity|].
  intros id H. apply falsy_number in H.
  unfold ArticleDetail.ArticleDetail, ArticleDetail.article_query, useQuery.
  rewrite H. split; reflexivity.
Qed.

Lemma article_detail_without_valid_id_witness :
  (ArticleDetail.articleId_of (Some "abc") = NaN
   \/ same_number (ArticleDetail.articleId_of (Some "abc")) (of_Z 0))
  /\ issued (ArticleDetail.article_query Absent default_client (Some "abc")
               (fun _ => Resolved unanalyzed_article)) = []
  /\ ArticleDetail.ArticleDetail sample_env Absent default_client (Some "abc")
       (fun _ => Resolved unanalyzed_article)
     = (ArticleDetail.not_found, []).
Proof.
  split; [left; reflexivity|].
  apply (article_detail_without_valid_id sample_env Absent default_client
           (fun _ => Resolved unanalyzed_article)).
  left; reflexivity.
Defined.

(** With an id that [parseInt] reads as a non-zero integer the query is
    enabled and the request goes out. *)
Example article_detail_with_id_12 :
  issued (ArticleDetail.article_query Absent default_client (Some "12")
            (fun _ => Pending))
  = [articlesApi_getById Absent (of_Z 12)].
Proof. reflexivity. Qed.

(* ================================================================== *)
(** * Properties of the rounding to binary64 *)
(* ================================================================== *)

(** ** Powers of 2 *)

Lemma pow2_pos : forall e : Z, 0 < pow2 e.
Proof. intro e. apply Qpower_0_lt. reflexivity. Qed.

Lemma pow2_le : forall a b : Z, (a <= b)%Z -> pow2 a <= pow2 b.
Proof. intros a b H. apply Qpower_le_compat_l; [exact H|discriminate]. Qed.

Lemma pow2_lt : forall a b : Z, (a < b)%Z -> pow2 a < pow2 b.
Proof. intros a b H. apply Qpower_lt_compat_l; [exact H|reflexivity]. Qed.

Lemma pow2_lt_inv : forall a b : Z, pow2 a < pow2 b -> (a < b)%Z.
Proof.
  intros a b H.
  apply Qpower_lt_compat_l_inv with (q := 2); [exact H|reflexivity].
Qed.

Lemma pow2_plus : forall a b : Z, pow2 (a + b) == pow2 a * pow2 b.
Proof. intros a b. apply Qpower_plus. discriminate. Qed.

Lemma pow2_Z : forall n : Z, (0 <= n)%Z -> pow2 n == inject_Z (2 ^ n).
Proof.
  intros n H. unfold pow2. rewrite Zpower_Qpower by exact H. reflexivity.
Qed.

(** ** The binary exponent of a positive real *)

Lemma ilog2_spec :
  forall x : Q, 0 < x -> pow2 (ilog2 x) <= x /\ x < pow2 (ilog2 x + 1).
Proof.
  intros [n d] Hx. unfold ilog2. cbn [Qnum Qden].
  assert (Hn : (0 < n)%Z).
  { unfold Qlt in Hx. cbn in Hx. lia. }
  set (ln := Z.log2 n). set (ld := Z.log2 (Zpos d)).
  assert (Ln : (2 ^ ln <= n < 2 ^ (ln + 1))%Z).
  { pose proof (Z.log2_spec n Hn) as H.
    replace (ln + 1)%Z with (Z.succ (Z.log2 n)) by (unfold ln; lia).
    exact H. }
  assert (Ld : (2 ^ ld <= Zpos d < 2 ^ (ld + 1))%Z).
  { pose proof (Z.log2_spec (Zpos d) eq_refl) as H.
    replace (ld + 1)%Z with (Z.succ (Z.log2 (Zpos d)))
      by (unfold ld; lia).
    exact H. }
  assert (Hln : (0 <= ln)%Z) by apply Z.log2_nonneg.
  assert (Hld : (0 <= ld)%Z) by apply Z.log2_nonneg.
  assert (Up : n # d < pow2 (ln - ld + 1)).
  { replace (ln - ld + 1)%Z with ((ln + 1) - ld)%Z by lia.
    unfold pow2. rewrite Qpower_minus by discriminate.
    fold (pow2 (ln + 1)). fold (pow2 ld).
    rewrite !pow2_Z by lia.
    apply Qlt_shift_div_l.
    - replace 0 with (inject_Z 0) by reflexivity. rewrite <- Zlt_Qlt. lia.
    - unfold Qlt, Qmult, inject_Z. cbn [Qnum Qden].
      rewrite Z.mul_1_r, Pos.mul_1_r. nia. }
  assert (Lo : pow2 (ln - ld - 1) < n # d).
  { replace (ln - ld - 1)%Z with (ln - (ld + 1))%Z by lia.
    unfold pow2. rewrite Qpower_minus by discriminate.
    fold (pow2 ln). fold (pow2 (ld + 1)).
    rewrite !pow2_Z by lia.
    apply Qlt_shift_div_r.
    - replace 0 with (inject_Z 0) by reflexivity. rewrite <- Zlt_Qlt. lia.
    - unfold Qlt, Qmult, inject_Z. cbn [Qnum Qden].
      rewrite Z.mul_1_r, Pos.mul_1_r. nia. }
  destruct (Qle_bool (pow2 (ln - ld)) (n # d)) eqn:E.
  - apply Qle_bool_iff in E. split; assumption.
  - split.
    + apply Qlt_le_weak. exact Lo.
    + replace (ln - ld - 1 + 1)%Z with (ln - ld)%Z by lia.
      apply Qnot_le_lt. intro H. apply Qle_bool_iff in H. congruence.
Qed.

Lemma ilog2_unique :
  forall (x : Q) (e : Z),
    0 < x -> pow2 e <= x -> x < pow2 (e + 1) -> ilog2 x = e.
Proof.
  intros x e Hx L U. destruct (ilog2_spec x Hx) as [L' U'].
  assert (A : (e < ilog2 x + 1)%Z).
  { apply pow2_lt_inv. apply Qle_lt_trans with x; assumption. }
  assert (B : (ilog2 x < e + 1)%Z).
  { apply pow2_lt_inv. apply Qle_lt_trans with x; assumption. }
  lia.
Qed.

Lemma ilog2_le :
  forall x y : Q, 0 < x -> x <= y -> (ilog2 x <= ilog2 y)%Z.
Proof.
  intros x y Hx Hxy.
  assert (Hy : 0 < y) by (apply Qlt_le_trans with x; assumption).
  destruct (ilog2_spec x Hx) as [L _]. destruct (ilog2_spec y Hy) as [_ U].
  assert (A : (ilog2 x < ilog2 y + 1)%Z).
  { apply pow2_lt_inv. apply Qle_lt_trans with x; [exact L|].
    apply Qle_lt_trans with y; assumption. }
  lia.
Qed.

(** ** Rounding to an integer, ties to even *)

Lemma round_half_even_bounds :
  forall x : Q, (Qfloor x <= round_half_even x <= Qfloor x + 1)%Z.
Proof.
  intro x. unfold round_half_even.
  destruct (Qcompare (x - inject_Z (Qfloor x)) (1 # 2)); [|lia|lia].
  destruct (Z.even (Qfloor x)); lia.
Qed.

Lemma round_half_even_integer :
  forall (x : Q) (z : Z), x == inject_Z z -> round_half_even x = z.
Proof.
  intros x z H. unfold round_half_even.
  assert (F : Qfloor x = z).
  { rewrite (Qfloor_comp x (inject_Z z) H). apply Qfloor_Z. }
  rewrite F.
  destruct (Qcompare_spec (x - inject_Z z) (1 # 2)) as [C|C|C];
    [exfalso; rewrite H in C; lra|reflexivity|exfalso; rewrite H in C; lra].
Qed.

Lemma round_half_even_le :
  forall x y : Q, x <= y -> (round_half_even x <= round_half_even y)%Z.
Proof.
  intros x y H.
  pose proof (Qfloor_resp_le x y H) as F.
  pose proof (round_half_even_bounds x) as Bx.
  pose proof (round_half_even_bounds y) as By.
  destruct (Z.eq_dec (Qfloor x) (Qfloor y)) as [E|E]; [|lia].
  unfold round_half_even in *. rewrite <- E in *.
  destruct (Qcompare_spec (x - inject_Z (Qfloor x)) (1 # 2)) as [Cx|Cx|Cx];
    destruct (Qcompare_spec (y - inject_Z (Qfloor x)) (1 # 2)) as [Cy|Cy|Cy];
    try lia;
    try (destruct (Z.even (Qfloor x)); lia);
    exfalso; lra.
Qed.

(** ** Rounding to a multiple of a power of 2 *)

Lemma on_grid_le :
  forall (u : Z) (x y : Q), x <= y -> on_grid u x <= on_grid u y.
Proof.
  intros u x y H. unfold on_grid.
  apply Qmult_le_compat_r; [|apply Qlt_le_weak, pow2_pos].
  rewrite <- Zle_Qle. apply round_half_even_le.
  unfold Qdiv. apply Qmult_le_compat_r; [exact H|].
  apply Qlt_le_weak, Qinv_lt_0_compat, pow2_pos.
Qed.

Lemma on_grid_exact :
  forall (u k : Z) (x : Q), x == inject_Z k * pow2 u -> on_grid u x == x.
Proof.
  intros u k x H. unfold on_grid.
  rewrite (round_half_even_integer (x / pow2 u) k).
  - symmetry. exact H.
  - rewrite H. field. apply Qnot_eq_sym, Qlt_not_eq, pow2_pos.
Qed.

Lemma pow2_on_grid :
  forall u e : Z, (u <= e)%Z -> pow2 e == inject_Z (2 ^ (e - u)) * pow2 u.
Proof.
  intros u e H. rewrite <- pow2_Z by lia. rewrite <- pow2_plus.
  replace (e - u + u)%Z with e by lia. reflexivity.
Qed.

(** ** Rounding the magnitude *)

Lemma ulp_exponent_le_ilog2 :
  forall x, (-1074 <= ilog2 x)%Z -> (ulp_exponent x <= ilog2 x)%Z.
Proof. intros x H. unfold ulp_exponent. lia. Qed.

Lemma round_magnitude_le :
  forall x y : Q, 0 < x -> x <= y -> round_magnitude x <= round_magnitude y.
Proof.
  intros x y Hx Hxy.
  assert (Hy : 0 < y) by (apply Qlt_le_trans with x; assumption).
  pose proof (ilog2_le x y Hx Hxy) as He.
  unfold round_magnitude.
  destruct (Z.eq_dec (ulp_exponent x) (ulp_exponent y)) as [E|E].
  - rewrite E. apply on_grid_le. exact Hxy.
  - assert (Hu : (ulp_exponent x < ulp_exponent y)%Z)
      by (unfold ulp_exponent in *; lia).
    assert (Hy1 : ulp_exponent y = (ilog2 y - 52)%Z)
      by (unfold ulp_exponent in *; lia).
    assert (Hxy1 : (ilog2 x + 1 <= ilog2 y)%Z)
      by (unfold ulp_exponent in *; lia).
    destruct (ilog2_spec x Hx) as [_ Ux].
    destruct (ilog2_spec y Hy) as [Ly _].
    apply Qle_trans with (pow2 (ilog2 y)).
    + rewrite <- (on_grid_exact (ulp_exponent x)
                    (2 ^ (ilog2 y - ulp_exponent x)) (pow2 (ilog2 y)))
        by (apply pow2_on_grid; lia).
      apply on_grid_le. apply Qlt_le_weak.
      apply Qlt_le_trans with (pow2 (ilog2 x + 1)); [exact Ux|].
      apply pow2_le. exact Hxy1.
    + rewrite <- (on_grid_exact (ulp_exponent y)
                    (2 ^ (ilog2 y - ulp_exponent y)) (pow2 (ilog2 y)))
        at 1 by (apply pow2_on_grid; lia).
      apply on_grid_le. exact Ly.
Qed.

Lemma round_magnitude_nonneg :
  forall x : Q, 0 <= x -> 0 <= round_magnitude x.
Proof.
  intros x Hx. unfold round_magnitude, on_grid.
  apply Qmult_le_0_compat; [|apply Qlt_le_weak, pow2_pos].
  replace 0 with (inject_Z 0) by reflexivity. rewrite <- Zle_Qle.
  pose proof (round_half_even_bounds (x / pow2 (ulp_exponent x))) as B.
  assert (F : (0 <= Qfloor (x / pow2 (ulp_exponent x)))%Z).
  { apply Z.le_trans with (Qfloor 0); [reflexivity|].
    apply Qfloor_resp_le. apply Qle_shift_div_l; [apply pow2_pos|]. lra. }
  lia.
Qed.



(** ** Rounding a real to binary64 *)

Lemma Qltb_lt : forall x y : Q, Qltb x y = true <-> x < y.
Proof.
  intros x y. unfold Qltb. split; intro H.
  - apply Qnot_le_lt. intro L. apply Qle_bool_iff in L. rewrite L in H.
    discriminate H.
  - destruct (Qle_bool y x) eqn:E; [|reflexivity].
    apply Qle_bool_iff in E. apply Qle_not_lt in E. contradiction.
Qed.

Lemma Qltb_ge : forall x y : Q, Qltb x y = false <-> y <= x.
Proof.
  intros x y. unfold Qltb. rewrite negb_false_iff. apply Qle_bool_iff.
Qed.

Lemma Qeq_bool_false : forall x y : Q, Qeq_bool x y = false <-> ~ x == y.
Proof.
  intros x y. split.
  - intros H E. apply Qeq_bool_iff in E. congruence.
  - intro H. destruct (Qeq_bool x y) eqn:E; [|reflexivity].
    apply Qeq_bool_iff in E. contradiction.
Qed.

Lemma nearest_double_cases :
  forall x : Q,
    (x == 0 /\ nearest_double x = 0)
    \/ (x < 0 /\ nearest_double x = - round_magnitude (- x))
    \/ (0 < x /\ nearest_double x = round_magnitude x).
Proof.
  intro x. unfold nearest_double.
  destruct (Qeq_bool x 0) eqn:E.
  - left. apply Qeq_bool_iff in E. split; [exact E|reflexivity].
  - apply Qeq_bool_false in E.
    destruct (Qltb x 0) eqn:L.
    + right; left. apply Qltb_lt in L. split; [exact L|reflexivity].
    + right; right. apply Qltb_ge in L. split; [|reflexivity].
      apply Qle_lteq in L. destruct L as [L|L]; [exact L|].
      exfalso. apply E. symmetry. exact L.
Qed.

Lemma nearest_double_nonneg :
  forall x : Q, 0 <= x -> 0 <= nearest_double x.
Proof.
  intros x Hx.
  destruct (nearest_double_cases x) as [[_ ->]|[[L _]|[_ ->]]].
  - apply Qle_refl.
  - exfalso. lra.
  - apply round_magnitude_nonneg. exact Hx.
Qed.

Lemma nearest_double_nonpos :
  forall x : Q, x <= 0 -> nearest_double x <= 0.
Proof.
  intros x Hx.
  destruct (nearest_double_cases x) as [[_ ->]|[[L ->]|[L _]]].
  - apply Qle_refl.
  - assert (0 <= round_magnitude (- x))
      by (apply round_magnitude_nonneg; lra).
    lra.
  - exfalso. lra.
Qed.

(** Rounding to the nearest binary64 value keeps the order. *)
Lemma nearest_double_le :
  forall x y : Q, x <= y -> nearest_double x <= nearest_double y.
Proof.
  intros x y H.
  destruct (Qlt_le_dec 0 x) as [Px|Nx].
  - destruct (nearest_double_cases x) as [[E _]|[[L _]|[_ ->]]];
      try (exfalso; lra).
    destruct (nearest_double_cases y) as [[E _]|[[L _]|[_ ->]]];
      try (exfalso; lra).
    apply round_magnitude_le; assumption.
  - destruct (Qlt_le_dec y 0) as [Ny|Py].
    + destruct (nearest_double_cases x) as [[E _]|[[_ ->]|[L _]]];
        try (exfalso; lra).
      destruct (nearest_double_cases y) as [[E _]|[[_ ->]|[L _]]];
        try (exfalso; lra).
      assert (round_magnitude (- y) <= round_magnitude (- x))
        by (apply round_magnitude_le; lra).
      lra.
    + apply Qle_trans with 0;
        [apply nearest_double_nonpos|apply nearest_double_nonneg]; assumption.
Qed.



Lemma binary64_finite :
  forall x : Q,
    Qabs (nearest_double x) < pow2 1024 ->
    binary64 x = Num (Qred (nearest_double x)).
Proof.
  intros x H. unfold binary64.
  destruct (Qeq_bool x 0) eqn:E.
  - unfold nearest_double. rewrite E. reflexivity.
  - cbv zeta.
    destruct (Qle_bool (pow2 1024) (Qabs (nearest_double x))) eqn:O;
      [|reflexivity].
    apply Qle_bool_iff in O. exfalso. apply (Qlt_not_le _ _ H O).
Qed.


(** Between 0 and a bound that is itself a binary64 value the rounding
    stays within the bounds. *)
Lemma binary64_between :
  forall x c : Q,
    0 <= x -> x <= c -> nearest_double c == c -> c < pow2 1024 ->
    binary64 x = Num (Qred (nearest_double x))
    /\ 0 <= nearest_double x /\ nearest_double x <= c.
Proof.
  intros x c H0 Hc Ec Hmax.
  pose proof (nearest_double_nonneg x H0) as L.
  pose proof (nearest_double_le x c Hc) as U. rewrite Ec in U.
  split; [|split; assumption].
  apply binary64_finite. rewrite Qabs_pos by exact L.
  apply Qle_lt_trans with c; assumption.
Qed.

(* ================================================================== *)
(** * Properties of the signal strength bars *)
(* ================================================================== *)

Lemma lt_of_Z : forall a b : Z, lt (of_Z a) (of_Z b) = (a <? b)%Z.
Proof.
  intros a b. unfold lt, of_Z, Qltb, Qle_bool. cbn [Qnum Qden inject_Z].
  rewrite !Z.mul_1_r.
  destruct (Z.ltb_spec a b), (Z.leb_spec b a); try reflexivity; lia.
Qed.

(** The colours of the five bars, given the value of [bars]. *)
Lemma SignalStrength_colours :
  forall v : number,
    map bar_class (bars_of (Dashboard.SignalStrength v))
    = map (fun i => Some (Dashboard.bar_colour i (Math_round (mul v (Num 5)))))
        (seq 0 5).
Proof. reflexivity. Qed.

Lemma is_green_bar_colour :
  forall (i : nat) (bars : number),
    String.eqb (Dashboard.bar_colour i bars) "bg-green-500"
    = lt (of_nat i) bars.
Proof.
  intros i bars. unfold Dashboard.bar_colour.
  destruct (lt (of_nat i) bars); reflexivity.
Qed.

Lemma green_bars_count :
  forall v : number,
    green_bars (Dashboard.SignalStrength v)
    = List.length
        (filter (fun i => lt (of_nat i) (Math_round (mul v (Num 5))))
           (seq 0 5)).
Proof.
  intro v. unfold green_bars.
  set (bars := Math_round (mul v (Num 5))).
  change (bars_of (Dashboard.SignalStrength v))
    with (map (fun i =>
                 Elem "div"
                   [ ("key", [toString (of_nat i)]);
                     ("className",
                      [ Lit "w-1 h-"; toString (of_nat ((i + 1) * 2));
                        Lit " "; Lit (Dashboard.bar_colour i bars) ]) ]
                   [])
            (seq 0 5)).
  cbn [seq map filter].
  unfold is_green. cbn [bar_class].
  rewrite !is_green_bar_colour.
  destruct (lt (of_nat 0) bars), (lt (of_nat 1) bars), (lt (of_nat 2) bars),
    (lt (of_nat 3) bars), (lt (of_nat 4) bars); reflexivity.
Qed.

(** The green bars are the first [clamp 0 5 r] ones when [bars] is the
    integer [r]. *)
Lemma colours_of_integer :
  forall r : Z,
    map (fun i => Some (Dashboard.bar_colour i (of_Z r))) (seq 0 5)
    = repeat (Some "bg-green-500") (Z.to_nat (clamp 0 5 r))
      ++ repeat (Some "bg-gray-300") (5 - Z.to_nat (clamp 0 5 r))
    /\ List.length (filter (fun i => lt (of_nat i) (of_Z r)) (seq 0 5))
       = Z.to_nat (clamp 0 5 r).
Proof.
  intro r. unfold Dashboard.bar_colour, of_nat. cbn [seq map filter].
  rewrite !lt_of_Z. cbn [Z.of_nat Pos.of_succ_nat Pos.succ].
  assert (C : (r <= 0 \/ r = 1 \/ r = 2 \/ r = 3 \/ r = 4 \/ 5 <= r)%Z) by lia.
  destruct C as [C|[C|[C|[C|[C|C]]]]]; try (subst r; split; reflexivity).
  - assert (E : clamp 0 5 r = 0%Z) by (unfold clamp; lia). rewrite E.
    destruct (Z.ltb_spec 0 r), (Z.ltb_spec 1 r), (Z.ltb_spec 2 r),
      (Z.ltb_spec 3 r), (Z.ltb_spec 4 r); try lia.
    split; reflexivity.
  - assert (E : clamp 0 5 r = 5%Z) by (unfold clamp; lia). rewrite E.
    destruct (Z.ltb_spec 0 r), (Z.ltb_spec 1 r), (Z.ltb_spec 2 r),
      (Z.ltb_spec 3 r), (Z.ltb_spec 4 r); try lia.
    split; reflexivity.
Qed.

(** The number of green bars, from the product [value * 5]. *)
Lemma green_bars_of_product :
  forall v : number,
    green_bars (Dashboard.SignalStrength v)
    = match mul v (Num 5) with
      | Num p => Z.to_nat (clamp 0 5 (round_half_up p))
      | Infinity false => 5%nat
      | _ => 0%nat
      end.
Proof.
  intro v. rewrite green_bars_count.
  destruct (mul v (Num 5)) as [|p|[|]]; try reflexivity.
  apply (colours_of_integer (round_half_up p)).
Qed.

Lemma green_bars_NaN : green_bars (Dashboard.SignalStrength NaN) = 0%nat.
Proof. reflexivity. Qed.

Lemma round_half_up_le :
  forall p q : Q, p <= q -> (round_half_up p <= round_half_up q)%Z.
Proof.
  intros p q H. unfold round_half_up. apply Qfloor_resp_le. lra.
Qed.

Lemma round_half_up_Qred :
  forall q : Q, round_half_up (Qred q) = round_half_up q.
Proof.
  intro q. unfold round_half_up. apply Qfloor_comp.
  rewrite Qred_correct. reflexivity.
Qed.

(** For a value between 0 and 1 the product [value * 5] is the binary64
    value nearest the real product, and lies between 0 and 5. *)
Lemma signal_product :
  forall q : Q,
    0 <= q -> q <= 1 ->
    mul (Num q) (Num 5) = Num (Qred (nearest_double (q * 5)))
    /\ 0 <= nearest_double (q * 5) /\ nearest_double (q * 5) <= 5.
Proof.
  intros q H0 H1. unfold mul.
  apply binary64_between; [lra|lra|reflexivity|reflexivity].
Qed.

Lemma green_bars_unit_interval :
  forall q : Q,
    0 <= q -> q <= 1 ->
    (0 <= round_half_up (nearest_double (q * 5)) <= 5)%Z
    /\ green_bars (Dashboard.SignalStrength (Num q))
       = Z.to_nat (round_half_up (nearest_double (q * 5))).
Proof.
  intros q H0 H1. destruct (signal_product q H0 H1) as [E [L U]].
  assert (B : (0 <= round_half_up (nearest_double (q * 5)) <= 5)%Z).
  { split.
    - apply (round_half_up_le 0 _ L).
    - apply (round_half_up_le _ 5 U). }
  split; [exact B|].
  rewrite green_bars_of_product, E, round_half_up_Qred.
  unfold clamp. f_equal. lia.
Qed.

(** C10. For every number [v] the [SignalStrength] component renders
    exactly 5 bars; bar [i] is green exactly when [i < Math.round(v * 5)],
    so the green bars come first and the rest are gray; for [v] in [0, 1]
    the number of green bars is [Math.round] of the product [v * 5] as
    binary64 multiplication gives it, lies between 0 and 5 and does not
    decrease when [v] grows. *)
Theorem SignalStrength_bars :
  forall v : number,
    let bars := bars_of (Dashboard.SignalStrength v) in
    let green := green_bars (Dashboard.SignalStrength v) in
    List.length bars = 5%nat
    /\ map bar_class bars
       = repeat (Some "bg-green-500") green
         ++ repeat (Some "bg-gray-300") (5 - green)
    /\ (forall i : nat,
          (i < 5)%nat ->
          is_green (nth i bars (Text []))
          = lt (of_nat i) (Math_round (mul v (Num 5)))
          /\ is_gray (nth i bars (Text []))
             = negb (lt (of_nat i) (Math_round (mul v (Num 5)))))
    /\ forall q : Q,
         v = Num q -> 0 <= q -> q <= 1 ->
         (0 <= round_half_up (nearest_double (q * 5)) <= 5)%Z
         /\ Z.of_nat green = round_half_up (nearest_double (q * 5))
         /\ forall p : Q,
              0 <= p -> p <= q ->
              (green_bars (Dashboard.SignalStrength (Num p)) <= green)%nat.
Proof.
  intros v bars green. subst bars green.
  split; [reflexivity|]. split; [|split].
  - rewrite SignalStrength_colours, green_bars_of_product.
    unfold Math_round.
    destruct (mul v (Num 5)) as [|p|[|]]; try reflexivity.
    apply (colours_of_integer (round_half_up p)).
  - intros i Hi.
    set (b := Math_round (mul v (Num 5))).
    assert (E : forall j, (j < 5)%nat ->
                nth j (bars_of (Dashboard.SignalStrength v)) (Text [])
                = Elem "div"
                    [ ("key", [toString (of_nat j)]);
                      ("className",
                       [ Lit "w-1 h-"; toString (of_nat ((j + 1) * 2));
                         Lit " "; Lit (Dashboard.bar_colour j b) ]) ]
                    []).
    { intros j Hj.
      do 5 (destruct j as [|j]; [reflexivity|]). lia. }
    rewrite (E i Hi).
    unfold is_green, is_gray. cbn [bar_class].
    rewrite is_green_bar_colour. split; [reflexivity|].
    unfold Dashboard.bar_colour. destruct (lt (of_nat i) b); reflexivity.
  - intros q -> H0 H1.
    destruct (green_bars_unit_interval q H0 H1) as [Hr Hg].
    split; [exact Hr|]. rewrite Hg. split; [lia|].
    intros p Hp0 Hpq.
    assert (Hp1 : p <= 1) by lra.
    destruct (green_bars_unit_interval p Hp0 Hp1) as [Hrp Hgp].
    rewrite Hgp.
    assert (M : (round_half_up (nearest_double (p * 5))
                 <= round_half_up (nearest_double (q * 5)))%Z).
    { apply round_half_up_le, nearest_double_le. lra. }
    lia.
Qed.

Lemma SignalStrength_bars_witness :
  (2 < 5)%nat /\ 0 <= double_0_3 /\ double_0_3 <= 1
  /\ 0 <= double_0_1 /\ double_0_1 <= double_0_3
  /\ is_green
       (nth 2 (bars_of (Dashboard.SignalStrength (Num double_0_3)))
          (Text [])) = false
  /\ Z.of_nat (green_bars (Dashboard.SignalStrength (Num double_0_3))) = 2%Z
  /\ (green_bars (Dashboard.SignalStrength (Num double_0_1))
      <= green_bars (Dashboard.SignalStrength (Num double_0_3)))%nat.
Proof.
  assert (Hi : (2 < 5)%nat) by lia.
  assert (H0 : 0 <= double_0_3) by (unfold Qle; simpl; lia).
  assert (H1 : double_0_3 <= 1) by (unfold Qle; simpl; lia).
  assert (Hp0 : 0 <= double_0_1) by (unfold Qle; simpl; lia).
  assert (Hpq : double_0_1 <= double_0_3) by (unfold Qle; simpl; lia).
  destruct (SignalStrength_bars (Num double_0_3)) as [_ [_ [Hgreen Hunit]]].
  destruct (Hgreen 2%nat Hi) as [Hg _].
  destruct (Hunit double_0_3 eq_refl H0 H1) as [_ [Hcount Hmono]].
  split; [exact Hi|].
  split; [exact H0|]. split; [exact H1|].
  split; [exact Hp0|]. split; [exact Hpq|].
  split; [rewrite Hg; vm_compute; reflexivity|].
  split; [rewrite Hcount; vm_compute; reflexivity|].
  exact (Hmono double_0_1 Hp0 Hpq).
Defined.

(** At the binary64 value nearest 0.3 the product [v * 5] is rounded up
    to 1.5, of which [Math.round] makes 2 green bars; the real product
    lies just below 1.5 and would round to 1. *)
Example SignalStrength_at_0_3 :
  mul (Num double_0_3) (Num 5) = Num (3 # 2)
  /\ green_bars (Dashboard.SignalStrength (Num double_0_3)) = 2%nat
  /\ round_half_up (double_0_3 * 5) = 1%Z.
Proof. repeat split. Qed.

(* ================================================================== *)
(** * Properties of the filter state of the articles page *)
(* ================================================================== *)

Import ArticlesPage.

Lemma handleFilterChange_resets_skip :
  forall key v prev, handleFilterChange key v prev K_skip = VNum (of_Z 0).
Proof. reflexivity. Qed.

Lemma handleFilterChange_sets_key :
  forall key v prev,
    page_key key = true -> handleFilterChange key v prev key = v.
Proof. intros key v prev H; destruct key; try discriminate H; reflexivity. Qed.

Lemma handleFilterChange_keeps_limit :
  forall key v prev,
    page_key key = true ->
    handleFilterChange key v prev K_limit = prev K_limit.
Proof. intros key v prev H; destruct key; try discriminate H; reflexivity. Qed.

Lemma handleLoadMore_adds_20 :
  forall prev q,
    prev K_skip = VNum (Num q) ->
    exists q', handleLoadMore prev K_skip = VNum (Num q') /\ q' == q + 20.
Proof.
  intros prev q H.
  unfold handleLoadMore, with_key. cbn [FilterKey_eqb]. rewrite H.
  unfold or_zero. change (truthy (VNum (Num q))) with (negb (Qeq_bool q 0)).
  destruct (Qeq_bool q 0) eqn:E; cbn [negb plus_20 add of_Z].
  - apply Qeq_bool_iff in E. eexists; split; [reflexivity|].
    rewrite E. reflexivity.
  - eexists; split; reflexivity.
Qed.

Lemma handleLoadMore_keeps_limit :
  forall prev, handleLoadMore prev K_limit = prev K_limit.
Proof. reflexivity. Qed.

Lemma of_Z_plus_20 :
  forall k : nat,
    add (of_Z (20 * Z.of_nat k)) (of_Z 20) = of_Z (20 * Z.of_nat (S k)).
Proof.
  intro k. unfold add, of_Z, Qplus, inject_Z. cbn [Qnum Qden Pos.mul].
  do 2 f_equal. lia.
Qed.

Lemma handleLoadMore_paged :
  forall f, paged f -> paged (handleLoadMore f).
Proof.
  intros f [[k Hk] Hl]. split; [|rewrite handleLoadMore_keeps_limit; exact Hl].
  unfold handleLoadMore, with_key. cbn [FilterKey_eqb]. rewrite Hk.
  unfold or_zero.
  destruct (truthy (VNum (of_Z (20 * Z.of_nat k)))).
  - exists (S k). cbn [plus_20]. rewrite of_Z_plus_20. reflexivity.
  - exists 1%nat. reflexivity.
Qed.

Lemma handleFilterChange_paged :
  forall key v f,
    page_key key = true -> paged f -> paged (handleFilterChange key v f).
Proof.
  intros key v f Hkey [_ Hl]. split.
  - exists 0%nat. apply handleFilterChange_resets_skip.
  - rewrite handleFilterChange_keeps_limit by exact Hkey. exact Hl.
Qed.

Lemma handle_paged :
  forall env e f, paged f -> paged (handle env e f).
Proof.
  intros env e f H.
  destruct e; cbn [handle];
    try (apply handleFilterChange_paged; [reflexivity|exact H]).
  apply handleLoadMore_paged; exact H.
Qed.

Lemma fold_handle_paged :
  forall env events f,
    paged f -> paged (fold_left (fun f e => handle env e f) events f).
Proof.
  intros env events. induction events as [|e events IH]; intros f H.
  - exact H.
  - cbn [fold_left]. apply IH. apply handle_paged. exact H.
Qed.

Lemma initial_filters_paged : paged initial_filters.
Proof. split; [exists 0%nat|]; reflexivity. Qed.

(** The same invariant for direct calls of the two handlers: [skip] stays
    a multiple of 20 whatever the keys, [limit] stays 20 as long as the
    key is one the page passes. *)
Lemma filters_after_calls_paged :
  forall calls : list Call,
    (exists k : nat,
       filters_after_calls calls K_skip = VNum (of_Z (20 * Z.of_nat k)))
    /\ (forallb page_call calls = true ->
        filters_after_calls calls K_limit = VNum (of_Z 20)).
Proof.
  intro calls. unfold filters_after_calls.
  assert (G : forall f,
             (exists k : nat, f K_skip = VNum (of_Z (20 * Z.of_nat k))) ->
             (exists k : nat,
                fold_left (fun f c => call c f) calls f K_skip
                = VNum (of_Z (20 * Z.of_nat k)))
             /\ (forallb page_call calls = true ->
                 fold_left (fun f c => call c f) calls f K_limit = f K_limit)).
  { induction calls as [|c calls IH]; intros f Hs.
    - split; [exact Hs|reflexivity].
    - cbn [fold_left forallb].
      assert (Hs' : exists k : nat,
                 call c f K_skip = VNum (of_Z (20 * Z.of_nat k))).
      { destruct c as [key v|]; cbn [call].
        - exists 0%nat. apply handleFilterChange_resets_skip.
        - destruct Hs as [k Hk].
          unfold handleLoadMore, with_key. cbn [FilterKey_eqb]. rewrite Hk.
          unfold or_zero.
          destruct (truthy (VNum (of_Z (20 * Z.of_nat k)))).
          + exists (S k). cbn [plus_20]. rewrite of_Z_plus_20. reflexivity.
          + exists 1%nat. reflexivity. }
      destruct (IH (call c f) Hs') as [IH1 IH2]. split; [exact IH1|].
      intro H. apply andb_prop in H. destruct H as [Hc Hrest].
      rewrite (IH2 Hrest).
      destruct c as [key v|]; cbn [call].
      + apply handleFilterChange_keeps_limit. exact Hc.
      + apply handleLoadMore_keeps_limit. }
  destruct (G initial_filters) as [G1 G2]; [exists 0%nat; reflexivity|].
  split; [exact G1|]. intro H. rewrite (G2 H). reflexivity.
Qed.

(** A direct call with the key ['limit'], which the page never makes,
    would change [limit]. *)
Example handleFilterChange_limit :
  handleFilterChange K_limit (VNum (of_Z 50)) initial_filters K_limit
  = VNum (of_Z 50).
Proof. reflexivity. Qed.

(** C8. In the filter state of the articles page [skip] starts at 0; every
    call of [handleFilterChange] resets [skip] to 0 and stores the value
    under the changed key; every call of [handleLoadMore] adds exactly 20
    to [skip]; so after any run of the page's events [skip] is 20 times a
    natural number and [limit] is still 20. *)
Theorem filter_state_paging :
  forall (env : Env) (events : list Event),
    initial_filters K_skip = VNum (of_Z 0)
    /\ initial_filters K_limit = VNum (of_Z 20)
    /\ (forall key v prev,
          handleFilterChange key v prev K_skip = VNum (of_Z 0)
          /\ (page_key key = true -> handleFilterChange key v prev key = v))
    /\ (forall prev q,
          prev K_skip = VNum (Num q) ->
          exists q', handleLoadMore prev K_skip = VNum (Num q')
                     /\ q' == q + 20)
    /\ (exists k : nat,
          filters_after env events K_skip = VNum (of_Z (20 * Z.of_nat k)))
    /\ filters_after env events K_limit = VNum (of_Z 20).
Proof.
  intros env events.
  split; [reflexivity|]. split; [reflexivity|].
  split.
  { intros key v prev. split.
    - apply handleFilterChange_resets_skip.
    - apply handleFilterChange_sets_key. }
  split; [exact handleLoadMore_adds_20|].
  exact (fold_handle_paged env events initial_filters initial_filters_paged).
Qed.

Lemma filter_state_paging_witness :
  page_key K_theme = true
  /\ handleFilterChange K_theme (VStr "AI Governance") initial_filters K_theme
     = VStr "AI Governance"
  /\ initial_filters K_skip = VNum (Num 0)
  /\ (exists q', handleLoadMore initial_filters K_skip = VNum (Num q')
                 /\ q' == 0 + 20)
  /\ (exists k : nat,
        filters_after sample_env
          [LoadMoreClicked; LoadMoreClicked; ThemeChanged "AI Governance";
           LoadMoreClicked] K_skip
        = VNum (of_Z (20 * Z.of_nat k)))
  /\ filters_after sample_env
       [LoadMoreClicked; LoadMoreClicked; ThemeChanged "AI Governance";
        LoadMoreClicked] K_limit
     = VNum (of_Z 20).
Proof.
  destruct (filter_state_paging sample_env
              [LoadMoreClicked; LoadMoreClicked; ThemeChanged "AI Governance";
               LoadMoreClicked])
    as [_ [_ [Hchange [Hmore [Hskip Hlimit]]]]].
  split; [reflexivity|].
  split; [exact (proj2 (Hchange K_theme (VStr "AI Governance") initial_filters)
                   eq_refl)|].
  split; [reflexivity|].
  split; [exact (Hmore initial_filters 0 eq_refl)|].
  split; [exact Hskip|exact Hlimit].
Defined.

Example filters_after_three_events :
  filters_after sample_env
    [LoadMoreClicked; LoadMoreClicked; ThemeChanged "AI Governance";
     LoadMoreClicked] K_skip
  = VNum (of_Z 20).
Proof. reflexivity. Qed.

(* ================================================================== *)
(** * Properties of the pipeline *)
(* ================================================================== *)

Import Pipeline.

Section Ingestion.

Variable cfg : Config.

Lemma isNew_existsb :
  forall st d, isNew cfg st d = negb (existsb (duplicates cfg d) st).
Proof.
  intros st d. unfold isNew, resolveExistingId.
  induction st as [|a st IH]; cbn [find existsb]; [reflexivity|].
  destruct (duplicates cfg d a); [reflexivity|exact IH].
Qed.

Lemma retry_pending_duplicates :
  forall capability d st,
    existsb (duplicates cfg d) (retry_pending cfg capability st)
    = existsb (duplicates cfg d) st.
Proof.
  intros capability d st. unfold retry_pending.
  induction st as [|a st IH]; cbn [map existsb]; [reflexivity|].
  rewrite IH. destruct (analysis a); reflexivity.
Qed.

Lemma retry_pending_urls :
  forall capability st,
    normalized_urls cfg (retry_pending cfg capability st)
    = normalized_urls cfg st.
Proof.
  intros capability st. unfold normalized_urls, retry_pending.
  rewrite map_map. apply map_ext. intro a. destruct (analysis a); reflexivity.
Qed.

Lemma retry_pending_length :
  forall capability st,
    List.length (retry_pending cfg capability st) = List.length st.
Proof. intros; unfold retry_pending; apply length_map. Qed.

(** A document is skipped, or it is well formed and new and becomes the
    last Article. *)
Lemma ingest_cases :
  forall capability st d,
    ingest cfg capability st d = st
    \/ (existsb (duplicates cfg d) st = false
        /\ ingest cfg capability st d
           = st ++ [analyze_article cfg capability (new_article st d)]).
Proof.
  intros capability st d. unfold ingest. rewrite isNew_existsb.
  destruct (well_formed d); [|left; reflexivity].
  destruct (existsb (duplicates cfg d) st); cbn [negb andb];
    [left|right; split]; reflexivity.
Qed.

Lemma ingest_keeps_duplicates :
  forall capability st d d',
    existsb (duplicates cfg d) st = true ->
    existsb (duplicates cfg d) (ingest cfg capability st d') = true.
Proof.
  intros capability st d d' H.
  destruct (ingest_cases capability st d') as [E|[_ E]]; rewrite E;
    [exact H|].
  rewrite existsb_app, H. reflexivity.
Qed.

Lemma fold_ingest_keeps_duplicates :
  forall capability docs st d,
    existsb (duplicates cfg d) st = true ->
    existsb (duplicates cfg d) (fold_left (ingest cfg capability) docs st)
    = true.
Proof.
  intros capability docs. induction docs as [|d' docs IH]; intros st d H.
  - exact H.
  - cbn [fold_left]. apply IH. apply ingest_keeps_duplicates. exact H.
Qed.

(** Once a well-formed document went through, the store holds an Article
    that makes it a duplicate. *)
Lemma ingest_covers :
  forall capability st d,
    well_formed d = true ->
    existsb (duplicates cfg d) (ingest cfg capability st d) = true.
Proof.
  intros capability st d Hwf. unfold ingest. rewrite isNew_existsb, Hwf.
  destruct (existsb (duplicates cfg d) st) eqn:E; cbn [negb andb];
    [exact E|].
  rewrite existsb_app. cbn [existsb]. unfold duplicates at 2.
  cbn [analyze_article record_outcome new_article art_url].
  rewrite String.eqb_refl. cbn [orb]. apply orb_true_r.
Qed.

Lemma fold_ingest_covers :
  forall capability docs st d,
    In d docs -> well_formed d = true ->
    existsb (duplicates cfg d) (fold_left (ingest cfg capability) docs st)
    = true.
Proof.
  intros capability docs.
  induction docs as [|d' docs IH]; intros st d Hin Hwf; [contradiction|].
  cbn [fold_left]. destruct Hin as [->|Hin].
  - apply fold_ingest_keeps_duplicates. apply ingest_covers. exact Hwf.
  - apply IH; assumption.
Qed.

(** Documents that are all malformed or duplicates leave the store as it
    is. *)
Lemma fold_ingest_nothing_new :
  forall capability docs st,
    (forall d, In d docs -> well_formed d = true ->
               existsb (duplicates cfg d) st = true) ->
    fold_left (ingest cfg capability) docs st = st.
Proof.
  intros capability docs.
  induction docs as [|d docs IH]; intros st H; [reflexivity|].
  cbn [fold_left].
  assert (E : ingest cfg capability st d = st).
  { unfold ingest. rewrite isNew_existsb.
    destruct (well_formed d) eqn:Hwf; [|reflexivity].
    rewrite (H d (or_introl eq_refl) Hwf). reflexivity. }
  rewrite E. apply IH. intros d' Hin Hwf. apply H; [right; exact Hin|exact Hwf].
Qed.

(** A second run on the same fetch output persists nothing. *)
Lemma second_run_adds_nothing :
  forall capability1 capability2 st docs,
    run cfg capability2 (run cfg capability1 st docs) docs
    = retry_pending cfg capability2 (run cfg capability1 st docs).
Proof.
  intros capability1 capability2 st docs.
  unfold run at 1. apply fold_ingest_nothing_new.
  intros d Hin Hwf. rewrite retry_pending_duplicates.
  unfold run. apply fold_ingest_covers; assumption.
Qed.

Lemma ingest_unique_urls :
  forall capability st d,
    NoDup (normalized_urls cfg st) ->
    NoDup (normalized_urls cfg (ingest cfg capability st d)).
Proof.
  intros capability st d H.
  destruct (ingest_cases capability st d) as [E|[Hnew E]]; rewrite E;
    [exact H|].
  unfold normalized_urls. rewrite map_app. cbn [map].
  apply NoDup_app; [exact H|constructor; [intros []|constructor]|].
  intros u Hu [Heq|[]]. apply in_map_iff in Hu. destruct Hu as [a [Ha Hin]].
  assert (Hd : duplicates cfg d a = true).
  { unfold duplicates. cbn [analyze_article record_outcome new_article art_url]
      in Heq.
    rewrite Ha, <- Heq, String.eqb_refl. reflexivity. }
  assert (Hex : existsb (duplicates cfg d) st = true)
    by (apply existsb_exists; exists a; split; assumption).
  rewrite Hex in Hnew. discriminate Hnew.
Qed.

Lemma run_unique_urls :
  forall capability st docs,
    NoDup (normalized_urls cfg st) ->
    NoDup (normalized_urls cfg (run cfg capability st docs)).
Proof.
  intros capability st docs H. unfold run.
  assert (G : forall docs st,
             NoDup (normalized_urls cfg st) ->
             NoDup (normalized_urls cfg
                      (fold_left (ingest cfg capability) docs st))).
  { clear. intro docs. induction docs as [|d docs IH]; intros st H;
      [exact H|].
    cbn [fold_left]. apply IH. apply ingest_unique_urls. exact H. }
  apply G. rewrite retry_pending_urls. exact H.
Qed.

Lemma after_runs_unique_urls :
  forall runs, NoDup (normalized_urls cfg (after_runs cfg runs)).
Proof.
  intro runs. unfold after_runs.
  assert (G : forall st,
             NoDup (normalized_urls cfg st) ->
             NoDup (normalized_urls cfg
                      (fold_left (fun st r => run cfg (fst r) st (snd r))
                         runs st))).
  { induction runs as [|r runs IH]; intros st H; [exact H|].
    cbn [fold_left]. apply IH. apply run_unique_urls. exact H. }
  apply G. constructor.
Qed.

(** C3. However many runs the store went through, no two Articles share a
    normalized URL; and running the pipeline a second time on the same
    fetch output leaves the number of Articles where the first run put
    it. *)
Theorem ingestion_is_idempotent :
  forall (runs : list (Capability * list IngestedDocument))
         (capability1 capability2 : Capability)
         (docs : list IngestedDocument),
    let st := after_runs cfg runs in
    NoDup (normalized_urls cfg st)
    /\ NoDup (normalized_urls cfg (run cfg capability1 st docs))
    /\ List.length (run cfg capability2 (run cfg capability1 st docs) docs)
       = List.length (run cfg capability1 st docs).
Proof.
  intros runs capability1 capability2 docs st.
  split; [apply after_runs_unique_urls|].
  split; [apply run_unique_urls; apply after_runs_unique_urls|].
  rewrite second_run_adds_nothing. apply retry_pending_length.
Qed.

End Ingestion.

Section Analysis.

Variable cfg : Config.

Lemma in_range_spec :
  forall lo hi x, in_range lo hi x = true -> lo <= x /\ x <= hi.
Proof.
  intros lo hi x H. unfold in_range in H. apply andb_prop in H.
  destruct H as [H1 H2]. split; apply Qle_bool_iff; assumption.
Qed.

(** A reply is accepted only with its scores in range. *)
Lemma validate_scores_in_range :
  forall raw r, validate cfg raw = Some r -> scores_in_range r.
Proof.
  intros raw r H. unfold validate in H.
  destruct (raw_summary raw) as [s|]; [|discriminate H].
  destruct (raw_key_takeaways raw) as [kt|]; [|discriminate H].
  destruct (raw_theme_guess raw) as [th|]; [|discriminate H].
  destruct (raw_sentiment_label raw) as [l|]; [|discriminate H].
  destruct (raw_sentiment_score raw) as [sc|]; [|discriminate H].
  destruct (raw_signal_strength raw) as [sg|]; [|discriminate H].
  destruct (raw_confidence_score raw) as [cf|]; [|discriminate H].
  destruct (label_of l) as [lbl|]; [|discriminate H].
  match type of H with
  | (if ?c then _ else _) = _ => destruct c eqn:E; [|discriminate H]
  end.
  injection H as <-.
  repeat (apply andb_prop in E; destruct E as [E ?]).
  unfold scores_in_range.
  cbn [res_signal_strength res_confidence_score res_sentiment_score].
  repeat match goal with
         | R : in_range _ _ _ = true |- _ => apply in_range_spec in R
         end.
  tauto.
Qed.

Lemma attempts_from_scores_in_range :
  forall reply remaining n last r,
    attempts_from cfg reply n remaining last = Analyzed r ->
    scores_in_range r.
Proof.
  intros reply remaining.
  induction remaining as [|k IH]; intros n last r H; cbn [attempts_from] in H.
  - discriminate H.
  - destruct (reply n) as [| | |raw]; try (eapply IH; eassumption).
    destruct (validate cfg raw) as [res|] eqn:V.
    + injection H as <-. eapply validate_scores_in_range; eassumption.
    + eapply IH; eassumption.
Qed.

Lemma analyze_scores_in_range :
  forall capability text title r,
    analyze cfg capability text title = Analyzed r -> scores_in_range r.
Proof.
  intros capability text title r H.
  eapply attempts_from_scores_in_range. exact H.
Qed.

Lemma record_outcome_consistent :
  forall o a,
    (forall r, o = Analyzed r -> scores_in_range r) ->
    consistent a -> consistent (record_outcome o a).
Proof.
  intros o a Ho [Hrange Hnone]. unfold consistent, never_succeeded.
  destruct o as [r|k]; cbn [record_outcome analysis analysis_log forallb
                              succeeded negb andb].
  - split.
    + intros r' E. injection E as <-. apply Ho. reflexivity.
    + split; intro E; discriminate E.
  - split; [exact Hrange|exact Hnone].
Qed.

Lemma analyze_article_consistent :
  forall capability a,
    consistent a -> consistent (analyze_article cfg capability a).
Proof.
  intros capability a H. unfold analyze_article.
  apply record_outcome_consistent; [|exact H].
  intros r E. eapply analyze_scores_in_range. exact E.
Qed.

Lemma new_article_consistent :
  forall st d, consistent (new_article st d).
Proof.
  intros st d. split; [intros r E; discriminate E|].
  split; reflexivity.
Qed.

Lemma retry_pending_consistent :
  forall capability st,
    Forall consistent st -> Forall consistent (retry_pending cfg capability st).
Proof.
  intros capability st H. unfold retry_pending. apply Forall_map.
  eapply Forall_impl; [|exact H]. intros a Ha.
  destruct (analysis a); [exact Ha|].
  apply analyze_article_consistent. exact Ha.
Qed.

Lemma ingest_consistent :
  forall capability st d,
    Forall consistent st -> Forall consistent (ingest cfg capability st d).
Proof.
  intros capability st d H. unfold ingest.
  destruct (well_formed d && isNew cfg st d); [|exact H].
  apply Forall_app. split; [exact H|].
  constructor; [|constructor].
  apply analyze_article_consistent. apply new_article_consistent.
Qed.

Lemma run_consistent :
  forall capability st docs,
    Forall consistent st -> Forall consistent (run cfg capability st docs).
Proof.
  intros capability st docs H. unfold run.
  assert (G : forall docs st,
             Forall consistent st ->
             Forall consistent (fold_left (ingest cfg capability) docs st)).
  { clear. intro docs. induction docs as [|d docs IH]; intros st H;
      [exact H|].
    cbn [fold_left]. apply IH. apply ingest_consistent. exact H. }
  apply G. apply retry_pending_consistent. exact H.
Qed.

Lemma after_runs_consistent :
  forall runs, Forall consistent (after_runs cfg runs).
Proof.
  intro runs. unfold after_runs.
  assert (G : forall st,
             Forall consistent st ->
             Forall consistent
               (fold_left (fun st r => run cfg (fst r) st (snd r)) runs st)).
  { induction runs as [|r runs IH]; intros st H; [exact H|].
    cbn [fold_left]. apply IH. apply run_consistent. exact H. }
  apply G. constructor.
Qed.

(** C5. For every Article of a store the pipeline produced: when present,
    [signal_strength] and [confidence_score] lie in [0, 1] and
    [sentiment_score] in [-1, 1]; and each of the three is absent exactly
    when no analysis of the Article ever succeeded. *)
Theorem analysis_scores_in_range_or_absent :
  forall runs : list (Capability * list IngestedDocument),
    Forall
      (fun a =>
         (forall x, signal_strength_of a = Some x -> 0 <= x /\ x <= 1)
         /\ (forall x, confidence_score_of a = Some x -> 0 <= x /\ x <= 1)
         /\ (forall x, sentiment_score_of a = Some x -> -1 <= x /\ x <= 1)
         /\ (signal_strength_of a = None <-> never_succeeded a = true)
         /\ (confidence_score_of a = None <-> never_succeeded a = true)
         /\ (sentiment_score_of a = None <-> never_succeeded a = true))
      (after_runs cfg runs).
Proof.
  intro runs.
  eapply Forall_impl; [|apply after_runs_consistent].
  intros a [Hrange Hnone].
  unfold signal_strength_of, confidence_score_of, sentiment_score_of.
  destruct (analysis a) as [r|] eqn:E; cbn [option_map].
  - destruct (Hrange r eq_refl) as [Hs [Hc Hm]].
    assert (Hlog : never_succeeded a = true -> False).
    { intro H. apply Hnone in H. discriminate H. }
    assert (Habsent : forall y : Q, Some y = None <-> never_succeeded a = true).
    { intro y. split; intro H; [discriminate H|destruct (Hlog H)]. }
    split; [intros x Hx; injection Hx as <-; exact Hs|].
    split; [intros x Hx; injection Hx as <-; exact Hc|].
    split; [intros x Hx; injection Hx as <-; exact Hm|].
    split; [apply Habsent|]. split; apply Habsent.
  - assert (Hlog : never_succeeded a = true) by (apply Hnone; reflexivity).
    assert (Habsent : @None Q = None <-> never_succeeded a = true).
    { split; intro; [exact Hlog|reflexivity]. }
    split; [intros x Hx; discriminate Hx|].
    split; [intros x Hx; discriminate Hx|].
    split; [intros x Hx; discriminate Hx|].
    split; [exact Habsent|]. split; exact Habsent.
Qed.

End Analysis.

Section TrendEngine.

Variable cfg : Config.

Lemma next_status_edge :
  forall s m,
    next_status cfg s m = s \/ allowed_edge s (next_status cfg s m) = true.
Proof.
  intros s m. destruct s; cbn [next_status];
    match goal with
    | |- context [if ?c then _ else _] => destruct c
    end; auto.
Qed.

Lemma next_status_emerging :
  forall s m, next_status cfg s m = emerging -> s = emerging.
Proof.
  intros s m. destruct s; cbn [next_status]; try reflexivity;
    match goal with
    | |- context [if ?c then _ else _] => destruct c
    end; intro H; discriminate H.
Qed.

Lemma statuses_from_head :
  forall s momenta,
    exists rest, statuses_from cfg s momenta = s :: rest.
Proof. intros s [|m momenta]; eexists; reflexivity. Qed.

Lemma consecutive_statuses_from :
  forall s m momenta,
    consecutive (statuses_from cfg s (m :: momenta))
    = (s, next_status cfg s m)
      :: consecutive (statuses_from cfg (next_status cfg s m) momenta).
Proof.
  intros s m momenta. cbn [statuses_from].
  destruct (statuses_from_head (next_status cfg s m) momenta) as [rest E].
  rewrite E. reflexivity.
Qed.

Lemma TrendStatus_eqb_eq :
  forall a b, TrendStatus_eqb a b = true <-> a = b.
Proof. intros [] []; cbn; split; intro H; try reflexivity; discriminate H. Qed.

Lemma transitions_allowed :
  forall momenta s,
    Forall (fun p => allowed_edge (fst p) (snd p) = true)
      (transitions (statuses_from cfg s momenta)).
Proof.
  unfold transitions.
  induction momenta as [|m momenta IH]; intro s; [constructor|].
  rewrite consecutive_statuses_from. cbn [filter fst snd].
  destruct (TrendStatus_eqb s (next_status cfg s m)) eqn:E; cbn [negb].
  - apply IH.
  - constructor; [|apply IH]. cbn [fst snd].
    destruct (next_status_edge s m) as [H|H]; [|exact H].
    rewrite H in E.
    assert (T : TrendStatus_eqb s s = true) by (apply TrendStatus_eqb_eq; reflexivity).
    rewrite T in E. discriminate E.
Qed.

Lemma never_back_into_emerging :
  forall momenta s,
    filter (fun p => negb (TrendStatus_eqb (fst p) emerging)
                     && TrendStatus_eqb (snd p) emerging)
      (consecutive (statuses_from cfg s momenta)) = [].
Proof.
  induction momenta as [|m momenta IH]; intro s; [reflexivity|].
  rewrite consecutive_statuses_from. cbn [filter fst snd]. rewrite IH.
  destruct (TrendStatus_eqb (next_status cfg s m) emerging) eqn:E.
  - apply TrendStatus_eqb_eq in E. apply next_status_emerging in E.
    subst s. reflexivity.
  - rewrite andb_false_r. reflexivity.
Qed.

(** C4. Along the whole history of a Trend, whatever momentum the runs
    recompute, two consecutive statuses that differ are joined by one of
    the edges emerging -> growing, growing -> peak, peak -> declining,
    declining -> growing; and the Trend enters [emerging] once, at its
    detection, and never again. *)
Theorem trend_status_transitions :
  forall momenta : list Q,
    Forall (fun p => allowed_edge (fst p) (snd p) = true)
      (transitions (status_history cfg momenta))
    /\ Forall (fun p => fst p = snd p \/ allowed_edge (fst p) (snd p) = true)
         (consecutive (status_history cfg momenta))
    /\ entries_into_emerging (status_history cfg momenta) = 1%nat.
Proof.
  intro momenta. unfold status_history. split; [apply transitions_allowed|].
  split.
  - generalize emerging as s. induction momenta as [|m momenta IH]; intro s;
      [constructor|].
    rewrite consecutive_statuses_from. constructor; [|apply IH].
    cbn [fst snd]. destruct (next_status_edge s m) as [H|H]; auto.
  - unfold entries_into_emerging. rewrite never_back_into_emerging.
    destruct (statuses_from_head emerging momenta) as [rest E]. rewrite E.
    reflexivity.
Qed.

End TrendEngine.

(* ================================================================== *)
(** * What [toFixed(0)] shows *)
(* ================================================================== *)

Lemma integer_shown_digits :
  forall n : N, integer_shown [Lit (digits n)] = Some (Z.of_N n).
Proof.
  intro n. unfold digits.
  rewrite <- (Unsigned.of_to n) at 2.
  generalize (N.to_uint n) as d. intro d.
  pose proof (NilEmpty.usu d) as H.
  destruct d; cbn [NilEmpty.string_of_uint] in *; unfold integer_shown;
    cbv beta iota; rewrite H; reflexivity.
Qed.

Lemma integer_shown_minus_digits :
  forall n : N,
    integer_shown [Lit ("-" ++ digits n)] = Some (- Z.of_N n)%Z.
Proof.
  intro n. unfold digits.
  rewrite <- (Unsigned.of_to n) at 2.
  change ("-" ++ NilEmpty.string_of_uint (N.to_uint n))%string
    with (String "-" (NilEmpty.string_of_uint (N.to_uint n))).
  unfold integer_shown. cbv beta iota. rewrite NilEmpty.usu. reflexivity.
Qed.

(** Below 10^21 in magnitude, [x.toFixed(0)] shows the integer nearest to
    [x], a tie going away from 0 ("-0" for a negative [x] that rounds to
    0). *)
Lemma toFixed0_shows_rounded :
  forall q : Q,
    Qabs q < ten_pow_21 ->
    integer_shown (toFixed0 (Num q)) = Some (round_half_away q).
Proof.
  intros q Hq. unfold toFixed0, round_half_away, nearest_integer.
  assert (Hsmall : Qle_bool ten_pow_21 (Qabs q) = false).
  { destruct (Qle_bool ten_pow_21 (Qabs q)) eqn:E; [|reflexivity].
    apply Qle_bool_iff in E. apply Qle_not_lt in E. contradiction. }
  rewrite Hsmall.
  assert (Hnn : (0 <= Qfloor (Qabs q + (1 # 2)))%Z).
  { apply Z.le_trans with (Qfloor 0); [reflexivity|].
    apply Qfloor_resp_le. pose proof (Qabs_nonneg q). lra. }
  destruct (Qltb q 0) eqn:E.
  - apply Qltb_lt in E. rewrite integer_shown_minus_digits.
    rewrite Z2N.id by exact Hnn.
    assert (A : Qabs q == - q) by (apply Qabs_neg; lra).
    rewrite (Qfloor_comp (Qabs q + (1 # 2)) (- q + (1 # 2)))
      by (rewrite A; reflexivity).
    reflexivity.
  - apply Qltb_ge in E. change ("" ++ digits ?n)%string with (digits n).
    rewrite integer_shown_digits. rewrite Z2N.id by exact Hnn.
    assert (A : Qabs q == q) by (apply Qabs_pos; exact E).
    rewrite (Qfloor_comp (Qabs q + (1 # 2)) (q + (1 # 2)))
      by (rewrite A; reflexivity).
    reflexivity.
Qed.

Example toFixed0_examples :
  toFixed0 (mul (Num (3 # 4)) (Num 100)) = [Lit "75"]
  /\ toFixed0 (mul (Num (- (1 # 2))) (Num 100)) = [Lit "-50"]
  /\ toFixed0 (Num (- (4 # 10))) = [Lit "-0"]
  /\ toFixed0 (Num (25 # 2)) = [Lit "13"]
  /\ toFixed0 (mul (to_number Absent) (Num 100)) = [Lit "NaN"].
Proof. repeat split. Qed.

(** The no-break space U+00A0 (the bytes 194 and 160) is white space for
    [parseInt]. *)
Example parseInt_skips_no_break_space :
  parseInt (String (ascii_of_nat 194) (String (ascii_of_nat 160) "12"))
  = of_Z 12.
Proof. vm_compute. reflexivity. Qed.

Example parseInt_examples :
  parseInt "42abc" = of_Z 42
  /\ parseInt "  -0x1F" = of_Z (-31)
  /\ parseInt "0.5" = of_Z 0
  /\ parseInt "abc" = NaN
  /\ parseInt "" = NaN.
Proof. repeat split. Qed.

(* ================================================================== *)
(** * The scenarios of section 8 on the pipeline model *)
(* ================================================================== *)

(** [A], [B] and [A] with a tracking query string give two Articles, and a
    second run on the same output still two. *)
Example scenario_tracking_query_collapses :
  List.length (run sample_config flaky_capability [] scenario_docs) = 2%nat
  /\ List.length
       (run sample_config flaky_capability
          (run sample_config flaky_capability [] scenario_docs) scenario_docs)
     = 2%nat.
Proof. split; reflexivity. Qed.

(** Two transient failures and then an answer: the Article ends up
    analysed, in one row. *)
Example scenario_third_attempt_succeeds :
  map (fun a => (signal_strength_of a, never_succeeded a))
    (run sample_config flaky_capability []
       [sample_doc "https://example.com/news/a" "Hybrid work" "Offices reopen."])
  = [(Some (7 # 10), false)].
Proof. reflexivity. Qed.

(** When the capability never answers the Article is persisted without
    analysis fields, and a later run that gets an answer fills them in. *)
Example scenario_retry_in_a_later_run :
  let docs :=
    [sample_doc "https://example.com/news/a" "Hybrid work" "Offices reopen."] in
  let first := run sample_config dead_capability [] docs in
  map (fun a => (signal_strength_of a, never_succeeded a)) first
  = [(None, true)]
  /\ map (fun a => (signal_strength_of a, never_succeeded a))
       (run sample_config flaky_capability first docs)
     = [(Some (7 # 10), false)].
Proof. split; reflexivity. Qed.

Example scenario_status_history :
  status_history sample_config [1; 1; 0; -1; 1; 1]
  = [emerging; growing; growing; peak; declining; growing; growing].
Proof. reflexivity. Qed.

(* ================================================================== *)
(** * From the link of a card to the request of the detail page *)
(* ================================================================== *)




















(** A fetch that is rejected is repeated: with a client that retries
    three times a failing article is requested four times. *)
Example rejected_article_is_requested_again :
  issued (ArticleDetail.article_query Absent default_client (Some "7")
            (fun _ => Rejected))
  = repeat (articlesApi_getById Absent (of_Z 7)) 4.
Proof. reflexivity. Qed.



(** Beyond 2^53 not every integer is a binary64 number: the parameter
    9007199254740993 is read as 9007199254740992. *)
Example parseInt_rounds_to_binary64 :
  ArticleDetail.articleId_of (Some "9007199254740993")
  = of_Z 9007199254740992.
Proof. vm_compute. reflexivity. Qed.

(* ================================================================== *)
(** * The filters of the articles page and the request they make *)
(* ================================================================== *)

Import ArticlesBody.

Lemma find_filter :
  forall (A : Type) (p q : A -> bool) (l : list A),
    find p (filter q l) = find (fun x => p x && q x) l.
Proof.
  intros A p q l. induction l as [|x l IH]; [reflexivity|].
  cbn [filter find]. destruct (q x); cbn [find].
  - rewrite andb_true_r. destruct (p x); [reflexivity|exact IH].
  - rewrite andb_false_r. exact IH.
Qed.

(** What the request for the article list sends for a key of the
    filters. *)
Lemma sent_filter_key :
  forall (V : Opt string) (f : ArticleFilters) (k : FilterKey),
    Axios.sent (key_name k) (articles_request V f)
    = if Axios.is_sent (f k) then Some (f k) else None.
Proof.
  intros V f k. unfold Axios.sent, Axios.sent_params. rewrite find_filter.
  destruct k; cbn;
    match goal with
    | |- context [Axios.is_sent ?v] => destruct (Axios.is_sent v)
    end; reflexivity.
Qed.

Lemma handleFilterChange_other_key :
  forall key v prev k,
    k <> key -> k <> K_skip -> handleFilterChange key v prev k = prev k.
Proof.
  intros key v prev k Hk Hs.
  destruct key, k; try reflexivity; congruence.
Qed.

Lemma handle_page_only :
  forall env e f, page_only f -> page_only (handle env e f).
Proof.
  intros env e f H k Hk.
  assert (Hf : f k = VUndefined) by (apply H; exact Hk).
  cbn [unset_keys In] in Hk.
  destruct Hk as [<-|[<-|[<-|[<-|[<-|[]]]]]];
    destruct e; cbn [handle];
    try (rewrite handleFilterChange_other_key by discriminate; exact Hf);
    exact Hf.
Qed.

Lemma filters_after_page_only :
  forall env events, page_only (filters_after env events).
Proof.
  intros env events. unfold filters_after.
  assert (G : forall f, page_only f ->
                page_only (fold_left (fun f e => handle env e f) events f)).
  { induction events as [|e events IH]; intros f H; [exact H|].
    cbn [fold_left]. apply IH. apply handle_page_only. exact H. }
  apply G. intros k Hk. cbn [unset_keys In] in Hk.
  destruct Hk as [<-|[<-|[<-|[<-|[<-|[]]]]]]; reflexivity.
Qed.

(** X3. Whatever the user does on the articles page, the request for the
    list is a [GET] of [/articles] that sends [limit] 20 and a [skip] that
    is a multiple of 20, and never sends a [sector], [start_date],
    [end_date], [search] or [is_emerging] parameter. *)
Theorem articles_request_is_paged :
  forall (V : Opt string) (env : Env) (events : list Event),
    req_method (articles_request V (filters_after env events)) = GET
    /\ req_url (articles_request V (filters_after env events))
       = lit "/articles"
    /\ (exists k : nat,
          Axios.sent "skip" (articles_request V (filters_after env events))
          = Some (VNum (of_Z (20 * Z.of_nat k))))
    /\ Axios.sent "limit" (articles_request V (filters_after env events))
       = Some (VNum (of_Z 20))
    /\ Forall
         (fun key =>
            Axios.sent (key_name key)
              (articles_request V (filters_after env events)) = None)
         unset_keys.
Proof.
  intros V env events.
  destruct (fold_handle_paged env events initial_filters initial_filters_paged)
    as [[k Hk] Hl].
  fold (filters_after env events) in Hk, Hl.
  split; [reflexivity|]. split; [reflexivity|]. split; [|split].
  - exists k. change "skip" with (key_name K_skip).
    rewrite sent_filter_key, Hk. reflexivity.
  - change "limit" with (key_name K_limit).
    rewrite sent_filter_key, Hl. reflexivity.
  - apply Forall_forall. intros key Hkey.
    rewrite sent_filter_key.
    rewrite (filters_after_page_only env events key Hkey). reflexivity.
Qed.

(** X4. A change of one filter leaves every other filter and [limit]
    alone -- only [skip] is reset; so changes of two different filters
    commute, and of two changes of the same filter the later wins. *)
Theorem filter_changes_are_independent :
  forall (key1 key2 : FilterKey) (v1 v2 : value) (prev : ArticleFilters)
         (k : FilterKey),
    key1 <> key2 ->
    (k <> key1 -> k <> K_skip -> handleFilterChange key1 v1 prev k = prev k)
    /\ handleFilterChange key1 v1 (handleFilterChange key2 v2 prev) k
       = handleFilterChange key2 v2 (handleFilterChange key1 v1 prev) k
    /\ handleFilterChange key1 v2 (handleFilterChange key1 v1 prev) k
       = handleFilterChange key1 v2 prev k.
Proof.
  intros key1 key2 v1 v2 prev k Hne.
  split; [apply handleFilterChange_other_key|].
  split.
  - destruct key1, key2, k; try reflexivity; congruence.
  - destruct key1, k; reflexivity.
Qed.

Lemma filter_changes_are_independent_witness :
  K_theme <> K_region
  /\ handleFilterChange K_theme (VStr "AI Governance") initial_filters K_limit
     = initial_filters K_limit
  /\ handleFilterChange K_theme (VStr "AI Governance")
       (handleFilterChange K_region (VStr "Europe") initial_filters) K_region
     = handleFilterChange K_region (VStr "Europe")
         (handleFilterChange K_theme (VStr "AI Governance") initial_filters)
         K_region.
Proof.
  assert (Hne : K_theme <> K_region) by discriminate.
  assert (H1 : K_limit <> K_theme) by discriminate.
  assert (H2 : K_limit <> K_skip) by discriminate.
  destruct (filter_changes_are_independent K_theme K_region
              (VStr "AI Governance") (VStr "Europe") initial_filters K_limit
              Hne) as [Hframe _].
  destruct (filter_changes_are_independent K_theme K_region
              (VStr "AI Governance") (VStr "Europe") initial_filters K_region
              Hne) as [_ [Hcomm _]].
  split; [exact Hne|]. split; [exact (Hframe H1 H2)|exact Hcomm].
Defined.

(** X5. Each select shows what was chosen in it: after a choice in the
    theme or region select its [value] is the chosen string, whatever the
    other filters; the featured select shows its three options back and
    shows [false] for any other string. *)
Theorem selects_show_the_choice :
  forall (env : Env) (s : string) (prev : ArticleFilters),
    theme_select_value (handle env (ThemeChanged s) prev) = lit s
    /\ region_select_value (handle env (RegionChanged s) prev) = lit s
    /\ featured_select_value (handle env (FeaturedChanged s) prev)
       = lit (if String.eqb s "" then ""
              else if String.eqb s "true" then "true" else "false").
Proof.
  intros env s prev.
  unfold theme_select_value, region_select_value, featured_select_value.
  cbn [handle]. rewrite !handleFilterChange_sets_key by reflexivity.
  split; [|split].
  - destruct s; reflexivity.
  - destruct s; reflexivity.
  - destruct (String.eqb s ""); [reflexivity|].
    destruct (String.eqb s "true"); reflexivity.
Qed.

(** X6. Choosing the empty option of a select removes its parameter from
    the request, any other choice sends it: a theme or region as the
    string, the featured flag as a boolean (so "Non-Featured" sends
    [false]), the signal strength as what [parseFloat] reads. *)
Theorem cleared_filters_are_not_sent :
  forall (V : Opt string) (env : Env) (s : string) (prev : ArticleFilters),
    Axios.sent "theme"
      (articles_request V (handle env (ThemeChanged s) prev))
    = (if String.eqb s "" then None else Some (VStr s))
    /\ Axios.sent "region"
         (articles_request V (handle env (RegionChanged s) prev))
       = (if String.eqb s "" then None else Some (VStr s))
    /\ Axios.sent "is_featured"
         (articles_request V (handle env (FeaturedChanged s) prev))
       = (if String.eqb s "" then None
          else Some (VBool (String.eqb s "true")))
    /\ Axios.sent "min_signal_strength"
         (articles_request V (handle env (SignalChanged s) prev))
       = (if String.eqb s "" then None else Some (VNum (parseFloat env s)))
    /\ Axios.sent "skip"
         (articles_request V (handle env (ThemeChanged s) prev))
       = Some (VNum (of_Z 0)).
Proof.
  intros V env s prev.
  change "theme" with (key_name K_theme).
  change "region" with (key_name K_region).
  change "is_featured" with (key_name K_is_featured).
  change "min_signal_strength" with (key_name K_min_signal_strength).
  change "skip" with (key_name K_skip).
  rewrite !sent_filter_key. cbn [handle].
  rewrite !handleFilterChange_sets_key by reflexivity.
  rewrite handleFilterChange_resets_skip.
  repeat split; destruct s; reflexivity.
Qed.

Lemma ge_of_nat_20 :
  forall n : nat, ge (of_nat n) (of_Z 20) = (20 <=? n)%nat.
Proof.
  intro n. unfold ge, of_nat, of_Z, Qle_bool. cbn [inject_Z Qnum Qden].
  rewrite !Z.mul_1_r.
  destruct (Z.leb_spec 20 (Z.of_nat n)), (Nat.leb_spec 20 n);
    try reflexivity; lia.
Qed.

(** X7. In every state the page can reach, the list shows a card per
    article followed by the "Load More" button exactly when at least 20
    articles came back; an empty or missing result shows "No articles
    found matching your filters."; while loading only the spinner is
    shown. *)
Theorem load_more_follows_a_full_page :
  forall (env : Env) (StringToNumber : string -> number)
         (events : list Event) (articles : list Article),
    articles_list env StringToNumber false (Some articles)
      (filters_after env events)
    = el "div" "space-y-4"
        match articles with
        | [] => [ no_articles ]
        | _ :: _ =>
            map (ArticlesPage.ArticleCard env) articles
            ++ (if (20 <=? List.length articles)%nat
                then [ load_more_button ] else [])
        end
    /\ articles_list env StringToNumber false None (filters_after env events)
       = el "div" "space-y-4" [ no_articles ]
    /\ articles_list env StringToNumber true (Some articles)
         (filters_after env events)
       = el "div" "space-y-4" [ spinner ].
Proof.
  intros env sn events articles.
  destruct (fold_handle_paged env events initial_filters initial_filters_paged)
    as [_ Hl].
  fold (filters_after env events) in Hl.
  split; [|split; reflexivity].
  unfold articles_list, limit_or_20. rewrite Hl.
  destruct articles as [|a l]; [reflexivity|].
  change (0 <? List.length (a :: l))%nat with true. cbv iota.
  change (value_to_number sn
            (if truthy (VNum (of_Z 20)) then VNum (of_Z 20)
             else VNum (of_Z 20)))
    with (of_Z 20).
  rewrite ge_of_nat_20. unfold jsx_and.
  destruct (20 <=? List.length (a :: l))%nat; reflexivity.
Qed.

(* ================================================================== *)
(** * The age of an article on its card *)
(* ================================================================== *)

Lemma Qfloor_lt :
  forall (x : Q) (z : Z), (Qfloor x < z)%Z <-> x < inject_Z z.
Proof.
  intros x z. split; intro H.
  - apply Qlt_le_trans with (inject_Z (Qfloor x + 1)); [apply Qlt_floor|].
    rewrite <- Zle_Qle. lia.
  - destruct (Z.lt_ge_cases (Qfloor x) z) as [L|G]; [exact L|].
    exfalso. apply (Qlt_not_le _ _ H).
    apply Qle_trans with (inject_Z (Qfloor x)); [|apply Qfloor_le].
    rewrite <- Zle_Qle. exact G.
Qed.

Lemma hours_below :
  forall (e : Q) (h : Z),
    (0 < h)%Z ->
    lt (of_Z (Qfloor (e / 3600000))) (of_Z h)
    = Qltb e (inject_Z (h * 3600000)).
Proof.
  intros e h Hh. rewrite lt_of_Z.
  assert (E : e / 3600000 < inject_Z h <-> e < inject_Z (h * 3600000)).
  { rewrite inject_Z_mult. change (inject_Z 3600000) with 3600000%Q.
    split; intro H.
    - apply Qmult_lt_r with (z := / 3600000); [reflexivity|].
      unfold Qdiv in H. setoid_replace (inject_Z h * 3600000 * / 3600000)
        with (inject_Z h) by field. exact H.
    - apply Qmult_lt_r with (z := / 3600000) in H; [|reflexivity].
      unfold Qdiv. setoid_replace (inject_Z h * 3600000 * / 3600000)
        with (inject_Z h) in H by field. exact H. }
  destruct (Z.ltb_spec (Qfloor (e / 3600000)) h) as [L|G];
    destruct (Qltb e (inject_Z (h * 3600000))) eqn:B; try reflexivity.
  - apply Qfloor_lt, E, Qltb_lt in L. rewrite L in B. discriminate B.
  - apply Qltb_lt, E, Qfloor_lt in B. lia.
Qed.

(** X8. What [formatDate] shows depends on the age of the date alone:
    under 24 hours (also for a date in the future, where the count is
    negative) the whole hours of the age and "h ago", from 24 to under 48
    hours "Yesterday", from 48 hours on the locale's date; and the
    locale's rendering also for a date that does not parse. *)
Theorem formatDate_by_age :
  forall (env : Env) (dateString : string),
    (getTime env dateString = NaN ->
     ArticlesPage.formatDate env dateString
     = lit (toLocaleDateString env dateString))
    /\ forall n t : Q,
         now env = Num n ->
         getTime env dateString = Num t ->
         (n - t < 86400000 ->
          ArticlesPage.formatDate env dateString
          = [toString (of_Z (Qfloor ((n - t) / 3600000))); Lit "h ago"]
          /\ (Qfloor ((n - t) / 3600000) < 24)%Z)
         /\ (86400000 <= n - t -> n - t < 172800000 ->
             ArticlesPage.formatDate env dateString = lit "Yesterday")
         /\ (172800000 <= n - t ->
             ArticlesPage.formatDate env dateString
             = lit (toLocaleDateString env dateString)).
Proof.
  intros env d. split.
  { intro H. unfold ArticlesPage.formatDate. rewrite H.
    destruct (now env); reflexivity. }
  intros n t Hn Ht. unfold ArticlesPage.formatDate. rewrite Hn, Ht.
  cbn [sub div_by Math_floor].
  change (inject_Z 3600000) with 3600000%Q.
  rewrite (hours_below (n - t) 24), (hours_below (n - t) 48) by lia.
  change (inject_Z (24 * 3600000)) with 86400000%Q.
  change (inject_Z (48 * 3600000)) with 172800000%Q.
  split; [|split].
  - intro H. pose proof H as B. apply Qltb_lt in B. rewrite B.
    split; [reflexivity|].
    apply Qfloor_lt. change (inject_Z 24) with 24%Q.
    apply Qmult_lt_r with (z := 3600000); [reflexivity|].
    unfold Qdiv.
    setoid_replace ((n - t) * / 3600000 * 3600000) with (n - t) by field.
    exact H.
  - intros H1 H2. apply Qltb_ge in H1. apply Qltb_lt in H2.
    rewrite H1, H2. reflexivity.
  - intro H.
    assert (H1 : Qltb (n - t) 86400000 = false) by (apply Qltb_ge; lra).
    apply Qltb_ge in H. rewrite H1, H. reflexivity.
Qed.

Lemma formatDate_by_age_witness :
  now sample_env = Num (inject_Z 1700000000000)
  /\ getTime sample_env "2023-11-14T08:00:00" = Num (inject_Z 1699990000000)
  /\ inject_Z 1700000000000 - inject_Z 1699990000000 < 86400000
  /\ ArticlesPage.formatDate sample_env "2023-11-14T08:00:00"
     = [Lit "2"; Lit "h ago"].
Proof.
  assert (H : inject_Z 1700000000000 - inject_Z 1699990000000 < 86400000)
    by reflexivity.
  destruct (formatDate_by_age sample_env "2023-11-14T08:00:00") as [_ Hage].
  destruct (Hage (inject_Z 1700000000000) (inject_Z 1699990000000)
              eq_refl eq_refl) as [Hhours _].
  split; [reflexivity|]. split; [reflexivity|]. split; [exact H|].
  destruct (Hhours H) as [E _]. rewrite E. reflexivity.
Defined.

(* ================================================================== *)
(** * The percentages of the analysis metrics *)
(* ================================================================== *)

(** For a score between 0 and 1 the product [score * 100] is the
    binary64 value nearest the real product, and [toFixed(0)] prints the
    integer nearest that value. *)
Lemma toFixed0_percent :
  forall q : Q,
    0 <= q -> q <= 1 ->
    toFixed0 (mul (Num q) (Num 100))
    = [Lit (digits (nearest_integer (nearest_double (q * 100))))]
    /\ (nearest_integer (nearest_double (q * 100)) <= 100)%N.
Proof.
  intros q H0 H1.
  destruct (binary64_between (q * 100) 100) as [E [L U]];
    [lra|lra|vm_compute; reflexivity|reflexivity|].
  unfold mul. rewrite E. unfold toFixed0.
  set (d := nearest_double (q * 100)) in *.
  assert (Hred : Qred d == d) by apply Qred_correct.
  assert (Hpos : Qltb (Qred d) 0 = false) by (apply Qltb_ge; lra).
  assert (Habs : Qabs (Qred d) == d) by (rewrite Qabs_pos; lra).
  assert (Hsmall : Qle_bool ten_pow_21 (Qabs (Qred d)) = false).
  { destruct (Qle_bool ten_pow_21 (Qabs (Qred d))) eqn:O; [|reflexivity].
    apply Qle_bool_iff in O. rewrite Habs in O. unfold ten_pow_21 in O.
    change (inject_Z (10 ^ 21)) with (1000000000000000000000 # 1) in O.
    lra. }
  rewrite Hpos, Hsmall. unfold nearest_integer.
  rewrite (Qfloor_comp (Qabs (Qred d) + (1 # 2)) (d + (1 # 2)))
    by (rewrite Habs; reflexivity).
  split; [reflexivity|].
  assert (Hle : (Qfloor (d + (1 # 2)) <= 100)%Z).
  { apply Z.le_trans with (Qfloor (201 # 2)); [|reflexivity].
    apply Qfloor_resp_le. lra. }
  lia.
Qed.

(** X9. For a score between 0 and 1 the signal metric of the card and the
    signal and confidence metrics of the detail page show the same whole
    number of percent, from 0 to 100: the integer nearest the product
    [score * 100] as binary64 multiplication gives it. *)
Theorem percent_metrics_are_within_0_100 :
  forall q : Q,
    0 <= q -> q <= 1 ->
    exists n : N,
      (n <= 100)%N
      /\ n = nearest_integer (nearest_double (q * 100))
      /\ pieces_of (ArticlesPage.signal_indicator (Present (Num q)))
         = [Lit (digits n); Lit "Signal"]
      /\ pieces_of (ArticleDetail.signal_metric (Present (Num q)))
         = [Lit "Signal Strength"; Lit (digits n); Lit "%"]
      /\ pieces_of (ArticleDetail.confidence_metric (Present (Num q)))
         = [Lit "AI Confidence"; Lit (digits n); Lit "%"].
Proof.
  intros q H0 H1. destruct (toFixed0_percent q H0 H1) as [E Hn].
  exists (nearest_integer (nearest_double (q * 100))).
  split; [exact Hn|]. split; [reflexivity|].
  unfold ArticlesPage.signal_indicator, ArticleDetail.signal_metric,
    ArticleDetail.confidence_metric, jsx_and.
  cbn [not_null truthy Truthy_bool to_number].
  unfold pieces_of. cbn [flat_map pieces el text lit app].
  rewrite E. repeat split.
Qed.

Lemma percent_metrics_are_within_0_100_witness :
  0 <= double_0_675 /\ double_0_675 <= 1
  /\ exists n : N,
       (n <= 100)%N
       /\ n = 68%N
       /\ pieces_of (ArticleDetail.signal_metric (Present (Num double_0_675)))
          = [Lit "Signal Strength"; Lit (digits n); Lit "%"].
Proof.
  assert (H0 : 0 <= double_0_675) by (unfold Qle; simpl; lia).
  assert (H1 : double_0_675 <= 1) by (unfold Qle; simpl; lia).
  split; [exact H0|]. split; [exact H1|].
  destruct (percent_metrics_are_within_0_100 double_0_675 H0 H1)
    as [n [Hn [Hv [_ [Hs _]]]]].
  exists n. split; [exact Hn|]. split; [|exact Hs].
  rewrite Hv. vm_compute. reflexivity.
Defined.

(** At the binary64 value just below 0.675 the product [score * 100] is
    rounded up to 67.5, which [toFixed(0)] prints as 68; the real product
    lies just below 67.5 and would print as 67. *)
Example percent_at_0_675 :
  mul (Num double_0_675) (Num 100) = Num (135 # 2)
  /\ toFixed0 (mul (Num double_0_675) (Num 100)) = [Lit "68"]
  /\ nearest_integer (double_0_675 * 100) = 67%N.
Proof. repeat split. Qed.

(* ================================================================== *)
(** * The sidebar of the layout *)
(* ================================================================== *)

Lemma highlighted_nav_link :
  forall pathname item,
    highlighted (Layout.nav_link pathname item)
    = Layout.isActive pathname item.
Proof.
  intros pathname item. unfold highlighted, Layout.nav_link. cbn.
  destruct (Layout.isActive pathname item); reflexivity.
Qed.

Lemma highlighted_links_active :
  forall pathname,
    highlighted_links pathname
    = map (Layout.nav_link pathname)
        (filter (Layout.isActive pathname) Layout.navigation).
Proof.
  intro pathname. unfold highlighted_links.
  induction Layout.navigation as [|item l IH]; [reflexivity|].
  cbn [map filter]. rewrite highlighted_nav_link, IH.
  destruct (Layout.isActive pathname item); reflexivity.
Qed.

(** X10. On every path the sidebar draws at most one link as active, and
    exactly one when the path is the target of a link; on the path of an
    article's detail page it draws none, the "Articles" link included. *)
Theorem sidebar_highlights_at_most_one :
  forall pathname : string,
    (List.length (highlighted_links pathname) <= 1)%nat
    /\ (List.length (highlighted_links pathname) = 1%nat
        <-> In pathname (map Layout.href Layout.navigation))
    /\ forall (c : ascii) (rest : string),
         highlighted_links ("/articles/" ++ String c rest) = [].
Proof.
  intro pathname. rewrite highlighted_links_active.
  split; [|split].
  - unfold Layout.isActive. cbn [Layout.navigation filter Layout.href].
    destruct (String.eqb_spec pathname "/") as [->|]; [cbn; lia|].
    destruct (String.eqb_spec pathname "/articles") as [->|]; [cbn; lia|].
    destruct (String.eqb_spec pathname "/trends") as [->|]; [cbn; lia|].
    destruct (String.eqb_spec pathname "/insights") as [->|]; [cbn; lia|].
    destruct (String.eqb_spec pathname "/digests") as [->|]; cbn; lia.
  - unfold Layout.isActive.
    cbn [Layout.navigation filter Layout.href map In].
    destruct (String.eqb_spec pathname "/") as [->|];
      [cbn; split; auto|].
    destruct (String.eqb_spec pathname "/articles") as [->|];
      [cbn; split; auto|].
    destruct (String.eqb_spec pathname "/trends") as [->|];
      [cbn; split; auto|].
    destruct (String.eqb_spec pathname "/insights") as [->|];
      [cbn; split; auto 6|].
    destruct (String.eqb_spec pathname "/digests") as [->|];
      [cbn; split; auto 6|].
    cbn. split; [discriminate|].
    intros [H|[H|[H|[H|[H|[]]]]]]; congruence.
  - intros c rest. rewrite highlighted_links_active. reflexivity.
Qed.

(* ================================================================== *)
(** * The colours of an insight *)
(* ================================================================== *)

(** X11. The circle, the bulb icon and the impact badge of an insight
    always have the same hue: red for the impact level ['high'], yellow
    for ['medium'], blue for anything else; the circle and the icon are
    drawn (in blue) even without an impact level, the badge only with a
    non-empty one. *)
Theorem insight_hues_agree :
  forall insight : InsightsPage.Insight,
    option_map hue_of (descend [0; 0; 0]%nat (InsightsPage.InsightCard insight))
    = Some (Some (hue_of_impact (InsightsPage.impact_level insight)))
    /\ option_map hue_of
         (descend [0; 0; 0; 0]%nat (InsightsPage.InsightCard insight))
       = Some (Some (hue_of_impact (InsightsPage.impact_level insight)))
    /\ map hue_of (InsightsPage.impact_badge (InsightsPage.impact_level insight))
       = (if truthy (InsightsPage.impact_level insight)
          then [Some (hue_of_impact (InsightsPage.impact_level insight))]
          else []).
Proof.
  intro insight.
  unfold InsightsPage.InsightCard, InsightsPage.impact_badge, hue_of_impact,
    InsightsPage.circle_class, InsightsPage.bulb_class,
    InsightsPage.impact_badge_class, jsx_and.
  cbn [descend children_of nth_error el option_map].
  destruct (strict_eq (InsightsPage.impact_level insight) "high") eqn:Eh.
  - split; [reflexivity|]. split; [reflexivity|].
    destruct (InsightsPage.impact_level insight) as [| |s];
      try discriminate Eh.
    cbn in Eh. apply String.eqb_eq in Eh. subst s. reflexivity.
  - destruct (strict_eq (InsightsPage.impact_level insight) "medium") eqn:Em.
    + split; [reflexivity|]. split; [reflexivity|].
      destruct (InsightsPage.impact_level insight) as [| |s];
        try discriminate Em.
      cbn in Em. apply String.eqb_eq in Em. subst s. reflexivity.
    + split; [reflexivity|]. split; [reflexivity|].
      destruct (InsightsPage.impact_level insight) as [| |s];
        try reflexivity.
      destruct s; reflexivity.
Qed.

(* ================================================================== *)
(** * The heading of a digest *)
(* ================================================================== *)

Lemma or_else_not_empty :
  forall (v : Opt string) (d : string), d <> "" -> or_else v d <> "".
Proof.
  intros v d Hd. unfold or_else. destruct v as [| |s]; try exact Hd.
  destruct s; [exact Hd|discriminate].
Qed.

(** X12. The heading of a digest is never blank: it is the title when
    there is a non-empty one and the digest type followed by " Digest"
    otherwise, also for a [null] or an empty title. *)
Theorem digest_heading_is_never_blank :
  forall (env : Env) (digest : DigestsPage.Digest),
    DigestsPage.heading digest <> ""
    /\ descend [0; 0; 1; 0]%nat (DigestsPage.DigestCard env digest)
       = Some (el "h3" "text-xl font-semibold text-gray-900"
                 [ text (DigestsPage.heading digest) ])
    /\ (truthy (DigestsPage.digest_title digest) = true ->
        DigestsPage.digest_title digest
        = Present (DigestsPage.heading digest))
    /\ (truthy (DigestsPage.digest_title digest) = false ->
        DigestsPage.heading digest
        = (DigestsPage.digest_type digest ++ " Digest")%string).
Proof.
  intros env digest.
  assert (Hne : DigestsPage.heading digest <> "").
  { apply or_else_not_empty.
    destruct (DigestsPage.digest_type digest); discriminate. }
  split; [exact Hne|]. split; [|split].
  - unfold DigestsPage.DigestCard.
    cbn [descend children_of nth_error el app].
    destruct (DigestsPage.heading digest); [contradiction|reflexivity].
  - unfold DigestsPage.heading, or_else.
    destruct (DigestsPage.digest_title digest) as [| |s]; try discriminate.
    intro H. change (truthy (Present s)) with (truthy s) in H.
    rewrite H. reflexivity.
  - unfold DigestsPage.heading, or_else.
    destruct (DigestsPage.digest_title digest) as [| |s]; try reflexivity.
    intro H. change (truthy (Present s)) with (truthy s) in H.
    rewrite H. reflexivity.
Qed.

Lemma digest_heading_is_never_blank_witness :
  truthy (@Null string) = false
  /\ DigestsPage.heading
       {| DigestsPage.digest_id := of_Z 1;
          DigestsPage.digest_type := "weekly";
          DigestsPage.period_start := "2023-11-06";
          DigestsPage.period_end := "2023-11-13";
          DigestsPage.created_date := "2023-11-13";
          DigestsPage.digest_title := Null;
          DigestsPage.digest_summary := Absent;
          DigestsPage.top_stories := Absent;
          DigestsPage.emerging_trends := Absent;
          DigestsPage.key_insights := Absent;
          DigestsPage.total_articles := Absent;
          DigestsPage.themes_covered := Absent;
          DigestsPage.regions_covered := Absent |}
     = "weekly Digest".
Proof.
  split; [reflexivity|].
  exact (proj2 (proj2 (proj2
           (digest_heading_is_never_blank sample_env
              {| DigestsPage.digest_id := of_Z 1;
                 DigestsPage.digest_type := "weekly";
                 DigestsPage.period_start := "2023-11-06";
                 DigestsPage.period_end := "2023-11-13";
                 DigestsPage.created_date := "2023-11-13";
                 DigestsPage.digest_title := Null;
                 DigestsPage.digest_summary := Absent;
                 DigestsPage.top_stories := Absent;
                 DigestsPage.emerging_trends := Absent;
                 DigestsPage.key_insights := Absent;
                 DigestsPage.total_articles := Absent;
                 DigestsPage.themes_covered := Absent;
                 DigestsPage.regions_covered := Absent |})))
           eq_refl).
Defined.

(* ================================================================== *)
(** * The key takeaways on the card and on the detail page *)
(* ================================================================== *)

Lemma count_tags_app :
  forall tag l1 l2,
    count_tags tag (l1 ++ l2) = (count_tags tag l1 + count_tags tag l2)%nat.
Proof.
  intros tag l1 l2. unfold count_tags. rewrite map_app. apply list_sum_app.
Qed.

Lemma count_tags_cons :
  forall tag n l,
    count_tags tag (n :: l) = (count_tag tag n + count_tags tag l)%nat.
Proof. reflexivity. Qed.

Lemma count_tag_Elem :
  forall tag t attrs children,
    count_tag tag (Elem t attrs children)
    = ((if String.eqb t tag then 1 else 0) + count_tags tag children)%nat.
Proof. reflexivity. Qed.

Lemma count_child_string :
  forall tag (s : string), count_tags tag (child s) = 0%nat.
Proof. intros tag s; destruct s; reflexivity. Qed.

Lemma count_child_Opt_string :
  forall tag (v : Opt string), count_tags tag (child v) = 0%nat.
Proof.
  intros tag [| |s]; try reflexivity. apply (count_child_string tag s).
Qed.

Lemma count_jsx_and :
  forall (A : Type) (T : Truthy A) (C : Child A) tag (v : A) (els : list Node),
    count_tags tag (child v) = 0%nat ->
    count_tags tag els = 0%nat ->
    count_tags tag (jsx_and v els) = 0%nat.
Proof.
  intros A T C tag v els Hv Hels. unfold jsx_and.
  destruct (truthy v); assumption.
Qed.

(** A list item per takeaway, whatever the items hold besides text. *)
Lemma count_li_combine :
  forall (f : nat -> string -> Node) (l : list string) (idx : list nat),
    (forall i s, count_tag "li" (f i s) = 1%nat) ->
    (List.length l <= List.length idx)%nat ->
    count_tags "li" (map (fun p => f (fst p) (snd p)) (combine idx l))
    = List.length l.
Proof.
  intros f l. induction l as [|s l IH]; intros idx Hf Hlen.
  - destruct idx; reflexivity.
  - destruct idx as [|i idx]; [cbn in Hlen; lia|].
    cbn [combine map fst snd List.length]. rewrite count_tags_cons, Hf.
    rewrite IH by (try exact Hf; cbn in Hlen; lia). reflexivity.
Qed.

Lemma count_li_items :
  forall (f : nat -> string -> Node) (l : list string),
    (forall i s, count_tag "li" (f i s) = 1%nat) ->
    count_tags "li" (mapi f l) = List.length l.
Proof.
  intros f l Hf. unfold mapi. apply count_li_combine; [exact Hf|].
  rewrite length_seq. lia.
Qed.


Lemma count_tags_nil : forall tag, count_tags tag [] = 0%nat.
Proof. reflexivity. Qed.

Lemma count_tag_Text : forall tag t, count_tag tag (Text t) = 0%nat.
Proof. reflexivity. Qed.

Lemma count_child_bool :
  forall tag (b : bool), count_tags tag (child b) = 0%nat.
Proof. reflexivity. Qed.

Lemma count_child_number :
  forall tag (n : number), count_tags tag (child n) = 0%nat.
Proof. reflexivity. Qed.

Lemma count_child_Opt_number :
  forall tag (v : Opt number), count_tags tag (child v) = 0%nat.
Proof. intros tag [| |n]; reflexivity. Qed.

Lemma count_jsx_and_eq :
  forall (A : Type) (T : Truthy A) (C : Child A) tag (v : A) (els : list Node),
    count_tags tag (jsx_and v els)
    = if truthy v then count_tags tag els else count_tags tag (child v).
Proof.
  intros A T C tag v els. unfold jsx_and. destruct (truthy v); reflexivity.
Qed.

Lemma if_same_nat : forall (b : bool) (n : nat), (if b then n else n) = n.
Proof. intros [] n; reflexivity. Qed.

(** Counting the list items of a tree, block by block. *)
Ltac count_li :=
  repeat
    (rewrite ?count_jsx_and_eq, ?count_tag_Elem, ?count_tags_cons,
       ?count_tags_app, ?count_tags_nil, ?count_tag_Text,
       ?count_child_string, ?count_child_Opt_string, ?count_child_bool,
       ?count_child_number, ?count_child_Opt_number, ?if_same_nat;
     cbn [String.eqb Ascii.eqb Bool.eqb Nat.add]).

Lemma count_li_of_items :
  forall (l : list string) (attrs : nat -> list (string * Template))
         (body : nat -> string -> list Node),
    (forall i s, count_tags "li" (body i s) = 0%nat) ->
    count_tags "li" (mapi (fun i s => Elem "li" (attrs i) (body i s)) l)
    = List.length l.
Proof.
  intros l attrs body Hbody. apply count_li_items.
  intros i s. rewrite count_tag_Elem, Hbody. reflexivity.
Qed.

Lemma count_tags_map_zero :
  forall (A : Type) tag (f : A -> Node) (l : list A),
    (forall x, count_tag tag (f x) = 0%nat) ->
    count_tags tag (map f l) = 0%nat.
Proof.
  intros A tag f l Hf. induction l as [|x l IH]; [reflexivity|].
  cbn [map]. rewrite count_tags_cons, Hf, IH. reflexivity.
Qed.

Lemma count_li_chips :
  forall (themes : list Theme) (sectors : list Sector),
    count_tags "li" (map ArticleDetail.theme_chip themes) = 0%nat
    /\ count_tags "li" (map ArticleDetail.sector_chip sectors) = 0%nat.
Proof.
  intros themes sectors. split; apply count_tags_map_zero; intro x;
    unfold ArticleDetail.theme_chip, ArticleDetail.sector_chip; count_li;
    reflexivity.
Qed.

(** X13. The card of an article lists at most two of its key takeaways,
    the first two, and the detail page lists them all; neither lists
    anything when the takeaways are empty, [null] or absent. *)
Theorem card_lists_two_takeaways_detail_all :
  forall (env : Env) (a : Article),
    count_tag "li" (ArticlesPage.ArticleCard env a)
    = match key_takeaways a with
      | Present takeaways => Nat.min 2 (List.length takeaways)
      | _ => 0%nat
      end
    /\ count_tag "li" (ArticleDetail.article_view env a)
       = match key_takeaways a with
         | Present takeaways => List.length takeaways
         | _ => 0%nat
         end.
Proof.
  intros env a.
  unfold ArticlesPage.ArticleCard, ArticleDetail.article_view,
    ArticleDetail.analysis_metrics, ArticlesPage.sentiment_badge,
    ArticlesPage.signal_indicator, ArticleDetail.signal_metric,
    ArticleDetail.sentiment_metric, ArticleDetail.confidence_metric, el, text.
  destruct (count_li_chips (themes a) (sectors a)) as [Ht Hs].
  destruct (key_takeaways a) as [| |takeaways].
  - count_li. rewrite Ht, Hs. count_li. split; reflexivity.
  - count_li. rewrite Ht, Hs. count_li. split; reflexivity.
  - count_li. rewrite Ht, Hs.
    rewrite !count_li_of_items by (intros; count_li; reflexivity).
    count_li. rewrite length_firstn.
    replace (truthy (Present takeaways)) with true by reflexivity.
    destruct takeaways as [|s l]; [split; reflexivity|].
    replace (truthy (0 <? List.length (s :: l))%nat) with true
      by reflexivity.
    split; lia.
Qed.

(* ================================================================== *)
(** * The theme badge of an article without linked themes *)
(* ================================================================== *)

(** X14. When an article has a primary theme but its first linked theme
    has no colour -- in particular when it has no linked theme at all --
    the theme badge of the card takes the text colour [#3B82F6] from the
    fallback, but its background is built from the missing colour and is
    the string [undefined20]. *)
Theorem theme_badge_without_colour :
  forall (env : Env) (a : Article) (c : ascii) (rest : string),
    primary_theme a = Present (String c rest) ->
    ArticlesPage.first_theme_color (themes a) = Absent ->
    exists badges,
      descend [0; 0; 0; 0]%nat (ArticlesPage.ArticleCard env a) = Some badges
      /\ List.last (children_of badges) (Text [])
         = Elem "span"
             [ ("className",
                lit "inline-flex items-center px-2 py-1 rounded-full text-xs font-medium");
               ("style.backgroundColor", [Lit "undefined"; Lit "20"]);
               ("style.color", lit "#3B82F6") ]
             [ text (String c rest) ].
Proof.
  intros env a c rest Htheme Hcolor.
  unfold ArticlesPage.ArticleCard.
  cbn [descend children_of nth_error el app].
  eexists. split; [reflexivity|].
  cbn [children_of]. rewrite Htheme, Hcolor.
  unfold jsx_and.
  destruct (is_featured a), (is_emerging a); reflexivity.
Qed.

Lemma theme_badge_without_colour_witness :
  primary_theme themed_article = Present "AI Governance"
  /\ ArticlesPage.first_theme_color (themes themed_article) = Absent
  /\ exists badges,
       descend [0; 0; 0; 0]%nat
         (ArticlesPage.ArticleCard sample_env themed_article) = Some badges
       /\ List.last (children_of badges) (Text [])
          = Elem "span"
              [ ("className",
                 lit "inline-flex items-center px-2 py-1 rounded-full text-xs font-medium");
                ("style.backgroundColor", [Lit "undefined"; Lit "20"]);
                ("style.color", lit "#3B82F6") ]
              [ text "AI Governance" ].
Proof.
  split; [reflexivity|]. split; [reflexivity|].
  exact (theme_badge_without_colour sample_env themed_article
           "A"%char "I Governance" eq_refl eq_refl).
Defined.

(* ================================================================== *)
(** * Paging after a change of filter *)
(* ================================================================== *)

Lemma truthy_of_Z :
  forall z : Z, truthy (of_Z z) = negb (z =? 0)%Z.
Proof.
  intro z. change (truthy (of_Z z)) with (negb (Qeq_bool (inject_Z z) 0)).
  f_equal. unfold Qeq_bool. cbn [inject_Z Qnum Qden].
  rewrite Z.mul_1_r. reflexivity.
Qed.

Lemma handleLoadMore_next_page :
  forall (f : ArticleFilters) (j : nat),
    f K_skip = VNum (of_Z (20 * Z.of_nat j)) ->
    handleLoadMore f K_skip = VNum (of_Z (20 * Z.of_nat (S j))).
Proof.
  intros f j H. unfold handleLoadMore, with_key. cbn [FilterKey_eqb].
  rewrite H. unfold or_zero.
  change (truthy (VNum (of_Z (20 * Z.of_nat j))))
    with (truthy (of_Z (20 * Z.of_nat j))).
  rewrite truthy_of_Z.
  destruct (Z.eqb_spec (20 * Z.of_nat j) 0) as [E|E]; cbn [negb plus_20].
  - assert (j = 0%nat) by lia. subst j. reflexivity.
  - rewrite of_Z_plus_20. reflexivity.
Qed.

Lemma load_more_pages :
  forall (env : Env) (k j : nat) (f : ArticleFilters),
    f K_skip = VNum (of_Z (20 * Z.of_nat j)) ->
    fold_left (fun f e => handle env e f) (repeat LoadMoreClicked k) f K_skip
    = VNum (of_Z (20 * Z.of_nat (j + k))).
Proof.
  intros env k. induction k as [|k IH]; intros j f H.
  - rewrite Nat.add_0_r. exact H.
  - cbn [repeat fold_left handle].
    rewrite (IH (S j)) by (apply handleLoadMore_next_page; exact H).
    do 3 f_equal. lia.
Qed.

(** X15. Any change of a filter goes back to the first page, and each
    "Load More" after it moves one page of 20 on: after a change of
    filter followed by [k] clicks on "Load More" the request sends
    [skip = 20 * k], whatever the state was before the change. *)
Theorem paging_restarts_at_a_filter_change :
  forall (V : Opt string) (env : Env) (e : Event) (k : nat)
         (prev : ArticleFilters),
    e <> LoadMoreClicked ->
    Axios.sent "skip"
      (articles_request V
         (fold_left (fun f e => handle env e f) (repeat LoadMoreClicked k)
            (handle env e prev)))
    = Some (VNum (of_Z (20 * Z.of_nat k))).
Proof.
  intros V env e k prev He.
  change "skip" with (key_name K_skip). rewrite sent_filter_key.
  rewrite (load_more_pages env k 0).
  - reflexivity.
  - destruct e; try reflexivity. contradiction.
Qed.

Lemma paging_restarts_at_a_filter_change_witness :
  RegionChanged "Europe" <> LoadMoreClicked
  /\ Axios.sent "skip"
       (articles_request Absent
          (fold_left (fun f e => handle sample_env e f)
             (repeat LoadMoreClicked 3)
             (handle sample_env (RegionChanged "Europe")
                (handleLoadMore initial_filters))))
     = Some (VNum (of_Z 60)).
Proof.
  assert (H : RegionChanged "Europe" <> LoadMoreClicked) by discriminate.
  split; [exact H|].
  exact (paging_restarts_at_a_filter_change Absent sample_env
           (RegionChanged "Europe") 3 (handleLoadMore initial_filters) H).
Defined.

(* ================================================================== *)
(** * The relevance of an insight *)
(* ================================================================== *)

(** X16. The relevance badge of an insight: for a relevance above 0 and
    up to 1 it reads "Relevance: n%" with [n], between 0 and 100, the
    integer nearest the product [relevance * 100] as binary64
    multiplication gives it; an absent or [null] relevance draws nothing;
    a relevance of 0 fails the guard [relevance_score && ...] and leaves
    a bare 0 in the row. *)
Theorem relevance_badge_cases :
  forall q : Q,
    InsightsPage.relevance_badge Absent = []
    /\ InsightsPage.relevance_badge Null = []
    /\ (q == 0 ->
        pieces_of (InsightsPage.relevance_badge (Present (Num q)))
        = [toString (Num q)])
    /\ (0 < q -> q <= 1 ->
        (nearest_integer (nearest_double (q * 100)) <= 100)%N
        /\ InsightsPage.relevance_badge (Present (Num q))
           = [ el "span" "text-gray-500"
                 [ text "Relevance: ";
                   Text [Lit (digits (nearest_integer
                                        (nearest_double (q * 100))))];
                   text "%" ] ]).
Proof.
  intro q. split; [reflexivity|]. split; [reflexivity|].
  unfold InsightsPage.relevance_badge, jsx_and.
  change (truthy (Present (Num q))) with (negb (Qeq_bool q 0)).
  split.
  - intro H. apply Qeq_bool_iff in H. rewrite H. reflexivity.
  - intros H0 H1.
    assert (E : Qeq_bool q 0 = false).
    { destruct (Qeq_bool q 0) eqn:B; [|reflexivity].
      apply Qeq_bool_iff in B. lra. }
    rewrite E. cbn [negb to_number].
    destruct (toFixed0_percent q) as [F Hn]; [lra|exact H1|].
    split; [exact Hn|]. rewrite F. reflexivity.
Qed.

Lemma relevance_badge_cases_witness :
  0 == 0 /\ 0 < 1 # 2 /\ 1 # 2 <= 1
  /\ pieces_of (InsightsPage.relevance_badge (Present (Num 0))) = [Lit "0"]
  /\ pieces_of (InsightsPage.relevance_badge (Present (Num (1 # 2))))
     = [Lit "Relevance: "; Lit "50"; Lit "%"].
Proof.
  assert (H0 : 0 < 1 # 2) by reflexivity.
  assert (H1 : 1 # 2 <= 1) by (unfold Qle; simpl; lia).
  assert (Hz : 0 == 0) by reflexivity.
  split; [exact Hz|]. split; [exact H0|]. split; [exact H1|].
  split.
  - destruct (relevance_badge_cases 0) as [_ [_ [Hzero _]]].
    rewrite (Hzero Hz). reflexivity.
  - destruct (relevance_badge_cases (1 # 2)) as [_ [_ [_ Hpos]]].
    destruct (Hpos H0 H1) as [_ E]. rewrite E. reflexivity.
Defined.


(* ================================================================== *)
(** * The sections of a digest *)
(* ================================================================== *)

Lemma count_combine :
  forall (A : Type) (tag : string) (c : nat) (f : nat -> A -> Node)
         (l : list A) (idx : list nat),
    (forall i x, count_tag tag (f i x) = c) ->
    (List.length l <= List.length idx)%nat ->
    count_tags tag (map (fun p => f (fst p) (snd p)) (combine idx l))
    = (c * List.length l)%nat.
Proof.
  intros A tag c f l. induction l as [|x l IH]; intros idx Hf Hlen.
  - destruct idx; cbn; lia.
  - destruct idx as [|i idx]; [cbn in Hlen; lia|].
    cbn [combine map fst snd List.length]. rewrite count_tags_cons, Hf.
    rewrite IH by (try exact Hf; cbn in Hlen; lia). lia.
Qed.

Lemma count_mapi :
  forall (A : Type) (tag : string) (c : nat) (f : nat -> A -> Node)
         (l : list A),
    (forall i x, count_tag tag (f i x) = c) ->
    count_tags tag (mapi f l) = (c * List.length l)%nat.
Proof.
  intros A tag c f l Hf. unfold mapi. apply count_combine; [exact Hf|].
  rewrite length_seq. lia.
Qed.

Lemma count_child_value :
  forall tag (v : value),
    count_tags tag (@child value DigestsPage.Child_value v) = 0%nat.
Proof. intros tag [| |b|n|s]; try reflexivity. apply count_child_string. Qed.

Lemma count_when_nonempty :
  forall (A : Type) (tag : string) (l : Opt (list A))
         (block : list A -> list Node) (c : list A -> nat),
    (forall items, count_tags tag (block items) = c items) ->
    count_tags tag (DigestsPage.when_nonempty l block)
    = match l with
      | Present (x :: items) => c (x :: items)
      | _ => 0%nat
      end.
Proof.
  intros A tag l block c Hblock. unfold DigestsPage.when_nonempty.
  destruct l as [| |items]; try reflexivity.
  destruct items as [|x items]; [reflexivity|].
  unfold jsx_and. change (truthy (0 <? List.length (x :: items))%nat) with true.
  cbv iota. apply Hblock.
Qed.

(** A child of type [any] holds no element, whatever its depth. *)
Lemma count_child_any :
  forall (tag : string) (a : any),
    count_tags tag (DigestsPage.child_any a) = 0%nat.
Proof.
  intro tag. fix rec 1. intros [v|items|].
  - apply count_child_value.
  - cbn [DigestsPage.child_any].
    induction items as [|x l IH]; [reflexivity|].
    cbn [flat_map]. rewrite count_tags_app, (rec x), IH.
    reflexivity.
  - reflexivity.
Qed.

(** React can render a child of type [any] exactly when there is no
    object in it. *)
Lemma renderable_child_any :
  forall a : any,
    forallb renderable (DigestsPage.child_any a) = no_object a.
Proof.
  fix rec 1. intros [v|items|].
  - destruct v as [| |b|n|s]; try reflexivity. destruct s; reflexivity.
  - cbn [DigestsPage.child_any no_object].
    induction items as [|x l IH]; [reflexivity|].
    cbn [flat_map forallb]. rewrite forallb_app, (rec x), IH.
    reflexivity.
  - reflexivity.
Qed.

Lemma renderable_Elem :
  forall t attrs children,
    renderable (Elem t attrs children) = forallb renderable children.
Proof. reflexivity. Qed.

Lemma renderable_child_string :
  forall s : string, forallb renderable (child s) = true.
Proof. intros [|c s]; reflexivity. Qed.

Lemma renderable_child_Opt_string :
  forall v : Opt string, forallb renderable (child v) = true.
Proof. intros [| |s]; try reflexivity. apply renderable_child_string. Qed.

Lemma renderable_child_number :
  forall n : number, forallb renderable (child n) = true.
Proof. reflexivity. Qed.

Lemma renderable_child_Opt_number :
  forall v : Opt number, forallb renderable (child v) = true.
Proof. intros [| |n]; reflexivity. Qed.

Lemma renderable_jsx_and :
  forall (A : Type) (T : Truthy A) (C : Child A) (v : A) (els : list Node),
    forallb renderable (jsx_and v els)
    = if truthy v then forallb renderable els
      else forallb renderable (child v).
Proof. intros A T C v els. unfold jsx_and. destruct (truthy v); reflexivity. Qed.

Lemma renderable_combine :
  forall (A : Type) (f : nat -> A -> Node) (g : A -> bool)
         (l : list A) (idx : list nat),
    (forall i x, renderable (f i x) = g x) ->
    (List.length l <= List.length idx)%nat ->
    forallb renderable (map (fun p => f (fst p) (snd p)) (combine idx l))
    = forallb g l.
Proof.
  intros A f g l. induction l as [|x l IH]; intros idx Hf Hlen.
  - destruct idx; reflexivity.
  - destruct idx as [|i idx]; [cbn in Hlen; lia|].
    cbn [combine map fst snd forallb]. rewrite Hf.
    rewrite IH by (try exact Hf; cbn in Hlen; lia). reflexivity.
Qed.

Lemma renderable_mapi :
  forall (A : Type) (f : nat -> A -> Node) (g : A -> bool) (l : list A),
    (forall i x, renderable (f i x) = g x) ->
    forallb renderable (mapi f l) = forallb g l.
Proof.
  intros A f g l Hf. unfold mapi. apply renderable_combine; [exact Hf|].
  rewrite length_seq. lia.
Qed.

Lemma forallb_true :
  forall (A : Type) (l : list A), forallb (fun _ => true) l = true.
Proof. induction l; [reflexivity|assumption]. Qed.

Lemma renderable_when_nonempty :
  forall (A : Type) (l : Opt (list A)) (block : list A -> list Node)
         (g : A -> bool),
    (forall items, forallb renderable (block items) = forallb g items) ->
    forallb renderable (DigestsPage.when_nonempty l block)
    = match l with
      | Present items => forallb g items
      | _ => true
      end.
Proof.
  intros A l block g Hblock. unfold DigestsPage.when_nonempty.
  destruct l as [| |items]; try reflexivity.
  destruct items as [|x items]; [reflexivity|].
  unfold jsx_and. change (truthy (0 <? List.length (x :: items))%nat) with true.
  cbv iota. apply Hblock.
Qed.

(** Whether React can render a tree, block by block. *)
Ltac render_ok :=
  repeat
    (rewrite ?renderable_Elem, ?forallb_app, ?renderable_jsx_and,
       ?renderable_child_string, ?renderable_child_Opt_string,
       ?renderable_child_number, ?renderable_child_Opt_number;
     cbn [forallb renderable andb]).

(** X17. The card of a digest has a section for each of its three lists
    that is present and not empty, and none for a list that is absent,
    [null] or empty: a heading per such list, and a list item for every
    top story and every key insight.  The entries of these two lists are
    of type [any]: React can render the card exactly when none of them
    holds an object; with an object among them it throws and draws
    nothing. *)
Theorem digest_sections_follow_the_lists :
  forall (env : Env) (digest : DigestsPage.Digest),
    count_tag "h4" (DigestsPage.DigestCard env digest)
    = (has_entries (DigestsPage.top_stories digest)
       + has_entries (DigestsPage.emerging_trends digest)
       + has_entries (DigestsPage.key_insights digest))%nat
    /\ count_tag "li" (DigestsPage.DigestCard env digest)
       = (entries (DigestsPage.top_stories digest)
          + entries (DigestsPage.key_insights digest))%nat
    /\ renderable (DigestsPage.DigestCard env digest)
       = objects_free (DigestsPage.top_stories digest)
         && objects_free (DigestsPage.key_insights digest).
Proof.
  intros env digest.
  unfold DigestsPage.DigestCard, DigestsPage.bullet_list, el, text.
  split; [|split].
  - count_li.
    rewrite !(count_when_nonempty _ "h4" _ _ (fun _ => 1%nat))
      by (intro items; count_li;
          rewrite count_mapi with (c := 0%nat)
            by (intros; count_li;
                rewrite ?(count_child_any "h4"); reflexivity);
          reflexivity).
    rewrite !(count_when_nonempty _ "h4" _ _ (fun _ => 0%nat))
      by (intro items; count_li; reflexivity).
    unfold has_entries, entries.
    destruct (DigestsPage.top_stories digest) as [| |[|? ?]],
             (DigestsPage.emerging_trends digest) as [| |[|? ?]],
             (DigestsPage.key_insights digest) as [| |[|? ?]],
             (DigestsPage.themes_covered digest) as [| |[|? ?]],
             (DigestsPage.regions_covered digest) as [| |[|? ?]];
      reflexivity.
  - count_li.
    rewrite (count_when_nonempty _ "li" (DigestsPage.top_stories digest) _
               (fun items => List.length items))
      by (intro items; count_li;
          rewrite count_mapi with (c := 1%nat)
            by (intros; count_li;
                rewrite ?(count_child_any "li"); reflexivity);
          lia).
    rewrite (count_when_nonempty _ "li" (DigestsPage.key_insights digest) _
               (fun items => List.length items))
      by (intro items; count_li;
          rewrite count_mapi with (c := 1%nat)
            by (intros; count_li;
                rewrite ?(count_child_any "li"); reflexivity);
          lia).
    rewrite !(count_when_nonempty _ "li" _ _ (fun _ => 0%nat))
      by (intro items; count_li;
          rewrite ?count_mapi with (c := 0%nat)
            by (intros; count_li; reflexivity);
          reflexivity).
    unfold entries.
    destruct (DigestsPage.top_stories digest) as [| |[|? ?]],
             (DigestsPage.emerging_trends digest) as [| |[|? ?]],
             (DigestsPage.key_insights digest) as [| |[|? ?]],
             (DigestsPage.themes_covered digest) as [| |[|? ?]],
             (DigestsPage.regions_covered digest) as [| |[|? ?]];
      cbn [List.length]; lia.
  - render_ok.
    rewrite (renderable_when_nonempty _ (DigestsPage.top_stories digest) _
               no_object)
      by (intro items; render_ok; rewrite !andb_true_r;
          apply renderable_mapi; intros i x; rewrite renderable_Elem;
          apply renderable_child_any).
    rewrite (renderable_when_nonempty _ (DigestsPage.key_insights digest) _
               no_object)
      by (intro items; render_ok; rewrite !andb_true_r;
          apply renderable_mapi; intros i x; rewrite renderable_Elem;
          apply renderable_child_any).
    rewrite !(renderable_when_nonempty _ _ _ (fun _ => true))
      by (intro items; render_ok; rewrite ?andb_true_r;
          first [ apply renderable_mapi; intros i x; render_ok; reflexivity
                | rewrite forallb_true; reflexivity ]).
    unfold objects_free.
    destruct (truthy (DigestsPage.digest_summary digest)),
             (truthy (DigestsPage.total_articles digest)),
             (DigestsPage.top_stories digest) as [| |stories],
             (DigestsPage.emerging_trends digest) as [| |trends],
             (DigestsPage.key_insights digest) as [| |insights],
             (DigestsPage.themes_covered digest) as [| |themes],
             (DigestsPage.regions_covered digest) as [| |regions];
      rewrite ?forallb_true, ?andb_true_r; cbn [andb]; reflexivity.
Qed.

(** A digest whose only top story is an object, as the backend may send
    it: the card has one list item for it, and React cannot render the
    card. *)
Example digest_with_an_object_story :
  forall env : Env,
    count_tag "li" (DigestsPage.DigestCard env object_story_digest) = 1%nat
    /\ renderable (DigestsPage.DigestCard env object_story_digest) = false
    /\ renderable (DigestsPage.DigestCard env text_story_digest) = true.
Proof. intro env. repeat split. Qed.

(* ================================================================== *)
(** * The signal of a featured story *)
(* ================================================================== *)

(** X18. Beside a featured story the dashboard draws the signal bars
    exactly for a signal strength that is a number other than 0: five
    bars, of which for a signal between 0 and 1 [Math.round] of the
    binary64 product [5 * signal] are green, so a signal above 0 and up
    to 0.099 draws five gray bars.  An absent or [null] signal strength
    draws nothing there, and a signal strength of 0 fails the guard
    [signal_strength && ...] and leaves the text of the number in place
    of the bars. *)
Theorem featured_story_signal :
  forall (env : Env) (article : Article),
    (truthy (signal_strength article) = false ->
     signal_slot (Dashboard.FeaturedStory env article)
     = match signal_strength article with
       | Present n => [Text [toString n]]
       | _ => []
       end)
    /\ forall q : Q,
         signal_strength article = Present (Num q) ->
         ~ q == 0 ->
         signal_slot (Dashboard.FeaturedStory env article)
         = [ el "div" "ml-4 flex-shrink-0" [ Dashboard.SignalStrength (Num q) ] ]
         /\ List.length (bars_of (Dashboard.SignalStrength (Num q))) = 5%nat
         /\ (0 <= q -> q <= 1 ->
             green_bars (Dashboard.SignalStrength (Num q))
             = Z.to_nat (round_half_up (nearest_double (q * 5)))
             /\ (green_bars (Dashboard.SignalStrength (Num q)) <= 5)%nat)
         /\ (0 < q -> q <= 99 # 1000 ->
             green_bars (Dashboard.SignalStrength (Num q)) = 0%nat).
Proof.
  intros env article. unfold signal_slot, Dashboard.FeaturedStory.
  cbn [descend children_of nth_error el app tl]. unfold jsx_and.
  split.
  - intro H. rewrite H. destruct (signal_strength article); reflexivity.
  - intros q Hq Hne. rewrite Hq.
    assert (T : truthy (Present (Num q)) = true).
    { change (truthy (Present (Num q))) with (negb (Qeq_bool q 0)).
      destruct (Qeq_bool q 0) eqn:B; [|reflexivity].
      apply Qeq_bool_iff in B. contradiction. }
    rewrite T. split; [reflexivity|]. split; [reflexivity|]. split.
    + intros H0 H1. destruct (green_bars_unit_interval q H0 H1) as [B E].
      rewrite E. split; [reflexivity|lia].
    + intros H0 H1.
      assert (U : q <= 1) by lra.
      destruct (green_bars_unit_interval q (Qlt_le_weak _ _ H0) U) as [B E].
      rewrite E.
      assert (M : (round_half_up (nearest_double (q * 5))
                   <= round_half_up (nearest_double (99 # 200)))%Z).
      { apply round_half_up_le, nearest_double_le. lra. }
      assert (Z0 : round_half_up (nearest_double (99 # 200)) = 0%Z)
        by (vm_compute; reflexivity).
      rewrite Z0 in M.
      replace (round_half_up (nearest_double (q * 5))) with 0%Z by lia.
      reflexivity.
Qed.

Lemma featured_story_signal_witness :
  signal_strength themed_article = Present (Num (3 # 4))
  /\ ~ 3 # 4 == 0
  /\ 0 <= 3 # 4 /\ 3 # 4 <= 1
  /\ truthy (signal_strength unanalyzed_article) = false
  /\ signal_slot (Dashboard.FeaturedStory sample_env unanalyzed_article) = []
  /\ green_bars (Dashboard.SignalStrength (Num (3 # 4))) = 4%nat.
Proof.
  assert (Hne : ~ 3 # 4 == 0) by discriminate.
  assert (H0 : 0 <= 3 # 4) by (unfold Qle; simpl; lia).
  assert (H1 : 3 # 4 <= 1) by (unfold Qle; simpl; lia).
  assert (Hf : truthy (signal_strength unanalyzed_article) = false)
    by reflexivity.
  split; [reflexivity|]. split; [exact Hne|].
  split; [exact H0|]. split; [exact H1|]. split; [exact Hf|].
  split.
  - destruct (featured_story_signal sample_env unanalyzed_article)
      as [Hnone _].
    rewrite (Hnone Hf). reflexivity.
  - destruct (featured_story_signal sample_env themed_article) as [_ Hbars].
    destruct (Hbars (3 # 4) eq_refl Hne) as [_ [_ [Hunit _]]].
    destruct (Hunit H0 H1) as [E _].
    rewrite E. vm_compute. reflexivity.
Defined.
